(** * Limitless Apparel POS: the database layer ([src/js/db.js])

    A shallow embedding of [DatabaseManager], of the part of the till
    that builds its inputs and shows its answers ([src/js/pos.js]) and of
    two pieces of the manager's dashboard ([src/js/admin.js]), together
    with the properties of the sale / stock / ledger subsystem.

    Every method of [DatabaseManager] is an [async] function whose only
    effects are requests to the remote store ([await supabase...]).  A
    method is therefore embedded as a finite tree of requests ([prog]); the
    remote store is a state machine that serves one request at a time
    ([serve]); running a method alone is [run], and running two calls whose
    requests interleave at their [await]s is [run2].

    Embedded here, of [db.js]: [getProducts], [getProductById],
    [getProductByBarcode], [createProduct], [updateProduct],
    [deleteProduct], [createSale], [createInventoryTransaction],
    [restockProduct], [getInventorySummary], [getCategories] and
    [checkBarcodeExists]; of [pos.js]: the cart ([addToCart],
    [updateCartItemQuantity], [removeFromCart], [clearCart], the amount of
    [updateCartUI]), the sale data of [processPayment], [filterProducts],
    [loadCategories], [updateInventoryStats] and the filters and badges
    of [renderInventoryItems]; of [admin.js]: the badge of
    [createInventoryItemElement] and the update of [saveProductChanges].
    The reports over past sales ([getSales], [getTodaySales],
    [getSalesAnalytics]) and [getProductTransactions] select and order by
    timestamps, which the tables here do not carry; they are not
    embedded. *)

From Stdlib Require Import List String Ascii Bool Arith ZArith QArith Qabs.
From Stdlib Require Import Lia Lqa.
From Stdlib Require Import Sorting.Sorted Sorting.Permutation.
From Stdlib Require Import DecimalString.
Import ListNotations.

Local Open Scope string_scope.
Local Open Scope list_scope.
Local Open Scope Z_scope.

(* ================================================================== *)
(** * JavaScript values *)
(* ================================================================== *)

(** A JavaScript number: [NaN], which is what [parseInt] and [parseFloat]
    answer on input that is not numeric, or a finite value.  A finite
    value is a binary64 floating-point number, kept as the rational it
    is; a rational that is not a binary64 value stands for the binary64
    value nearest to it ([binary64]), as a decimal that is read from a
    column or from a literal does.

    Whole numbers are not bounded: a whole number stands for itself
    whatever its size (binary64 holds whole numbers exactly up to 2^53,
    which no stock count and no amount in cents comes near).  Hence there
    are no infinities; the sign of zero is not represented. *)
Inductive number : Type :=
| NaN
| Num (q : Q).

Definition of_Z (z : Z) : number := Num (inject_Z z).

(** ** Rounding to binary64 *)

(** The integer nearest to [n / d], for [d > 0]; of two that are as near,
    the even one. *)
Definition round_half_even (n d : Z) : Z :=
  let f := n / d in
  match (2 * (n mod d)) ?= d with
  | Lt => f
  | Gt => f + 1
  | Eq => if Z.even f then f else f + 1
  end.

(** [n / (d * 2 ^ e)] as a fraction of integers. *)
Definition scaled (n d e : Z) : Z * Z :=
  if 0 <=? e then (n, d * 2 ^ e) else (n * 2 ^ (- e), d).

(** The binary64 value nearest to [q], in lowest terms: [q] itself when it
    is whole; otherwise, with [2 ^ e <= |q| < 2 ^ (e + 1)], the multiple
    of [2 ^ (e - 52)] nearest to [q] (53 significant bits), or of
    [2 ^ -1074] for the values so small that binary64 has fewer bits for
    them; of two multiples that are as near, the even one. *)
Definition binary64 (q : Q) : Q :=
  let r := Qred q in
  if Pos.eqb (Qden r) 1 then r
  else
    let a := Z.abs (Qnum r) in
    let d := Zpos (Qden r) in
    let k := Z.log2 a - Z.log2 d in
    let e := let (n', d') := scaled a d k in if d' <=? n' then k else k - 1 in
    let u := Z.max (e - 52) (-1074) in
    let (n', d') := scaled a d u in
    let m := Z.sgn (Qnum r) * round_half_even n' d' in
    if 0 <=? u then inject_Z (m * 2 ^ u)
    else Qred (Qmake m (Z.to_pos (2 ^ (- u)))).

(** [a + b], [a - b], [a * b] and unary [-a] on numbers: the exact result,
    rounded to binary64. *)
Definition nadd (a b : number) : number :=
  match a, b with
  | Num x, Num y => Num (binary64 (binary64 x + binary64 y))
  | _, _ => NaN
  end.

Definition nsub (a b : number) : number :=
  match a, b with
  | Num x, Num y => Num (binary64 (binary64 x - binary64 y))
  | _, _ => NaN
  end.

Definition nmul (a b : number) : number :=
  match a, b with
  | Num x, Num y => Num (binary64 (binary64 x * binary64 y))
  | _, _ => NaN
  end.

Definition nneg (a : number) : number :=
  match a with
  | Num x => Num (binary64 (- x))
  | NaN => NaN
  end.

(** [a > 0]; false on [NaN]. *)
Definition ngt0 (a : number) : bool :=
  match a with
  | Num x => negb (Qle_bool (binary64 x) 0)
  | NaN => false
  end.

(** The integer a number denotes, when it denotes one. *)
Definition to_int (a : number) : option Z :=
  match a with
  | Num x =>
      if Pos.eqb (Qden (binary64 x)) 1 then Some (Qnum (binary64 x)) else None
  | NaN => None
  end.

(** The values that reach the database layer from forms and callers. *)
Inductive value : Type :=
| Undefined
| Null
| Number (n : number)
| Str (s : string).

(** Truthiness, as tested by [if (v)], [v ? a : b] and [v || d]. *)
Definition truthy (v : value) : bool :=
  match v with
  | Undefined | Null => false
  | Number NaN => false
  | Number (Num q) => negb (Qeq_bool (binary64 q) 0)
  | Str s => negb (String.eqb s "")
  end.

(** ** [parseInt] and [parseFloat] *)

Definition is_space (c : ascii) : bool :=
  let n := N_of_ascii c in
  (N.eqb n 32 || (N.leb 9 n && N.leb n 13))%bool.

Fixpoint skip_space (s : string) : string :=
  match s with
  | String c s' => if is_space c then skip_space s' else s
  | EmptyString => s
  end.

Definition sign_of (s : string) : Z * string :=
  match s with
  | String "-" s' => (-1, s')
  | String "+" s' => (1, s')
  | _ => (1, s)
  end.

(** The value of a digit in the given radix (10 or 16). *)
Definition digit_of (radix : Z) (c : ascii) : option Z :=
  let n := Z.of_N (N_of_ascii c) in
  let d :=
    if (48 <=? n) && (n <=? 57) then n - 48
    else if (97 <=? n) && (n <=? 102) then n - 87
    else if (65 <=? n) && (n <=? 70) then n - 55
    else 16 in
  if d <? radix then Some d else None.

(** Reads the longest run of digits at the head of [s]: its value on top
    of [acc], how many digits were read on top of [n], and what follows. *)
Fixpoint digits (radix : Z) (s : string) (acc : Z) (n : nat)
  : Z * nat * string :=
  match s with
  | String c s' =>
      match digit_of radix c with
      | Some d => digits radix s' (radix * acc + d) (S n)
      | None => (acc, n, s)
      end
  | EmptyString => (acc, n, s)
  end.

(** [parseInt(s)] with no radix argument: leading white space, an optional
    sign, an optional [0x] prefix, then the longest run of digits; [NaN]
    when that run is empty. *)
Definition parseInt_string (s : string) : number :=
  let '(sg, s1) := sign_of (skip_space s) in
  let '(radix, s2) :=
    match s1 with
    | String "0" (String "x" r) | String "0" (String "X" r) => (16, r)
    | _ => (10, s1)
    end in
  let '(v, n, _) := digits radix s2 0 0 in
  match n with
  | O => NaN
  | S _ => of_Z (sg * v)
  end.

(** The exponent part [e+ddd] or [e-ddd] of a decimal literal, when one
    is there. *)
Definition exponent_of (s : string) : Z :=
  match s with
  | String "e" r | String "E" r =>
      let '(sg, r1) := sign_of r in
      let '(v, n, _) := digits 10 r1 0 0 in
      match n with
      | O => 0
      | S _ => sg * v
      end
  | _ => 0
  end.

(** [parseFloat(s)]: leading white space, then the longest prefix that is a
    decimal literal (sign, digits, point, digits, exponent); [NaN] when
    there is none.  The literal stands for the binary64 value nearest to
    it. *)
Definition parseFloat_string (s : string) : number :=
  let '(sg, s1) := sign_of (skip_space s) in
  let '(ip, ni, s2) := digits 10 s1 0 0 in
  let '(fp, nf, s3) :=
    match s2 with
    | String "." r => digits 10 r 0 0
    | _ => (0, O, s2)
    end in
  match (ni + nf)%nat with
  | O => NaN
  | S _ =>
      let mantissa := (inject_Z ip + (fp # Z.to_pos (10 ^ Z.of_nat nf)))%Q in
      Num (Qred (inject_Z sg * mantissa * Qpower (inject_Z 10) (exponent_of s3)))
  end.

(** [parseInt(v)] converts [v] to a string first.  A number prints in
    positional notation (for magnitudes from 1e-6 up to 1e21, which is all
    a stock count or a price can be), so that the digits before the point
    are its truncation toward zero. *)
Definition parseInt (v : value) : number :=
  match v with
  | Number (Num q) =>
      of_Z (Z.quot (Qnum (binary64 q)) (Zpos (Qden (binary64 q))))
  | Number NaN => NaN
  | Str s => parseInt_string s
  | Undefined | Null => NaN
  end.

(** [parseFloat(v)]: a number prints to a literal that reads back as
    itself. *)
Definition parseFloat (v : value) : number :=
  match v with
  | Number n => n
  | Str s => parseFloat_string s
  | Undefined | Null => NaN
  end.

(** [String(v)], as template literals apply it. *)
Definition string_of_nat (n : nat) : string :=
  NilZero.string_of_uint (Nat.to_uint n).

Definition string_of_Z (z : Z) : string :=
  NilZero.string_of_int (Z.to_int z).

(** The [n] for which [10 ^ (n - 1) <= a / d < 10 ^ n], for [a] and [d]
    above zero. *)
Definition decimal_exponent (a d : Z) : Z :=
  let n := Z.of_nat (String.length (string_of_Z a))
           - Z.of_nat (String.length (string_of_Z d)) in
  let (l, r) := if 0 <=? n then (a, d * 10 ^ n) else (a * 10 ^ (- n), d) in
  if r <=? l then n + 1 else n.

(** The digits [Number::toString] prints for a binary64 value [x] above
    zero: the shortest run of digits that reads back as [x].  Of the
    numbers [s * 10 ^ (n - k)] with [k] digits, the two next to [x] are
    tried; when both read back as [x], the nearer one is chosen, and the
    even one of two that are as near. *)
Definition shortest_step (x : Q) (n k : Z) : option Z :=
  let a := Qnum x in
  let d := Zpos (Qden x) in
  let (tn, td) :=
    if 0 <=? k - n then (a * 10 ^ (k - n), d) else (a, d * 10 ^ (n - k)) in
  let lo := tn / td in
  let hi := lo + 1 in
  let value (s : Z) : Q :=
    if 0 <=? n - k then inject_Z (s * 10 ^ (n - k))
    else Qmake s (Z.to_pos (10 ^ (k - n))) in
  let reads_back (s : Z) : bool := Qeq_bool (binary64 (value s)) x in
  match reads_back lo, reads_back hi with
  | true, true =>
      match (2 * (tn mod td)) ?= td with
      | Lt => Some lo
      | Gt => Some hi
      | Eq => Some (if Z.even lo then lo else hi)
      end
  | true, false => Some lo
  | false, true => Some hi
  | false, false => None
  end.

Fixpoint shortest (x : Q) (n k : Z) (fuel : nat) : Z * Z :=
  match fuel with
  | O => (0, k)
  | S fuel' =>
      match shortest_step x n k with
      | Some s => (s, k)
      | None => shortest x n (k + 1) fuel'
      end
  end.

Fixpoint zeros (n : nat) : string :=
  match n with
  | O => ""
  | S n' => String "0" (zeros n')
  end.

Fixpoint take (n : nat) (s : string) : string :=
  match n, s with
  | S n', String c s' => String c (take n' s')
  | _, _ => ""
  end.

Fixpoint drop (n : nat) (s : string) : string :=
  match n, s with
  | S n', String _ s' => drop n' s'
  | _, _ => s
  end.

Fixpoint strip_zeros (s : list ascii) : list ascii :=
  match s with
  | "0"%char :: r => strip_zeros r
  | _ => s
  end.

(** [Number::toString] on a binary64 value above zero that is not whole:
    positional notation from 1e-6 up, exponent notation below. *)
Definition string_of_fraction (x : Q) : string :=
  let n0 := decimal_exponent (Qnum x) (Zpos (Qden x)) in
  let (s0, k0) := shortest x n0 1 17 in
  let digits0 := string_of_Z s0 in
  let n := n0 + (Z.of_nat (String.length digits0) - k0) in
  let digits :=
    string_of_list_ascii
      (rev (strip_zeros (rev (list_ascii_of_string digits0)))) in
  let k := Z.of_nat (String.length digits) in
  if (0 <? n) && (n <=? 21) then
    if k <=? n then String.concat "" [digits; zeros (Z.to_nat (n - k))]
    else String.concat ""
           [take (Z.to_nat n) digits; "."; drop (Z.to_nat n) digits]
  else if (-6 <? n) && (n <=? 0) then
    String.concat "" ["0."; zeros (Z.to_nat (- n)); digits]
  else
    let e := n - 1 in
    let es :=
      String.concat "" [if 0 <=? e then "+" else "-"; string_of_Z (Z.abs e)] in
    if k =? 1 then String.concat "" [digits; "e"; es]
    else String.concat "" [take 1 digits; "."; drop 1 digits; "e"; es].

(** [String(n)].  A whole number prints its digits (as binary64 values
    do below 1e21). *)
Definition string_of_number (n : number) : string :=
  match n with
  | NaN => "NaN"
  | Num q =>
      let x := binary64 q in
      if Pos.eqb (Qden x) 1 then string_of_Z (Qnum x)
      else
        String.concat ""
          [if Qnum x <? 0 then "-" else "";
           string_of_fraction (Qmake (Z.abs (Qnum x)) (Qden x))]
  end.


Definition to_string (v : value) : string :=
  match v with
  | Undefined => "undefined"
  | Null => "null"
  | Number n => string_of_number n
  | Str s => s
  end.

(* ================================================================== *)
(** * The remote store *)
(* ================================================================== *)

(** Row identifiers are assigned by the store. *)
Definition id := nat.
Bind Scope nat_scope with id.

(** ** Tables

    Numeric columns hold what the code reads from them without a null
    check: [stock_quantity] and ledger and line quantities are integers,
    [price] and totals are numbers; [cost_price] and [sale_price] may be
    null.  Timestamps ([created_at], [updated_at]) play no part in what
    follows and are left out. *)

Module Product.
Record t : Type := make {
  id : id;
  name : string;
  category : string;
  price : Q;
  cost_price : option Q;
  stock_quantity : Z;
  size : string;
  barcode : string;
  is_on_sale : bool;
  sale_price : option Q;
  is_active : bool
}.
End Product.

Module Sale.
Record t : Type := make {
  id : id;
  cashier_id : string;
  total : Q;
  payment_method : string
}.
End Sale.

Module SaleItem.
Record t : Type := make {
  sale_id : id;
  product_id : id;
  product_name : string;
  quantity : Z;
  unit_price : Q;
  total : Q
}.
End SaleItem.

Module InventoryTransaction.
Record t : Type := make {
  product_id : id;
  type : string;
  quantity : Z;
  user_id : string;
  notes : string
}.
End InventoryTransaction.

(** What [supabase.auth.getSession()] answers. *)
Inductive session_state : Type :=
| SessionError (message : string)
| NoSession
| Session (user_id : string).

(** The store: its tables, the session of the client, the identifier the
    next inserted row will get, and, for each request still to come,
    whether the store will fail it ([Some message]) or serve it ([None];
    also once the list is used up). *)
Record store : Type := {
  products : list Product.t;
  sales : list Sale.t;
  sale_items : list SaleItem.t;
  inventory_transactions : list InventoryTransaction.t;
  auth : session_state;
  next_id : id;
  outages : list (option string)
}.

(** ** Queries on [products] *)

Inductive product_filter : Type :=
| eq_id (v : id)
| neq_id (v : id)
| eq_category (v : string)
| eq_barcode (v : string)
| eq_is_active (v : bool)
| ilike_name (pattern : string).

Definition lower (c : ascii) : ascii :=
  let n := N_of_ascii c in
  if (N.leb 65 n && N.leb n 90)%bool then ascii_of_N (n + 32) else c.

(** SQL [ILIKE], as the REST interface of the store applies it: [%]
    stands for any run of characters, and so does [*], which the interface
    reads as [%]; [_] stands for any one character; a backslash takes the
    next character literally; letters match without regard to case. *)
Definition same_letter (c d : ascii) : bool :=
  Ascii.eqb (lower c) (lower d).

Fixpoint ilike (pattern : string) : string -> bool :=
  match pattern with
  | EmptyString =>
      fun s => match s with EmptyString => true | String _ _ => false end
  | String c rest =>
      if (Ascii.eqb c "%" || Ascii.eqb c "*")%bool then
        fix any (s : string) : bool :=
          (ilike rest s
           || match s with String _ s' => any s' | EmptyString => false end)%bool
      else if Ascii.eqb c "_" then
        fun s =>
          match s with String _ s' => ilike rest s' | EmptyString => false end
      else if Ascii.eqb c "\" then
        match rest with
        | String c' rest' =>
            fun s =>
              match s with
              | String d s' => (same_letter c' d && ilike rest' s')%bool
              | EmptyString => false
              end
        | EmptyString => fun _ => false
        end
      else
        fun s =>
          match s with
          | String d s' => (same_letter c d && ilike rest s')%bool
          | EmptyString => false
          end
  end.

Definition matches (f : product_filter) (p : Product.t) : bool :=
  match f with
  | eq_id v => Nat.eqb (Product.id p) v
  | neq_id v => negb (Nat.eqb (Product.id p) v)
  | eq_category v => String.eqb (Product.category p) v
  | eq_barcode v => String.eqb (Product.barcode p) v
  | eq_is_active v => Bool.eqb (Product.is_active p) v
  | ilike_name pattern => ilike pattern (Product.name p)
  end.

Definition matches_all (fs : list product_filter) (p : Product.t) : bool :=
  forallb (fun f => matches f p) fs.

(** [.order('name')]: ascending, strings compared character by
    character. *)
Fixpoint insert_by_name (p : Product.t) (rows : list Product.t)
  : list Product.t :=
  match rows with
  | [] => [p]
  | r :: rest =>
      if String.leb (Product.name p) (Product.name r) then p :: rows
      else r :: insert_by_name p rest
  end.

Definition order_by_name (rows : list Product.t) : list Product.t :=
  fold_right insert_by_name [] rows.

(** ** What the client sends

    Rows to insert and fields to update travel as JSON.  A numeric field
    carries a JavaScript number, and [NaN] travels as [null]. *)

Module NewProduct.
Record t : Type := make {
  name : string;
  category : string;
  price : number;
  cost_price : option number;
  stock_quantity : number;
  size : string;
  barcode : string;
  is_on_sale : bool;
  sale_price : option number;
  is_active : bool
}.
End NewProduct.

(** A partial set of product fields; [None] is a key that is not there. *)
Module ProductPatch.
Record t : Type := make {
  name : option string;
  category : option string;
  price : option value;
  cost_price : option value;
  stock_quantity : option value;
  size : option string;
  barcode : option string;
  is_on_sale : option bool;
  sale_price : option value;
  is_active : option bool
}.
Definition empty : t :=
  make None None None None None None None None None None.
Definition set_price (v : option value) (u : t) : t :=
  make (name u) (category u) v (cost_price u) (stock_quantity u)
       (size u) (barcode u) (is_on_sale u) (sale_price u) (is_active u).
Definition set_cost_price (v : option value) (u : t) : t :=
  make (name u) (category u) (price u) v (stock_quantity u)
       (size u) (barcode u) (is_on_sale u) (sale_price u) (is_active u).
Definition set_stock_quantity (v : option value) (u : t) : t :=
  make (name u) (category u) (price u) (cost_price u) v
       (size u) (barcode u) (is_on_sale u) (sale_price u) (is_active u).
Definition set_sale_price (v : option value) (u : t) : t :=
  make (name u) (category u) (price u) (cost_price u) (stock_quantity u)
       (size u) (barcode u) (is_on_sale u) v (is_active u).
Definition set_is_active (v : option bool) (u : t) : t :=
  make (name u) (category u) (price u) (cost_price u) (stock_quantity u)
       (size u) (barcode u) (is_on_sale u) (sale_price u) v.
End ProductPatch.

Module NewSale.
Record t : Type := make {
  cashier_id : string;
  total : number;
  payment_method : string
}.
End NewSale.

Module NewSaleItem.
Record t : Type := make {
  sale_id : id;
  product_id : id;
  product_name : string;
  quantity : number;
  unit_price : number;
  total : number
}.
End NewSaleItem.

Module NewInventoryTransaction.
Record t : Type := make {
  product_id : id;
  type : string;
  quantity : number;
  user_id : string;
  notes : string
}.
End NewInventoryTransaction.

(** ** Requests and responses *)

(** The [{ data, error }] pair every store request resolves to. *)
Inductive response (A : Type) : Type :=
| Data (data : A)
| Error (message : string).
Arguments Data {A} data.
Arguments Error {A} message.

(** One [await supabase...] each.  A single-row insert answers the row it
    inserted (the [data[0]] of [.insert([row]).select()]). *)
Inductive request : Type -> Type :=
| auth_getSession : request session_state
| products_select (filters : list product_filter) (order_name : bool)
  : request (response (list Product.t))
| products_insert (row : NewProduct.t) : request (response Product.t)
| products_update (patch : ProductPatch.t) (filters : list product_filter)
  : request (response (list Product.t))
| sales_insert (row : NewSale.t) : request (response Sale.t)
| sale_items_insert (rows : list NewSaleItem.t) : request (response unit)
| inventory_transactions_insert (row : NewInventoryTransaction.t)
  : request (response InventoryTransaction.t).

(** ** Writing a row

    A row with a value that does not fit the type of its column, or that
    refers to a row that is not there, is refused by the store. *)

Definition column_rejects : string := "value does not fit the column".

Definition mandatory_number (n : number) : option Q :=
  match n with
  | Num q => Some q
  | NaN => None
  end.

Definition nullable_number (n : option number) : option Q :=
  match n with
  | Some (Num q) => Some q
  | Some NaN | None => None
  end.

(** A patched mandatory numeric column: the new value, or a refusal. *)
Definition patch_number (old : Q) (v : option value) : option Q :=
  match v with
  | None | Some Undefined => Some old
  | Some (Number n) => mandatory_number n
  | Some Null | Some (Str _) => None
  end.

Definition patch_integer (old : Z) (v : option value) : option Z :=
  match v with
  | None | Some Undefined => Some old
  | Some (Number n) => to_int n
  | Some Null | Some (Str _) => None
  end.

Definition patch_nullable (old : option Q) (v : option value)
  : option (option Q) :=
  match v with
  | None | Some Undefined => Some old
  | Some (Number n) => Some (nullable_number (Some n))
  | Some Null => Some None
  | Some (Str _) => None
  end.

Definition patch_field {A : Type} (old : A) (v : option A) : A :=
  match v with
  | Some new => new
  | None => old
  end.

Definition insert_product (i : id) (row : NewProduct.t) : option Product.t :=
  match mandatory_number (NewProduct.price row),
        to_int (NewProduct.stock_quantity row) with
  | Some price, Some stock =>
      Some (Product.make i (NewProduct.name row) (NewProduct.category row)
              price (nullable_number (NewProduct.cost_price row)) stock
              (NewProduct.size row) (NewProduct.barcode row)
              (NewProduct.is_on_sale row)
              (nullable_number (NewProduct.sale_price row))
              (NewProduct.is_active row))
  | _, _ => None
  end.

Definition patch_product (u : ProductPatch.t) (p : Product.t)
  : option Product.t :=
  match patch_number (Product.price p) (ProductPatch.price u),
        patch_nullable (Product.cost_price p) (ProductPatch.cost_price u),
        patch_integer (Product.stock_quantity p) (ProductPatch.stock_quantity u),
        patch_nullable (Product.sale_price p) (ProductPatch.sale_price u) with
  | Some price, Some cost, Some stock, Some sale =>
      Some (Product.make (Product.id p)
              (patch_field (Product.name p) (ProductPatch.name u))
              (patch_field (Product.category p) (ProductPatch.category u))
              price cost stock
              (patch_field (Product.size p) (ProductPatch.size u))
              (patch_field (Product.barcode p) (ProductPatch.barcode u))
              (patch_field (Product.is_on_sale p) (ProductPatch.is_on_sale u))
              sale
              (patch_field (Product.is_active p) (ProductPatch.is_active u)))
  | _, _, _, _ => None
  end.

(** One [UPDATE] statement: the new table and the rows it changed, or a
    refusal that changes nothing. *)
Fixpoint update_rows (fs : list product_filter) (u : ProductPatch.t)
    (rows : list Product.t) : option (list Product.t * list Product.t) :=
  match rows with
  | [] => Some ([], [])
  | p :: rest =>
      match update_rows fs u rest with
      | None => None
      | Some (table, changed) =>
          if matches_all fs p then
            match patch_product u p with
            | Some p' => Some (p' :: table, p' :: changed)
            | None => None
            end
          else Some (p :: table, changed)
      end
  end.

Definition insert_sale (i : id) (row : NewSale.t) : option Sale.t :=
  match mandatory_number (NewSale.total row) with
  | Some total =>
      Some (Sale.make i (NewSale.cashier_id row) total
              (NewSale.payment_method row))
  | None => None
  end.

(** ** References between tables

    The store answers a sale with its lines, a sale line with its
    product and a ledger entry with its product (the embedded selects of
    [getSales], [getSalesAnalytics] and [getProductTransactions]), which
    it does along the foreign keys [sale_items.sale_id],
    [sale_items.product_id] and [inventory_transactions.product_id]: a row
    that refers to a sale or to a product that is not there is refused.
    (The cashier of a sale and the user of a ledger entry refer to [users]
    in the same way; the user of a session is taken to have a row
    there.) *)

Definition has_product (i : id) (product_rows : list Product.t) : bool :=
  existsb (fun p => Nat.eqb (Product.id p) i) product_rows.

Definition has_sale (i : id) (sale_rows : list Sale.t) : bool :=
  existsb (fun r => Nat.eqb (Sale.id r) i) sale_rows.

Definition insert_sale_item (sale_rows : list Sale.t)
    (product_rows : list Product.t) (row : NewSaleItem.t)
  : option SaleItem.t :=
  if (has_sale (NewSaleItem.sale_id row) sale_rows
      && has_product (NewSaleItem.product_id row) product_rows)%bool
  then
    match to_int (NewSaleItem.quantity row),
          mandatory_number (NewSaleItem.unit_price row),
          mandatory_number (NewSaleItem.total row) with
    | Some quantity, Some unit_price, Some total =>
        Some (SaleItem.make (NewSaleItem.sale_id row)
                (NewSaleItem.product_id row) (NewSaleItem.product_name row)
                quantity unit_price total)
    | _, _, _ => None
    end
  else None.

Fixpoint insert_sale_items (sale_rows : list Sale.t)
    (product_rows : list Product.t) (rows : list NewSaleItem.t)
  : option (list SaleItem.t) :=
  match rows with
  | [] => Some []
  | row :: rest =>
      match insert_sale_item sale_rows product_rows row,
            insert_sale_items sale_rows product_rows rest with
      | Some r, Some rs => Some (r :: rs)
      | _, _ => None
      end
  end.

Definition insert_inventory_transaction (product_rows : list Product.t)
    (row : NewInventoryTransaction.t) : option InventoryTransaction.t :=
  if has_product (NewInventoryTransaction.product_id row) product_rows then
    match to_int (NewInventoryTransaction.quantity row) with
    | Some quantity =>
        Some (InventoryTransaction.make
                (NewInventoryTransaction.product_id row)
                (NewInventoryTransaction.type row) quantity
                (NewInventoryTransaction.user_id row)
                (NewInventoryTransaction.notes row))
    | None => None
    end
  else None.

(** ** Serving a request *)

Definition with_products (v : list Product.t) (s : store) : store :=
  {| products := v; sales := sales s; sale_items := sale_items s;
     inventory_transactions := inventory_transactions s; auth := auth s;
     next_id := next_id s; outages := outages s |}.

Definition with_sales (v : list Sale.t) (s : store) : store :=
  {| products := products s; sales := v; sale_items := sale_items s;
     inventory_transactions := inventory_transactions s; auth := auth s;
     next_id := next_id s; outages := outages s |}.

Definition with_sale_items (v : list SaleItem.t) (s : store) : store :=
  {| products := products s; sales := sales s; sale_items := v;
     inventory_transactions := inventory_transactions s; auth := auth s;
     next_id := next_id s; outages := outages s |}.

Definition with_inventory_transactions (v : list InventoryTransaction.t)
    (s : store) : store :=
  {| products := products s; sales := sales s; sale_items := sale_items s;
     inventory_transactions := v; auth := auth s;
     next_id := next_id s; outages := outages s |}.

Definition with_next_id (v : id) (s : store) : store :=
  {| products := products s; sales := sales s; sale_items := sale_items s;
     inventory_transactions := inventory_transactions s; auth := auth s;
     next_id := v; outages := outages s |}.

Definition with_outages (v : list (option string)) (s : store) : store :=
  {| products := products s; sales := sales s; sale_items := sale_items s;
     inventory_transactions := inventory_transactions s; auth := auth s;
     next_id := next_id s; outages := v |}.

(** Whether the store fails the request at hand. *)
Definition take_outage (s : store) : option string * store :=
  (hd None (outages s), with_outages (tl (outages s)) s).

(** A request that goes to the store: failed, or performed. *)
Definition store_request {A : Type} (s : store)
    (perform : store -> response A * store) : response A * store :=
  match take_outage s with
  | (Some message, s') => (Error message, s')
  | (None, s') => perform s'
  end.

(** Reading the session is local to the client; every other request goes
    to the store. *)
Definition serve {X : Type} (rq : request X) (s : store) : X * store :=
  match rq in request X return X * store with
  | auth_getSession => (auth s, s)
  | products_select fs order_name =>
      store_request s (fun s =>
        let rows := filter (matches_all fs) (products s) in
        (Data (if order_name then order_by_name rows else rows), s))
  | products_insert row =>
      store_request s (fun s =>
        match insert_product (next_id s) row with
        | Some p =>
            (Data p, with_next_id (S (next_id s))
                       (with_products (products s ++ [p]) s))
        | None => (Error column_rejects, s)
        end)
  | products_update u fs =>
      store_request s (fun s =>
        match update_rows fs u (products s) with
        | Some (table, changed) => (Data changed, with_products table s)
        | None => (Error column_rejects, s)
        end)
  | sales_insert row =>
      store_request s (fun s =>
        match insert_sale (next_id s) row with
        | Some r =>
            (Data r, with_next_id (S (next_id s))
                       (with_sales (sales s ++ [r]) s))
        | None => (Error column_rejects, s)
        end)
  | sale_items_insert rows =>
      store_request s (fun s =>
        match insert_sale_items (sales s) (products s) rows with
        | Some rs => (Data tt, with_sale_items (sale_items s ++ rs) s)
        | None => (Error column_rejects, s)
        end)
  | inventory_transactions_insert row =>
      store_request s (fun s =>
        match insert_inventory_transaction (products s) row with
        | Some r =>
            (Data r, with_inventory_transactions
                       (inventory_transactions s ++ [r]) s)
        | None => (Error column_rejects, s)
        end)
  end.

(* ================================================================== *)
(** * Asynchronous programs *)
(* ================================================================== *)

(** An [async] function: it returns, or awaits a request and goes on with
    the answer. *)
Inductive prog (A : Type) : Type :=
| Ret (a : A)
| Await {X : Type} (rq : request X) (k : X -> prog A).
Arguments Ret {A} a.
Arguments Await {A X} rq k.

Fixpoint bind {A B : Type} (p : prog A) (f : A -> prog B) : prog B :=
  match p with
  | Ret a => f a
  | Await rq k => Await rq (fun x => bind (k x) f)
  end.

Definition await {X : Type} (rq : request X) : prog X := Await rq Ret.

Notation "x <- p ;; q" := (bind p (fun x => q))
  (at level 61, p at next level, right associativity).
Notation "p ;;; q" := (bind p (fun _ => q))
  (at level 61, right associativity).

(** A call that runs alone against the store. *)
Fixpoint run {A : Type} (p : prog A) (s : store) : A * store :=
  match p with
  | Ret a => (a, s)
  | Await rq k => let (x, s') := serve rq s in run (k x) s'
  end.

(** Two calls in flight at once.  Each request is served whole; the
    schedule says whose request reaches the store next ([true]: the first
    call's).  When the schedule is used up, or one call has returned, what
    is left runs to its end. *)
Fixpoint run2 {A B : Type} (schedule : list bool) (a : prog A) (b : prog B)
    (s : store) : A * B * store :=
  match schedule with
  | [] =>
      let (x, s1) := run a s in
      let (y, s2) := run b s1 in
      (x, y, s2)
  | first :: rest =>
      if first then
        match a with
        | Ret x => let (y, s') := run b s in (x, y, s')
        | Await rq k => let (r, s') := serve rq s in run2 rest (k r) b s'
        end
      else
        match b with
        | Ret y => let (x, s') := run a s in (x, y, s')
        | Await rq k => let (r, s') := serve rq s in run2 rest a (k r) s'
        end
  end.

(* ================================================================== *)
(** * [DatabaseManager] *)
(* ================================================================== *)

(** What every method returns: [{ success: true, data }] or
    [{ success: false, error }].  Each method body is one [try] whose
    [catch] returns the failure, so a [throw] is written as the failure it
    ends in. *)
Inductive result (A : Type) : Type :=
| Success (data : A)
| Failure (error : string).
Arguments Success {A} data.
Arguments Failure {A} error.

(** [.single()]: exactly one row, or an error. *)
Definition single {A : Type} (r : response (list A)) : response A :=
  match r with
  | Error message => Error message
  | Data [row] => Data row
  | Data _ => Error "JSON object requested, multiple (or no) rows returned"
  end.

(** ** Products *)

Module Filters.
Record t : Type := make {
  category : option string;
  search : option string;
  activeOnly : option bool
}.
End Filters.

Definition nonempty (s : string) : bool := negb (String.eqb s "").

Definition getProducts (filters : Filters.t)
  : prog (result (list Product.t)) :=
  let query : list product_filter := [] in
  let query :=
    match Filters.category filters with
    | Some c =>
        if (nonempty c && negb (String.eqb c "All"))%bool
        then (query ++ [eq_category c])%list else query
    | None => query
    end in
  let query :=
    match Filters.search filters with
    | Some t =>
        if nonempty t then (query ++ [ilike_name ("%" ++ t ++ "%")%string])%list
        else query
    | None => query
    end in
  let query :=
    match Filters.activeOnly filters with
    | Some false => query
    | Some true | None => (query ++ [eq_is_active true])%list
    end in
  r <- await (products_select query true) ;;
  match r with
  | Error message => Ret (Failure message)
  | Data data => Ret (Success data)
  end.

Definition getProductById (productId : id) : prog (result Product.t) :=
  r <- await (products_select [eq_id productId] false) ;;
  match single r with
  | Error message => Ret (Failure message)
  | Data data => Ret (Success data)
  end.

Definition getProductByBarcode (barcode : string) : prog (result Product.t) :=
  r <- await (products_select [eq_barcode barcode] false) ;;
  match single r with
  | Error message => Ret (Failure message)
  | Data data => Ret (Success data)
  end.

(** ** Inventory *)

Module TransactionData.
Record t : Type := make {
  product_id : id;
  type : string;
  quantity : number;
  notes : string;
  user_id : option string
}.
End TransactionData.

Definition createInventoryTransaction (transactionData : TransactionData.t)
  : prog (result InventoryTransaction.t) :=
  session <- await auth_getSession ;;
  match session with
  | SessionError message => Ret (Failure message)
  | NoSession => Ret (Failure "User not authenticated")
  | Session user =>
      let transaction :=
        NewInventoryTransaction.make
          (TransactionData.product_id transactionData)
          (TransactionData.type transactionData)
          (parseInt (Number (TransactionData.quantity transactionData)))
          user
          (TransactionData.notes transactionData) in
      r <- await (inventory_transactions_insert transaction) ;;
      match r with
      | Error message => Ret (Failure message)
      | Data data => Ret (Success data)
      end
  end.

(** ** Products, continued *)

Module ProductData.
Record t : Type := make {
  name : string;
  category : string;
  price : value;
  cost_price : value;
  stock_quantity : value;
  size : string;
  barcode : string;
  is_on_sale : option bool;
  sale_price : value
}.
End ProductData.

(** [n || 0] *)
Definition or_zero (n : number) : number :=
  if truthy (Number n) then n else of_Z 0.

Definition createProduct (productData : ProductData.t)
  : prog (result Product.t) :=
  r <- await (products_insert
                (NewProduct.make
                   (ProductData.name productData)
                   (ProductData.category productData)
                   (parseFloat (ProductData.price productData))
                   (if truthy (ProductData.cost_price productData)
                    then Some (parseFloat (ProductData.cost_price productData))
                    else None)
                   (or_zero (parseInt (ProductData.stock_quantity productData)))
                   (ProductData.size productData)
                   (ProductData.barcode productData)
                   (match ProductData.is_on_sale productData with
                    | Some b => b
                    | None => false
                    end)
                   (if truthy (ProductData.sale_price productData)
                    then Some (parseFloat (ProductData.sale_price productData))
                    else None)
                   true)) ;;
  match r with
  | Error message => Ret (Failure message)
  | Data data =>
      (if ngt0 (parseInt (ProductData.stock_quantity productData)) then
         createInventoryTransaction
           (TransactionData.make (Product.id data) "restock"
              (parseInt (ProductData.stock_quantity productData))
              "Initial stock" None) ;;;
         Ret tt
       else Ret tt) ;;;
      Ret (Success data)
  end.

Definition truthy_field (v : option value) : bool :=
  match v with
  | Some v => truthy v
  | None => false
  end.

(** [v !== undefined] *)
Definition defined_field (v : option value) : bool :=
  match v with
  | None | Some Undefined => false
  | Some _ => true
  end.

Definition coerce (parse : value -> number) (v : option value)
  : option value :=
  match v with
  | Some v => Some (Number (parse v))
  | None => None
  end.

(** The "handle numeric fields" step of [updateProduct]. *)
Definition numeric_fields (updates : ProductPatch.t) : ProductPatch.t :=
  let updateData := updates in
  let updateData :=
    if truthy_field (ProductPatch.price updateData)
    then ProductPatch.set_price
           (coerce parseFloat (ProductPatch.price updateData)) updateData
    else updateData in
  let updateData :=
    if truthy_field (ProductPatch.cost_price updateData)
    then ProductPatch.set_cost_price
           (coerce parseFloat (ProductPatch.cost_price updateData)) updateData
    else updateData in
  let updateData :=
    if defined_field (ProductPatch.stock_quantity updateData)
    then ProductPatch.set_stock_quantity
           (coerce parseInt (ProductPatch.stock_quantity updateData)) updateData
    else updateData in
  let updateData :=
    if truthy_field (ProductPatch.sale_price updateData)
    then ProductPatch.set_sale_price
           (coerce parseFloat (ProductPatch.sale_price updateData)) updateData
    else updateData in
  updateData.

(** [data[0]] of an update is [undefined] ([None]) when no row matched.
    The [updated_at] stamp that [updateProduct] and [deleteProduct] add to
    what they write goes to a column the tables here leave out. *)
Definition updateProduct (productId : id) (updates : ProductPatch.t)
  : prog (result (option Product.t)) :=
  let updateData := numeric_fields updates in
  r <- await (products_update updateData [eq_id productId]) ;;
  match r with
  | Error message => Ret (Failure message)
  | Data data => Ret (Success (hd_error data))
  end.

Definition deleteProduct (productId : id)
  : prog (result (option Product.t)) :=
  r <- await (products_update
                (ProductPatch.set_is_active (Some false) ProductPatch.empty)
                [eq_id productId]) ;;
  match r with
  | Error message => Ret (Failure message)
  | Data data => Ret (Success (hd_error data))
  end.

(** ** Sales *)

(** A cart entry as [addToCart] in [pos.js] builds it (its icon and
    [maxQuantity] are not read here). *)
Module CartItem.
Record t : Type := make {
  id : id;
  name : string;
  price : number;
  quantity : number
}.
End CartItem.

Module SaleData.
Record t : Type := make {
  items : list CartItem.t;
  total : number;
  payment_method : string
}.
End SaleData.

Module SaleResult.
Record t : Type := make {
  sale : Sale.t;
  items : list NewSaleItem.t;
  saleId : id
}.
End SaleResult.

Definition saleItem (saleId : id) (item : CartItem.t) : NewSaleItem.t :=
  NewSaleItem.make saleId (CartItem.id item) (CartItem.name item)
    (parseInt (Number (CartItem.quantity item)))
    (parseFloat (Number (CartItem.price item)))
    (nmul (parseFloat (Number (CartItem.price item)))
          (parseInt (Number (CartItem.quantity item)))).

(** The body of the [for (const item of saleData.items)] loop. *)
Definition updateStock (saleId : id) (user : string) (item : CartItem.t)
  : prog unit :=
  product <- getProductById (CartItem.id item) ;;
  match product with
  | Success data =>
      let newStock :=
        nsub (of_Z (Product.stock_quantity data)) (CartItem.quantity item) in
      updateProduct (CartItem.id item)
        (ProductPatch.set_stock_quantity (Some (Number newStock))
           ProductPatch.empty) ;;;
      createInventoryTransaction
        (TransactionData.make (CartItem.id item) "sale"
           (nneg (CartItem.quantity item))
           ("Sale " ++ string_of_nat saleId)%string
           (Some user)) ;;;
      Ret tt
  | Failure _ => Ret tt
  end.

Fixpoint updateStocks (saleId : id) (user : string) (items : list CartItem.t)
  : prog unit :=
  match items with
  | [] => Ret tt
  | item :: rest =>
      updateStock saleId user item ;;; updateStocks saleId user rest
  end.

Definition createSale (saleData : SaleData.t) : prog (result SaleResult.t) :=
  session <- await auth_getSession ;;
  match session with
  | SessionError message => Ret (Failure message)
  | NoSession => Ret (Failure "User not authenticated")
  | Session user =>
      let sale :=
        NewSale.make user (parseFloat (Number (SaleData.total saleData)))
          (SaleData.payment_method saleData) in
      saleRecord <- await (sales_insert sale) ;;
      match saleRecord with
      | Error message => Ret (Failure message)
      | Data saleRecord =>
          let saleId := Sale.id saleRecord in
          let saleItems := map (saleItem saleId) (SaleData.items saleData) in
          items <- await (sale_items_insert saleItems) ;;
          match items with
          | Error message => Ret (Failure message)
          | Data _ =>
              updateStocks saleId user (SaleData.items saleData) ;;;
              Ret (Success (SaleResult.make saleRecord saleItems saleId))
          end
      end
  end.

(** [processPayment] in [pos.js]: the sale data it hands to [createSale]. *)
Definition processPayment_saleData (cart : list CartItem.t)
    (paymentMethod : string) : SaleData.t :=
  SaleData.make cart
    (fold_left
       (fun sum item =>
          nadd sum (nmul (CartItem.price item) (CartItem.quantity item)))
       cart (of_Z 0))
    paymentMethod.

(** ** Inventory, continued *)

Definition restockProduct (productId : id) (quantity : value)
    (notes : string) : prog (result number) :=
  product <- getProductById productId ;;
  match product with
  | Failure _ => Ret (Failure "Product not found")
  | Success data =>
      let newStock :=
        nadd (of_Z (Product.stock_quantity data)) (parseInt quantity) in
      updateProduct productId
        (ProductPatch.set_stock_quantity (Some (Number newStock))
           ProductPatch.empty) ;;;
      createInventoryTransaction
        (TransactionData.make productId "restock" (parseInt quantity)
           (if nonempty notes then notes
            else ("Restocked " ++ to_string quantity ++ " units")%string)
           None) ;;;
      Ret (Success newStock)
  end.

(** ** Reports *)

Module InventorySummary.
Record t : Type := make {
  totalInventory : Z;
  totalStockValue : number;
  totalCostValue : number;
  lowStockCount : nat;
  outOfStockCount : nat;
  lowStockItems : list (value * Z)
}.
End InventorySummary.

(** [product.cost_price || 0] *)
Definition cost_or_zero (c : option Q) : value :=
  match c with
  | Some q => if truthy (Number (Num q)) then Number (Num q) else Number (of_Z 0)
  | None => Number (of_Z 0)
  end.

(** The summary computed from the rows of the active products.  The query
    selects [stock_quantity, price, cost_price] only, so the [name] of a
    low-stock item is [undefined]. *)
Definition inventorySummary (products : list Product.t)
  : InventorySummary.t :=
  let totalInventory :=
    fold_left (fun sum product => sum + Product.stock_quantity product)
      products 0 in
  let totalStockValue :=
    fold_left
      (fun sum product =>
         nadd sum (nmul (of_Z (Product.stock_quantity product))
                        (parseFloat (Number (Num (Product.price product))))))
      products (of_Z 0) in
  let totalCostValue :=
    fold_left
      (fun sum product =>
         nadd sum (nmul (of_Z (Product.stock_quantity product))
                        (parseFloat (cost_or_zero (Product.cost_price product)))))
      products (of_Z 0) in
  let lowStockItems :=
    filter (fun product => Product.stock_quantity product <? 10) products in
  let outOfStockItems :=
    filter (fun product => Product.stock_quantity product =? 0) products in
  InventorySummary.make totalInventory totalStockValue totalCostValue
    (List.length lowStockItems) (List.length outOfStockItems)
    (map (fun p => (Undefined, Product.stock_quantity p)) lowStockItems).

Definition getInventorySummary : prog (result InventorySummary.t) :=
  r <- await (products_select [eq_is_active true] false) ;;
  match r with
  | Error message => Ret (Failure message)
  | Data products => Ret (Success (inventorySummary products))
  end.

(** ** Utilities *)

Definition checkBarcodeExists (barcode : string) (excludeProductId : option id)
  : prog (result bool) :=
  let query := [eq_barcode barcode; eq_is_active true] in
  let query :=
    match excludeProductId with
    | Some i => if Nat.eqb i 0 then query else (query ++ [neq_id i])%list
    | None => query
    end in
  r <- await (products_select query false) ;;
  match r with
  | Error message => Ret (Failure message)
  | Data data => Ret (Success (Nat.ltb 0 (List.length data)))
  end.

(** [[...new Set(values)]]: the values, each where it occurs first. *)
Definition set_add (set : list string) (v : string) : list string :=
  if existsb (String.eqb v) set then set else set ++ [v].

Definition new_Set (values : list string) : list string :=
  fold_left set_add values [].

Definition getCategories : prog (result (list string)) :=
  r <- await (products_select [eq_is_active true] false) ;;
  match r with
  | Error message => Ret (Failure message)
  | Data data => Ret (Success (new_Set (map Product.category data)))
  end.

(* ================================================================== *)
(** * Notions used in the statements *)
(* ================================================================== *)

(** The stock the table records for a product. *)
Definition stock_of (i : id) (rows : list Product.t) : option Z :=
  option_map Product.stock_quantity
    (find (fun p => Nat.eqb (Product.id p) i) rows).

(** [id] is the primary key of [products]. *)
Definition unique_ids (rows : list Product.t) : Prop :=
  NoDup (map Product.id rows).

(** The store once it has answered the request at hand. *)
Definition after_request (s : store) : store :=
  with_outages (tl (outages s)) s.

(** The store serves the request at hand. *)
Definition served (s : store) : Prop := hd None (outages s) = None.

(** [s.toLowerCase().includes(t.toLowerCase())] *)
Fixpoint starts_with (t s : string) : bool :=
  match t with
  | EmptyString => true
  | String c t' =>
      match s with
      | String d s' => (same_letter c d && starts_with t' s')%bool
      | EmptyString => false
      end
  end.

Fixpoint includes (t s : string) : bool :=
  (starts_with t s
   || match s with String _ s' => includes t s' | EmptyString => false end)%bool.

(** A search string in which no character is special to [ILIKE]. *)
Definition wildcard (c : ascii) : bool :=
  (Ascii.eqb c "%" || Ascii.eqb c "*" || Ascii.eqb c "_"
   || Ascii.eqb c "\")%bool.

Fixpoint wildcard_free (t : string) : bool :=
  match t with
  | EmptyString => true
  | String c t' => (negb (wildcard c) && wildcard_free t')%bool
  end.

(** The ledger entries among [entries] that concern a product. *)
Definition entries_of (i : id) (entries : list InventoryTransaction.t)
  : list InventoryTransaction.t :=
  filter (fun e => Nat.eqb (InventoryTransaction.product_id e) i) entries.

(** The sum of the totals of sale lines, summed as [reduce] does. *)
Definition sum_of_lines (lines : list SaleItem.t) : number :=
  fold_left (fun sum line => nadd sum (Num (SaleItem.total line)))
    lines (of_Z 0).

Definition is_integer (n : number) : Prop := exists z, n = of_Z z.

(** A number that is a binary64 value as it stands. *)
Definition is_binary64 (q : Q) : Prop := binary64 q = q.

(** What rounding a number to binary64 can cost: half a unit in the last
    place, which is [2^-53] of its magnitude at most, or half the smallest
    subnormal number, [2^-1075]. *)
Definition rounding (x : Q) : Q :=
  (Qabs x * (1 # 2 ^ 53) + (1 # 2 ^ 1075))%Q.

(** The sum of the totals of sale lines in exact arithmetic. *)
Definition exact_sum (lines : list SaleItem.t) : Q :=
  fold_left (fun sum line => (sum + SaleItem.total line)%Q) lines 0%Q.

(** What the sum of [n] numbers of magnitude [A] at most, added one after
    the other in binary64, can be away from their exact sum. *)
Definition drift (n : Z) (A : Q) : Q :=
  (inject_Z n * (inject_Z n * A * (1 # 2 ^ 52) + (1 # 2 ^ 1074)))%Q.

(** A product with its stock replaced. *)
Definition with_stock (z : Z) (p : Product.t) : Product.t :=
  Product.make (Product.id p) (Product.name p) (Product.category p)
    (Product.price p) (Product.cost_price p) z (Product.size p)
    (Product.barcode p) (Product.is_on_sale p) (Product.sale_price p)
    (Product.is_active p).

Definition stock_patch (n : number) : ProductPatch.t :=
  ProductPatch.set_stock_quantity (Some (Number n)) ProductPatch.empty.

(** A step that leaves a product alone: neither its stock nor its ledger
    entries change, and sales and sale lines are not touched. *)
Definition leaves (pid : id) (s s' : store) : Prop :=
  sales s' = sales s /\ sale_items s' = sale_items s /\ auth s' = auth s
  /\ (outages s = [] -> outages s' = [])
  /\ map Product.id (products s') = map Product.id (products s)
  /\ stock_of pid (products s') = stock_of pid (products s)
  /\ exists added,
       inventory_transactions s' = inventory_transactions s ++ added
       /\ entries_of pid added = [].

(** The entry the ledger gets for the sale of [q] units. *)
Definition sale_entry (saleId : id) (user : string) (pid : id) (q : Z)
  : InventoryTransaction.t :=
  InventoryTransaction.make pid "sale" (- q) user
    ("Sale " ++ string_of_nat saleId)%string.

(** The total of a stored sale line: a binary64 value, the product of the
    line's unit price and quantity up to the rounding of one
    multiplication. *)
Definition rounded_product (line : SaleItem.t) : Prop :=
  is_binary64 (SaleItem.total line)
  /\ (Qabs (SaleItem.total line
            - binary64 (SaleItem.unit_price line)
              * inject_Z (SaleItem.quantity line))
      <= rounding (binary64 (SaleItem.unit_price line)
                   * inject_Z (SaleItem.quantity line)))%Q.

(** A stored sale line, seen from the cart entry it was made from. *)
Definition line_of (item : CartItem.t) (line : SaleItem.t) : Prop :=
  Num (SaleItem.unit_price line) = CartItem.price item
  /\ of_Z (SaleItem.quantity line) = parseInt (Number (CartItem.quantity item))
  /\ Num (SaleItem.total line)
     = nmul (Num (SaleItem.unit_price line)) (of_Z (SaleItem.quantity line)).

(** The products a filter asks for: of the given category, unless none
    or ["All"] is given; with the search string in their name, whatever the
    case of the letters, when one is given; active, unless [activeOnly] is
    [false]. *)
Definition selected (filters : Filters.t) (p : Product.t) : bool :=
  (match Filters.category filters with
   | Some c =>
       if (nonempty c && negb (String.eqb c "All"))%bool
       then String.eqb (Product.category p) c else true
   | None => true
   end
   && match Filters.search filters with
      | Some t => if nonempty t then includes t (Product.name p) else true
      | None => true
      end
   && match Filters.activeOnly filters with
      | Some false => true
      | Some true | None => Product.is_active p
      end)%bool.

(** The same, with the search string read as the query reads it: as the
    [ILIKE] pattern [%search%], in which [%], [*], [_] and the backslash
    of the search string are pattern characters. *)
Definition queried (filters : Filters.t) (p : Product.t) : bool :=
  (match Filters.category filters with
   | Some c =>
       if (nonempty c && negb (String.eqb c "All"))%bool
       then String.eqb (Product.category p) c else true
   | None => true
   end
   && match Filters.search filters with
      | Some t =>
          if nonempty t then ilike ("%" ++ t ++ "%") (Product.name p) else true
      | None => true
      end
   && match Filters.activeOnly filters with
      | Some false => true
      | Some true | None => Product.is_active p
      end)%bool.

(** Whether the store can write the numeric fields of an update once
    [updateProduct] has coerced them: a price or a stock quantity that is
    there must read as a number; a cost price or a sale price must not be
    the empty string. *)
Definition reads_as_number (parse : value -> number) (v : option value)
  : bool :=
  match v with
  | None | Some Undefined => true
  | Some v => match parse v with Num _ => true | NaN => false end
  end.

Definition not_empty_string (v : option value) : bool :=
  match v with
  | Some (Str t) => nonempty t
  | _ => true
  end.

Definition writable (u : ProductPatch.t) : bool :=
  (reads_as_number parseFloat (ProductPatch.price u)
   && reads_as_number parseInt (ProductPatch.stock_quantity u)
   && not_empty_string (ProductPatch.cost_price u)
   && not_empty_string (ProductPatch.sale_price u))%bool.

(** Two products in the order of their names. *)
Definition by_name (a b : Product.t) : Prop :=
  String.leb (Product.name a) (Product.name b) = true.

(** A product with its [is_active] flag replaced. *)
Definition with_is_active (b : bool) (p : Product.t) : Product.t :=
  Product.make (Product.id p) (Product.name p) (Product.category p)
    (Product.price p) (Product.cost_price p) (Product.stock_quantity p)
    (Product.size p) (Product.barcode p) (Product.is_on_sale p)
    (Product.sale_price p) b.

(** The table with the row of key [i] replaced. *)
Definition replace_row (i : id) (p' : Product.t) (rows : list Product.t)
  : list Product.t :=
  map (fun a => if Nat.eqb (Product.id a) i then p' else a) rows.

(** The tables of two stores hold the same rows. *)
Definition same_tables (s s' : store) : Prop :=
  products s' = products s /\ sales s' = sales s
  /\ sale_items s' = sale_items s
  /\ inventory_transactions s' = inventory_transactions s.

(** Identifiers are handed out in increasing order: the next one is above
    every product's. *)
Definition fresh_ids (s : store) : Prop :=
  forall p, In p (products s) -> (Product.id p < next_id s)%nat.

(** The row [createProduct] sends to the store. *)
Definition product_row (productData : ProductData.t) : NewProduct.t :=
  NewProduct.make
    (ProductData.name productData)
    (ProductData.category productData)
    (parseFloat (ProductData.price productData))
    (if truthy (ProductData.cost_price productData)
     then Some (parseFloat (ProductData.cost_price productData))
     else None)
    (or_zero (parseInt (ProductData.stock_quantity productData)))
    (ProductData.size productData)
    (ProductData.barcode productData)
    (match ProductData.is_on_sale productData with
     | Some b => b
     | None => false
     end)
    (if truthy (ProductData.sale_price productData)
     then Some (parseFloat (ProductData.sale_price productData))
     else None)
    true.

(** The message of [.single()] when it does not find exactly one row. *)
Definition not_single : string :=
  "JSON object requested, multiple (or no) rows returned".

(* ================================================================== *)
(** * The till ([PosApp] in [src/js/pos.js]) *)
(* ================================================================== *)

(** The object [addToCart] pushes on the cart.  Its [quantity] starts at 1
    and is changed by [quantity++] and by the whole numbers the buttons of
    the cart pass on; its [icon] is markup and is left out. *)
Module CartEntry.
Record t : Type := make {
  id : id;
  name : string;
  price : number;
  quantity : Z;
  maxQuantity : Z
}.
Definition set_quantity (v : Z) (item : t) : t :=
  make (id item) (name item) (price item) v (maxQuantity item).
End CartEntry.

(** The fields of the till the cart and the product grid work on. *)
Module PosApp.
Record t : Type := make {
  products : list Product.t;
  cart : list CartEntry.t;
  currentCategory : string;
  searchTerm : string
}.
Definition set_cart (v : list CartEntry.t) (this : t) : t :=
  make (products this) v (currentCategory this) (searchTerm this).
End PosApp.

(** [this.cart.find(item => item.id === productId)] *)
Definition cart_find (productId : id) (cart : list CartEntry.t)
  : option CartEntry.t :=
  find (fun item => Nat.eqb (CartEntry.id item) productId) cart.

(** An assignment to a field of the entry [find] answered: the entry
    changes where it sits in the cart. *)
Fixpoint cart_assign (productId : id) (f : CartEntry.t -> CartEntry.t)
    (cart : list CartEntry.t) : list CartEntry.t :=
  match cart with
  | [] => []
  | item :: rest =>
      if Nat.eqb (CartEntry.id item) productId then f item :: rest
      else item :: cart_assign productId f rest
  end.

Definition addToCart (productId : id) (this : PosApp.t) : PosApp.t :=
  match find (fun p => Nat.eqb (Product.id p) productId)
          (PosApp.products this) with
  | None => this
  | Some product =>
      if Product.stock_quantity product =? 0 then this
      else
        match cart_find productId (PosApp.cart this) with
        | Some existingItem =>
            if CartEntry.quantity existingItem <? Product.stock_quantity product
            then
              PosApp.set_cart
                (cart_assign productId
                   (fun item =>
                      CartEntry.set_quantity (CartEntry.quantity item + 1) item)
                   (PosApp.cart this))
                this
            else this
        | None =>
            PosApp.set_cart
              (PosApp.cart this
               ++ [CartEntry.make (Product.id product) (Product.name product)
                     (parseFloat (Number (Num (Product.price product))))
                     1 (Product.stock_quantity product)])
              this
        end
  end.

Definition removeFromCart (productId : id) (this : PosApp.t) : PosApp.t :=
  PosApp.set_cart
    (filter (fun item => negb (Nat.eqb (CartEntry.id item) productId))
       (PosApp.cart this))
    this.

(** [newQuantity] is a whole number: the method is called from the two
    buttons of a cart entry only, with [item.quantity - 1] and
    [item.quantity + 1] ([updateCartUI]). *)
Definition updateCartItemQuantity (productId : id) (newQuantity : Z)
    (this : PosApp.t) : PosApp.t :=
  if newQuantity <=? 0 then removeFromCart productId this
  else
    match cart_find productId (PosApp.cart this) with
    | Some cartItem =>
        if newQuantity <=? CartEntry.maxQuantity cartItem then
          PosApp.set_cart
            (cart_assign productId (CartEntry.set_quantity newQuantity)
               (PosApp.cart this))
            this
        else this
    | None => this
    end.

Definition clearCart (this : PosApp.t) : PosApp.t := PosApp.set_cart [] this.



(** A cart entry as [createSale] reads it. *)
Definition cartItem (item : CartEntry.t) : CartItem.t :=
  CartItem.make (CartEntry.id item) (CartEntry.name item)
    (CartEntry.price item) (of_Z (CartEntry.quantity item)).

(** The call of [createSale] in [processPayment]. *)
Definition processPayment_createSale (paymentMethod : string)
    (this : PosApp.t) : prog (result SaleResult.t) :=
  createSale
    (processPayment_saleData (map cartItem (PosApp.cart this)) paymentMethod).

(** [filterProducts]: the products it hands to [renderProducts]. *)
Definition filterProducts (this : PosApp.t) : list Product.t :=
  let filteredProducts := PosApp.products this in
  let filteredProducts :=
    if negb (String.eqb (PosApp.currentCategory this) "All") then
      filter
        (fun product =>
           String.eqb (Product.category product) (PosApp.currentCategory this))
        filteredProducts
    else filteredProducts in
  let filteredProducts :=
    if nonempty (PosApp.searchTerm this) then
      filter
        (fun product =>
           (includes (PosApp.searchTerm this) (Product.name product)
            || includes (PosApp.searchTerm this) (Product.barcode product))%bool)
        filteredProducts
    else filteredProducts in
  filteredProducts.

(** [loadCategories]: the category buttons, when the store answers. *)
Definition loadCategories : prog (option (list string)) :=
  result <- getCategories ;;
  match result with
  | Success data => Ret (Some ("All" :: data))
  | Failure _ => Ret None
  end.

(** The figures [updateInventoryStats] shows; it shows none when no
    product is loaded. *)
Module InventoryStats.
Record t : Type := make {
  totalInventory : Z;
  inStockCount : nat;
  lowStockCount : nat;
  outOfStockCount : nat
}.
End InventoryStats.

Definition updateInventoryStats (products : list Product.t)
  : option InventoryStats.t :=
  match products with
  | [] => None
  | _ :: _ =>
      let totalInventory :=
        fold_left (fun sum product => sum + Product.stock_quantity product)
          products 0 in
      let inStockCount :=
        List.length (filter (fun p => 10 <? Product.stock_quantity p) products) in
      let lowStockCount :=
        List.length
          (filter
             (fun p =>
                ((0 <? Product.stock_quantity p)
                 && (Product.stock_quantity p <=? 10))%bool)
             products) in
      let outOfStockCount :=
        List.length (filter (fun p => Product.stock_quantity p =? 0) products) in
      Some (InventoryStats.make totalInventory inStockCount lowStockCount
              outOfStockCount)
  end.

(** [renderInventoryItems(filter)]: the products it lists, and the badge
    it gives each. *)
Definition renderInventoryItems (which : string) (products : list Product.t)
  : list Product.t :=
  if String.eqb which "low" then
    filter
      (fun p =>
         ((0 <? Product.stock_quantity p)
          && (Product.stock_quantity p <=? 10))%bool)
      products
  else if String.eqb which "out" then
    filter (fun p => Product.stock_quantity p =? 0) products
  else if String.eqb which "in-stock" then
    filter (fun p => 10 <? Product.stock_quantity p) products
  else products.

Definition badgeText (product : Product.t) : string :=
  if Product.stock_quantity product =? 0 then "Out of Stock"
  else if Product.stock_quantity product <=? 10 then "Low Stock"
  else "In Stock".

(* ================================================================== *)
(** * The manager's dashboard ([AdminApp] in [src/js/admin.js]) *)
(* ================================================================== *)

Module AdminApp.

(** [createInventoryItemElement]: the badge of a product. *)
Definition badgeText (product : Product.t) : string :=
  if 10 <? Product.stock_quantity product then "In Stock"
  else if 0 <? Product.stock_quantity product then "Low Stock"
  else "Out of Stock".

(** [saveProductChanges]: the update it sends, from what the two inputs
    of the row hold.  (The reads that refresh the screen afterwards are
    left out.) *)
Definition saveProductChanges (productId : id) (stockInput priceInput : string)
  : prog (result (option Product.t)) :=
  let updates :=
    ProductPatch.set_price (Some (Number (parseFloat (Str priceInput))))
      (ProductPatch.set_stock_quantity
         (Some (Number (parseInt (Str stockInput)))) ProductPatch.empty) in
  updateProduct productId updates.

End AdminApp.

(* ================================================================== *)
(** * Notions used in the statements about the till *)
(* ================================================================== *)

(** What a cashier does to the cart. *)
Inductive cart_action : Type :=
| AddToCart (productId : id)
| UpdateCartItemQuantity (productId : id) (newQuantity : Z)
| RemoveFromCart (productId : id)
| ClearCart.

Definition act (this : PosApp.t) (a : cart_action) : PosApp.t :=
  match a with
  | AddToCart productId => addToCart productId this
  | UpdateCartItemQuantity productId newQuantity =>
      updateCartItemQuantity productId newQuantity this
  | RemoveFromCart productId => removeFromCart productId this
  | ClearCart => clearCart this
  end.

(** The till after a run of actions on the cart. *)
Definition acts (actions : list cart_action) (this : PosApp.t) : PosApp.t :=
  fold_left act actions this.

(** The till as its constructor leaves it, once [products] are loaded. *)
Definition opened (products : list Product.t) : PosApp.t :=
  PosApp.make products [] "All" "".

(** The product the till finds under an identifier. *)
Definition listed (productId : id) (this : PosApp.t) : option Product.t :=
  find (fun p => Nat.eqb (Product.id p) productId) (PosApp.products this).

(** A cart entry made from a product the till lists, in a quantity that
    the stock of the product covers. *)
Definition covered (this : PosApp.t) (item : CartEntry.t) : Prop :=
  exists product,
    listed (CartEntry.id item) this = Some product
    /\ CartEntry.name item = Product.name product
    /\ CartEntry.price item = Num (Product.price product)
    /\ CartEntry.maxQuantity item = Product.stock_quantity product
    /\ 1 <= CartEntry.quantity item <= Product.stock_quantity product.

(* ================================================================== *)
(** * A shop to try things on *)
(* ================================================================== *)

Definition shirt : Product.t :=
  Product.make 1 "Blue Shirt" "Shirts" (1999 # 100) (Some (12 # 1)) 5
    "M" "LIM013" false None true.

Definition jeans : Product.t :=
  Product.make 2 "Slim Jeans" "Jeans" (30 # 1) None 0
    "32" "LIM014" false None true.

Definition belt : Product.t :=
  Product.make 3 "Leather Belt" "Accessories" (15 # 1) None 20
    "L" "LIM015" false None true.

(** A till with a cashier signed in and a store that fails nothing. *)
Definition shop : store :=
  {| products := [shirt; jeans; belt];
     sales := [];
     sale_items := [];
     inventory_transactions := [];
     auth := Session "cashier-1";
     next_id := 4;
     outages := [] |}.

(** The same shop when the store fails its requests as listed. *)
Definition shop_failing (failures : list (option string)) : store :=
  with_outages failures shop.

(** Two shirts in the cart, paid in cash, as [processPayment] sends them. *)
Definition two_shirts : SaleData.t :=
  processPayment_saleData
    [CartItem.make 1 "Blue Shirt" (Num (1999 # 100)) (of_Z 2)] "Cash".

(** Five shirts in the cart: five times 19.99 is 99.94999999999999 in
    binary64. *)
Definition five_shirts : SaleData.t :=
  processPayment_saleData
    [CartItem.make 1 "Blue Shirt" (Num (1999 # 100)) (of_Z 5)] "Cash".

(** The same cart, with a total that is not what the lines add up to. *)
Definition two_shirts_for_one : SaleData.t :=
  SaleData.make [CartItem.make 1 "Blue Shirt" (Num (1999 # 100)) (of_Z 2)]
    (of_Z 1) "Cash".

(** A checkout with nothing in the cart. *)
Definition empty_cart : SaleData.t := processPayment_saleData [] "Cash".

(** The sale [createSale] records first on [shop]. *)
Definition first_sale (total : Q) : Sale.t :=
  Sale.make 4 "cashier-1" total "Cash".

(** The "add product" form, filled in with ten hats. *)
Definition ten_hats : ProductData.t :=
  ProductData.make "Wool Hat" "Accessories" (Str "12.50") (Str "")
    (Str "10") "L" "LIM020" None (Str "").

(** The shop with nobody signed in. *)
Definition shop_signed_out : store :=
  {| products := products shop;
     sales := [];
     sale_items := [];
     inventory_transactions := [];
     auth := NoSession;
     next_id := 4;
     outages := [] |}.

(** The form filled in again for a product whose barcode is the one of
    the shirt. *)
Definition shirt_again : ProductData.t :=
  ProductData.make "Blue Shirt v2" "Shirts" (Str "21.00") (Str "")
    (Str "0") "M" "LIM013" None (Str "").

(** The shop after the shirt was soft-deleted and listed again. *)
Definition shop_relisted : store :=
  snd (run (createProduct shirt_again) (snd (run (deleteProduct 1) shop))).

(** An edit of price and stock in which both are below zero. *)
Definition below_zero : ProductPatch.t :=
  ProductPatch.set_price (Some (Str "-5.50"))
    (ProductPatch.set_stock_quantity (Some (Number (of_Z (-3))))
       ProductPatch.empty).

(** A shelf with one product, [stock] units of it, and a cashier signed
    in. *)
Definition shelf (stock : Z) : store :=
  {| products := [with_stock stock shirt];
     sales := [];
     sale_items := [];
     inventory_transactions := [];
     auth := Session "cashier-1";
     next_id := 2;
     outages := [] |}.

(** [q] shirts in the cart. *)
Definition shirts (q : Z) : SaleData.t :=
  processPayment_saleData
    [CartItem.make 1 "Blue Shirt" (Num (1999 # 100)) (of_Z q)] "Cash".

(** One checkout after the other: the seven requests of the first call,
    then the seven of the second. *)
Definition in_turn : list bool :=
  [true; true; true; true; true; true; true;
   false; false; false; false; false; false; false].

(** Two checkouts in flight: the first call runs up to and including its
    read of the stock (session, sale, lines, read), then the second does
    the same, then each writes the stock it computed and its ledger
    entry. *)
Definition racing : list bool :=
  [true; true; true; true; false; false; false; false;
   true; true; true; false; false; false].

(** The product [createProduct] makes of [ten_hats] on [shop]. *)
Definition hat : Product.t :=
  Product.make 4 "Wool Hat" "Accessories" (25 # 2) None 10
    "L" "LIM020" false None true.

(** The form filled in with a price that is no number. *)
Definition no_price : ProductData.t :=
  ProductData.make "Wool Hat" "Accessories" (Str "abc") (Str "")
    (Str "10") "L" "LIM020" None (Str "").

(** The shop when the store serves the first request and fails the
    second. *)
Definition shop_cut_off : store :=
  shop_failing [None; Some "network error"].

(** Two clicks on the shirt and one on the belt. *)
Definition shirts_and_belt : list cart_action :=
  [AddToCart 1; AddToCart 1; AddToCart 3].


(** A till that loaded the products of the shop, with two shirts in its
    cart. *)
Definition till_with_shirts : PosApp.t :=
  PosApp.make (products shop)
    [CartEntry.make 1 "Blue Shirt" (Num (1999 # 100)) 2 5] "All" "".

(** A cart entry for a product the shop does not have. *)
Definition ghost : SaleData.t :=
  processPayment_saleData
    [CartItem.make 9 "Ghost" (Num (5 # 1)) (of_Z 1)] "Cash".

(* ================================================================== *)
(** * Numbers *)
(* ================================================================== *)

Example parseInt_12abc : parseInt (Str "  12abc") = of_Z 12.
Proof. reflexivity. Qed.
Example parseInt_neg : parseInt (Str "-7") = of_Z (-7).
Proof. reflexivity. Qed.
Example parseInt_hex : parseInt (Str "0x1f") = of_Z 31.
Proof. reflexivity. Qed.
Example parseInt_abc : parseInt (Str "abc") = NaN.
Proof. reflexivity. Qed.
Example parseInt_empty : parseInt (Str "") = NaN.
Proof. reflexivity. Qed.
Example parseInt_frac : parseInt (Number (Num (5 # 2))) = of_Z 2.
Proof. reflexivity. Qed.
Example parseFloat_1999 : parseFloat (Str "19.99") = Num (1999 # 100).
Proof. reflexivity. Qed.
Example parseFloat_exp : parseFloat (Str "1.5e2x") = of_Z 150.
Proof. reflexivity. Qed.
Example parseFloat_dot5 : parseFloat (Str "-.5") = Num (-1 # 2).
Proof. reflexivity. Qed.
Example parseFloat_abc : parseFloat (Str "abc") = NaN.
Proof. reflexivity. Qed.
Example to_string_price : to_string (Number (Num (1999 # 100))) = "19.99".
Proof. reflexivity. Qed.
Example to_string_negative : to_string (Number (Num (-5 # 2))) = "-2.5".
Proof. reflexivity. Qed.
Example ilike_substring : ilike "%shi%" "Blue SHIRT" = true.
Proof. reflexivity. Qed.
Example ilike_underscore : ilike "%sh_rt%" "Blue SHIRT" = true.
Proof. reflexivity. Qed.
Example ilike_escaped : ilike "%\%%" "ab" = false.
Proof. reflexivity. Qed.
Example ilike_star : ilike "%b*t%" "Blue Shirt" = true.
Proof. reflexivity. Qed.

Arguments of_Z : simpl never.
Arguments to_int : simpl never.
Arguments nadd : simpl never.
Arguments nsub : simpl never.
Arguments nmul : simpl never.
Arguments nneg : simpl never.
Arguments parseInt : simpl never.
Arguments parseFloat : simpl never.
Arguments truthy : simpl never.
Arguments defined_field : simpl never.

Lemma Qred_inject_Z (z : Z) : Qred (inject_Z z) = inject_Z z.
Proof.
  unfold Qred, inject_Z.
  pose proof (Z.ggcd_correct_divisors z 1) as D.
  pose proof (Z.ggcd_gcd z 1) as G.
  destruct (Z.ggcd z 1) as [g [a b]]. simpl in *.
  rewrite Z.gcd_1_r in G. subst g.
  destruct D as [Da Db].
  rewrite Z.mul_1_l in Da, Db. subst a b. reflexivity.
Qed.

(** A whole number is a binary64 value. *)
Lemma binary64_whole (x : Q) (z : Z) :
  Qred x = inject_Z z -> binary64 x = inject_Z z.
Proof. intro E. unfold binary64. rewrite E. reflexivity. Qed.

Lemma binary64_inject_Z (z : Z) : binary64 (inject_Z z) = inject_Z z.
Proof. apply binary64_whole, Qred_inject_Z. Qed.

Arguments binary64 : simpl never.

Lemma to_int_of_Z (z : Z) : to_int (of_Z z) = Some z.
Proof. unfold to_int, of_Z. rewrite binary64_inject_Z. reflexivity. Qed.

Lemma nsub_of_Z (a b : Z) : nsub (of_Z a) (of_Z b) = of_Z (a - b).
Proof.
  unfold nsub, of_Z. f_equal. rewrite !binary64_inject_Z.
  apply binary64_whole.
  rewrite <- (Qred_inject_Z (a - b)).
  apply Qred_complete. unfold Qeq, inject_Z. simpl. ring.
Qed.

Lemma nadd_of_Z (a b : Z) : nadd (of_Z a) (of_Z b) = of_Z (a + b).
Proof.
  unfold nadd, of_Z. f_equal. rewrite !binary64_inject_Z.
  apply binary64_whole.
  rewrite <- (Qred_inject_Z (a + b)).
  apply Qred_complete. unfold Qeq, inject_Z. simpl. ring.
Qed.

Lemma nmul_of_Z (a b : Z) : nmul (of_Z a) (of_Z b) = of_Z (a * b).
Proof.
  unfold nmul, of_Z. f_equal. rewrite !binary64_inject_Z.
  apply binary64_whole.
  rewrite <- (Qred_inject_Z (a * b)).
  apply Qred_complete. unfold Qeq, inject_Z. simpl. ring.
Qed.

Lemma nneg_of_Z (a : Z) : nneg (of_Z a) = of_Z (- a).
Proof.
  unfold nneg, of_Z. f_equal.
  apply binary64_whole.
  rewrite <- (Qred_inject_Z (- a)).
  apply Qred_complete. unfold Qeq, inject_Z. simpl. ring.
Qed.

Lemma of_Z_inj (a b : Z) : of_Z a = of_Z b -> a = b.
Proof. unfold of_Z, inject_Z. congruence. Qed.

Lemma parseInt_of_Z (z : Z) : parseInt (Number (of_Z z)) = of_Z z.
Proof.
  unfold parseInt, of_Z. rewrite binary64_inject_Z. simpl.
  now rewrite Z.quot_1_r.
Qed.

(** [parseInt] answers an integer or [NaN]. *)
Lemma parseInt_integer (v : value) :
  parseInt v = NaN \/ exists z, parseInt v = of_Z z.
Proof.
  destruct v as [| | [|q] | s]; unfold parseInt; eauto.
  unfold parseInt_string.
  destruct (sign_of (skip_space s)) as [sg s1].
  match goal with
  | |- context [let '(radix, s2) := ?e in _] => destruct e as [radix s2]
  end.
  destruct (digits radix s2 0 0) as [[v n] r].
  destruct n; eauto.
Qed.

Lemma ngt0_of_Z (z : Z) : ngt0 (of_Z z) = (0 <? z).
Proof.
  unfold ngt0, of_Z. rewrite binary64_inject_Z.
  unfold Qle_bool, inject_Z. simpl.
  rewrite Z.mul_1_r. destruct (Z.leb_spec z 0), (Z.ltb_spec 0 z); simpl; lia.
Qed.

(* ================================================================== *)
(** * What rounding costs *)
(* ================================================================== *)

(** Rounding to a whole number of units is off by half a unit at most. *)
Lemma round_half_even_error (n d : Z) :
  0 < d -> 2 * Z.abs (round_half_even n d * d - n) <= d.
Proof.
  intro Hd. unfold round_half_even.
  pose proof (Z.div_mod n d ltac:(lia)) as E.
  pose proof (Z.mod_pos_bound n d Hd) as B.
  destruct (Z.compare_spec (2 * (n mod d)) d) as [C | C | C];
    [destruct (Z.even (n / d)) | |]; nia.
Qed.

(** The exponent [binary64] works out for [a / d]: [2 ^ e <= a / d] ... *)
Lemma exponent_lower (a d : Z) :
  0 < a -> 0 < d ->
  let k := Z.log2 a - Z.log2 d in
  let e := let (n', d') := scaled a d k in if d' <=? n' then k else k - 1 in
  (0 <= e -> d * 2 ^ e <= a) /\ (e < 0 -> d <= a * 2 ^ (- e)).
Proof.
  intros Ha Hd k e.
  assert (k = Z.log2 a - Z.log2 d) as Hk by reflexivity.
  pose proof (Z.log2_spec a Ha) as [La Ua].
  pose proof (Z.log2_spec d Hd) as [Ld Ud].
  pose proof (Z.log2_nonneg a) as Na.
  pose proof (Z.log2_nonneg d) as Nd.
  subst e. unfold scaled. clearbody k.
  rewrite Z.pow_succ_r in Ua, Ud by assumption.
  destruct (Z.leb_spec 0 k) as [K | K]; cbv beta iota.
  - destruct (Z.leb_spec (d * 2 ^ k) a) as [T | T].
    + split; [auto | clear - K; intro; exfalso; lia].
    + split.
      * intro K1.
        assert (2 * 2 ^ Z.log2 d * 2 ^ (k - 1) = 2 ^ Z.log2 a) as P.
        { rewrite <- Z.pow_succ_r, <- Z.pow_add_r by lia. f_equal. lia. }
        assert (0 < 2 ^ (k - 1)) by (apply Z.pow_pos_nonneg; lia).
        nia.
      * intro K1. assert (k = 0) as K0 by lia.
        replace (- (k - 1)) with 1 by lia.
        assert (Z.log2 a = Z.log2 d) as E by lia.
        rewrite E in La. change (2 ^ 1) with 2. lia.
  - destruct (Z.leb_spec d (a * 2 ^ (- k))) as [T | T].
    + split; [clear - K; intro; exfalso; lia | auto].
    + split; [clear - K; intro; exfalso; lia |]. intros _.
      replace (- (k - 1)) with (Z.log2 d + 1 - Z.log2 a) by lia.
      assert (2 ^ Z.log2 a * 2 ^ (Z.log2 d + 1 - Z.log2 a)
              = 2 * 2 ^ Z.log2 d) as P.
      { rewrite <- Z.pow_succ_r, <- Z.pow_add_r by lia. f_equal. lia. }
      assert (0 < 2 ^ (Z.log2 d + 1 - Z.log2 a))
        by (apply Z.pow_pos_nonneg; lia).
      nia.
Qed.

(** ... and [a / d < 2 ^ (e + 1)]. *)
Lemma exponent_upper (a d : Z) :
  0 < a -> 0 < d ->
  let k := Z.log2 a - Z.log2 d in
  let e := let (n', d') := scaled a d k in if d' <=? n' then k else k - 1 in
  (0 <= e -> a < d * 2 ^ (e + 1)) /\ (e < 0 -> a * 2 ^ (- e) < 2 * d).
Proof.
  intros Ha Hd k e.
  pose proof (Z.log2_spec a Ha) as [La Ua].
  pose proof (Z.log2_spec d Hd) as [Ld Ud].
  pose proof (Z.log2_nonneg a) as Na.
  pose proof (Z.log2_nonneg d) as Nd.
  assert (k = Z.log2 a - Z.log2 d) as Hk by reflexivity.
  subst e. unfold scaled. clearbody k.
  rewrite Z.pow_succ_r in Ua, Ud by assumption.
  destruct (Z.leb_spec 0 k) as [K | K]; cbv beta iota.
  - destruct (Z.leb_spec (d * 2 ^ k) a) as [T | T].
    + split; [intros _ | clear - K; intro; exfalso; lia].
      assert (2 ^ Z.log2 d * 2 ^ (k + 1) = 2 * 2 ^ Z.log2 a) as P.
      { rewrite <- Z.pow_succ_r, <- Z.pow_add_r by lia. f_equal. lia. }
      assert (0 < 2 ^ (k + 1)) by (apply Z.pow_pos_nonneg; lia).
      nia.
    + split.
      * intros _. replace (k - 1 + 1) with k by lia. exact T.
      * intro K1. assert (k = 0) as K0 by lia.
        rewrite K0 in T. replace (- (k - 1)) with 1 by lia.
        change (2 ^ 0) with 1 in T. change (2 ^ 1) with 2. lia.
  - destruct (Z.leb_spec d (a * 2 ^ (- k))) as [T | T].
    + split; [clear - K; intro; exfalso; lia | intros _].
      assert (2 ^ Z.log2 a * 2 ^ (- k) = 2 ^ Z.log2 d) as P.
      { rewrite <- Z.pow_add_r by lia. f_equal. lia. }
      assert (0 < 2 ^ (- k)) by (apply Z.pow_pos_nonneg; lia).
      nia.
    + split; [clear - K; intro; exfalso; lia | intros _].
      replace (- (k - 1)) with (Z.succ (- k)) by lia.
      rewrite Z.pow_succ_r by lia. lia.
Qed.

(** A whole number of units is not rounded. *)
Lemma round_half_even_exact (c d : Z) :
  0 < d -> round_half_even (c * d) d = c.
Proof.
  intro Hd. unfold round_half_even.
  rewrite Z.mod_mul, Z.div_mul by lia.
  change (2 * 0) with 0.
  destruct (Z.compare_spec 0 d); lia.
Qed.

Lemma round_half_even_bound (n d K : Z) :
  0 < d -> 0 <= n -> n < K * d -> 0 <= round_half_even n d <= K.
Proof.
  intros Hd Hn H. unfold round_half_even.
  pose proof (Z.div_mod n d ltac:(lia)) as E.
  pose proof (Z.mod_pos_bound n d Hd) as B.
  assert (0 <= n / d) by (apply Z.div_pos; lia).
  assert (n / d < K) by (apply Z.div_lt_upper_bound; lia).
  destruct (Z.compare_spec (2 * (n mod d)) d) as [C | C | C];
    [destruct (Z.even (n / d)) | |]; lia.
Qed.

(** The divisors of a power of two are powers of two. *)
Lemma pow2_divisor (n : Z) :
  0 <= n -> forall d, 0 < d -> (d | 2 ^ n) ->
  exists j, 0 <= j <= n /\ d = 2 ^ j.
Proof.
  intro Hn. pattern n. apply natlike_ind; [| | exact Hn]; clear n Hn.
  - intros d Hd D. exists 0. split; [lia |].
    change (2 ^ 0) with 1 in *.
    apply Z.divide_1_r_nonneg in D; lia.
  - intros n Hn IH d Hd D.
    rewrite Z.pow_succ_r in D by assumption.
    destruct (Z.Even_or_Odd d) as [[d' E] | [d' E]].
    + subst d. apply Z.mul_divide_cancel_l in D; [| lia].
      destruct (IH d' ltac:(lia) D) as (j & Hj & ->).
      exists (Z.succ j). split; [lia |].
      now rewrite Z.pow_succ_r by lia.
    + assert (Z.gcd d 2 = 1) as G.
      { pose proof (Z.gcd_divide_l d 2) as [x X].
        pose proof (Z.gcd_divide_r d 2) as G2.
        pose proof (Z.gcd_nonneg d 2) as G0.
        apply Z.divide_pos_le in G2; [| lia].
        assert (Z.gcd d 2 <> 0) by (intro Z0; rewrite Z0 in X; lia).
        assert (Z.gcd d 2 = 1 \/ Z.gcd d 2 = 2) as [G | G] by lia;
          [exact G | rewrite G in X; lia]. }
      apply Z.gauss in D; [| exact G].
      destruct (IH d Hd D) as (j & Hj & ->).
      exists j. split; [lia | reflexivity].
Qed.

Section Rounding.
Local Open Scope Q_scope.


Lemma Qabs_minus_whole (x num : Z) (den : positive) :
  Qabs (inject_Z x - (num # den)) == (Z.abs (x * Zpos den - num) # den).
Proof.
  unfold Qminus, Qplus, Qopp, inject_Z, Qabs, Qeq. simpl.
  f_equal. f_equal. lia.
Qed.

Lemma Qabs_minus_fraction (x num : Z) (p den : positive) :
  Qabs ((x # p) - (num # den))
  == (Z.abs (x * Zpos den - num * Zpos p) # (p * den)).
Proof.
  unfold Qminus, Qplus, Qopp, Qabs, Qeq. simpl.
  f_equal. f_equal. lia.
Qed.

Lemma relative_bound (X A : Z) (D den : positive) :
  (0 <= A)%Z ->
  (X * 2 ^ 53 * Zpos den <= A * Zpos D)%Z ->
  (X # D) <= (A # den) * (1 # 2 ^ 53) + (1 # 2 ^ 1075).
Proof.
  intros HA H.
  apply Qle_trans with ((A # den) * (1 # 2 ^ 53)).
  - unfold Qle, Qmult. simpl Qnum. simpl Qden.
    rewrite Pos2Z.inj_mul, Pos2Z.inj_pow. lia.
  - rewrite <- (Qplus_0_r ((A # den) * (1 # 2 ^ 53))) at 1.
    apply Qplus_le_r. discriminate.
Qed.

Lemma absolute_bound (X A : Z) (D den : positive) :
  (0 <= A)%Z ->
  (X * 2 ^ 1075 <= Zpos D)%Z ->
  (X # D) <= (A # den) * (1 # 2 ^ 53) + (1 # 2 ^ 1075).
Proof.
  intros HA H.
  apply Qle_trans with (1 # 2 ^ 1075).
  - unfold Qle. simpl Qnum. simpl Qden.
    rewrite Pos2Z.inj_pow. lia.
  - rewrite <- (Qplus_0_l (1 # 2 ^ 1075)) at 1.
    apply Qplus_le_l. unfold Qle, Qmult. simpl. lia.
Qed.

Lemma sgn_abs_minus (num X : Z) :
  num <> 0%Z -> Z.abs (Z.sgn num * X - num) = Z.abs (X - Z.abs num).
Proof.
  intros H.
  destruct (Z.sgn_spec num) as [[? ->]|[[? ?]|[? ->]]]; lia.
Qed.

Lemma sgn_abs_minus_scaled (num X P : Z) :
  num <> 0%Z ->
  Z.abs (Z.sgn num * X - num * P) = Z.abs (X - Z.abs num * P).
Proof.
  intros H.
  destruct (Z.sgn_spec num) as [[? ->]|[[? ?]|[? ->]]]; [| lia |].
  - rewrite (Z.abs_eq num) by lia. f_equal. ring.
  - rewrite (Z.abs_neq num) by lia.
    rewrite <- Z.abs_opp. f_equal. ring.
Qed.

(** Rounding to binary64 costs at most [2^-53] of the magnitude of the
    number, or [2^-1075] where binary64 is at its finest. *)
Lemma binary64_error (q : Q) :
  Qabs (binary64 q - q) <= Qabs q * (1 # 2 ^ 53) + (1 # 2 ^ 1075).
Proof.
  unfold binary64.
  pose proof (Qred_correct q) as Hr.
  destruct (Qred q) as [num den] eqn:R.
  simpl Qnum. simpl Qden.
  destruct (Pos.eqb den 1).
  { rewrite Hr. setoid_replace (q - q) with 0 by ring.
    simpl Qabs. apply Qle_trans with (0 * (1 # 2 ^ 53) + 0).
    - discriminate.
    - apply Qplus_le_compat; [|discriminate].
      apply Qmult_le_compat_r; [apply Qabs_nonneg | discriminate]. }
  rewrite <- Hr.
  assert (HA : (0 <= Z.abs num)%Z) by lia.
  change (Qabs (num # den)) with (Z.abs num # den).
  destruct (Z.eq_dec num 0) as [-> | Hn].
  { simpl Z.sgn. 
    match goal with |- context [let (n', d') := ?s in _] => destruct s as [n' d'] end.
    match goal with |- context [let (n', d') := ?s in _] => destruct s as [n2 d2] end.
    rewrite Z.mul_0_l.
    match goal with |- context [if ?b then _ else _] => destruct b end.
    - rewrite Qabs_minus_whole. apply absolute_bound; [lia|]. simpl. lia.
    - rewrite Qred_correct, Qabs_minus_fraction. apply absolute_bound; [lia|]. simpl. lia. }
  pose proof (exponent_lower (Z.abs num) (Zpos den)) as M.
  cbv zeta in M. specialize (M ltac:(lia) ltac:(lia)).
  set (e := let (n', d') := scaled (Z.abs num) (Z.pos den)
                                 (Z.log2 (Z.abs num) - Z.log2 (Z.pos den)) in
            if (d' <=? n')%Z then (Z.log2 (Z.abs num) - Z.log2 (Z.pos den))%Z
            else (Z.log2 (Z.abs num) - Z.log2 (Z.pos den) - 1)%Z) in *.
  clearbody e.
  pose proof (sgn_abs_minus num) as S.
  specialize (fun X => S X Hn).
  set (a := Z.abs num) in *.
  set (u := Z.max (e - 52) (-1074)).
  unfold scaled.
  destruct (Z.leb_spec 0 u) as [Hu | Hu].
  - pose proof (round_half_even_error a (Z.pos den * 2 ^ u)) as E.
    set (m0 := round_half_even a (Z.pos den * 2 ^ u)) in *.
    assert (P : (0 < 2 ^ u)%Z) by (apply Z.pow_pos_nonneg; lia).
    specialize (E ltac:(nia)).
    rewrite Qabs_minus_whole.
    apply relative_bound; [lia|].
    replace (Z.sgn num * m0 * 2 ^ u * Z.pos den)%Z
      with (Z.sgn num * (m0 * (Z.pos den * 2 ^ u)))%Z by ring.
    rewrite S.
    destruct M as [M _]. specialize (M ltac:(lia)).
    replace e with (u + 52)%Z in M by lia.
    rewrite Z.pow_add_r in M by lia.
    set (X := Z.abs (m0 * (Z.pos den * 2 ^ u) - a)) in *.
    change (2 ^ 53)%Z with (2 * 2 ^ 52)%Z.
    change (2 ^ 52)%Z with 4503599627370496%Z in *.
    nia.
  - pose proof (round_half_even_error (a * 2 ^ (- u)) (Z.pos den)) as E.
    set (m0 := round_half_even (a * 2 ^ (- u)) (Z.pos den)) in *.
    assert (P : (0 < 2 ^ (- u))%Z) by (apply Z.pow_pos_nonneg; lia).
    specialize (E ltac:(lia)).
    rewrite Qred_correct, Qabs_minus_fraction.
    rewrite Z2Pos.id by exact P.
    rewrite <- Z.mul_assoc, sgn_abs_minus_scaled by exact Hn.
    fold a.
    set (X := Z.abs (m0 * Z.pos den - a * 2 ^ (- u))) in *.
    destruct (Z.le_ge_cases (-1074) (e - 52)) as [L | L].
    + apply relative_bound; [lia|].
      rewrite Pos2Z.inj_mul, Z2Pos.id by exact P.
      replace u with (e - 52)%Z in * by lia.
      change (2 ^ 53)%Z with (2 * 2 ^ 52)%Z.
      destruct (Z.le_gt_cases 0 e) as [He | He].
      * destruct M as [M _]. specialize (M He).
        assert (T : (2 ^ (- (e - 52)) * 2 ^ e = 2 ^ 52)%Z).
        { rewrite <- Z.pow_add_r by lia. f_equal. lia. }
        set (p := (2 ^ (- (e - 52)))%Z) in *.
        set (t := (2 ^ e)%Z) in *.
        assert (0 < t)%Z by (apply Z.pow_pos_nonneg; lia).
        rewrite <- T.
        assert (B : (2 * X * t <= a)%Z) by nia.
        replace (X * (2 * (p * t)) * Z.pos den)%Z
          with (2 * X * t * (p * Z.pos den))%Z by ring.
        apply Z.mul_le_mono_nonneg_r; [lia | exact B].
      * destruct M as [_ M]. specialize (M He).
        assert (T : (2 ^ (- (e - 52)) = 2 ^ 52 * 2 ^ (- e))%Z).
        { rewrite <- Z.pow_add_r by lia. f_equal. lia. }
        rewrite T in *.
        set (t := (2 ^ (- e))%Z) in *.
        assert (0 < t)%Z by (apply Z.pow_pos_nonneg; lia).
        assert (B : (2 * X <= a * t)%Z) by lia.
        replace (X * (2 * 2 ^ 52) * Z.pos den)%Z
          with (2 * X * (2 ^ 52 * Z.pos den))%Z by ring.
        replace (a * (2 ^ 52 * t * Z.pos den))%Z
          with (a * t * (2 ^ 52 * Z.pos den))%Z by ring.
        apply Z.mul_le_mono_nonneg_r; [lia | exact B].
    + apply absolute_bound; [lia|].
      rewrite Pos2Z.inj_mul, Z2Pos.id by exact P.
      replace u with (-1074)%Z in * by lia.
      change (- -1074)%Z with 1074%Z in *.
      change (2 ^ 1075)%Z with (2 * 2 ^ 1074)%Z.
      set (p := (2 ^ 1074)%Z) in *. clearbody p.
      nia.
Qed.

End Rounding.

Lemma exponent_pow2 (a j : Z) :
  0 < a -> 0 <= j ->
  (let (n', d') := scaled a (2 ^ j) (Z.log2 a - j) in
   if d' <=? n' then Z.log2 a - j else Z.log2 a - j - 1) = Z.log2 a - j.
Proof.
  intros Ha Hj.
  pose proof (Z.log2_spec a Ha) as [La _].
  pose proof (Z.log2_nonneg a) as Na.
  unfold scaled.
  destruct (Z.leb_spec 0 (Z.log2 a - j)) as [K | K].
  - rewrite <- Z.pow_add_r by lia.
    replace (j + (Z.log2 a - j)) with (Z.log2 a) by lia.
    destruct (Z.leb_spec (2 ^ Z.log2 a) a); [reflexivity | lia].
  - destruct (Z.leb_spec (2 ^ j) (a * 2 ^ (- (Z.log2 a - j)))) as [T | T];
      [reflexivity | exfalso].
    assert (2 ^ Z.log2 a * 2 ^ (- (Z.log2 a - j)) = 2 ^ j) as P.
    { rewrite <- Z.pow_add_r by lia. f_equal. lia. }
    assert (0 < 2 ^ (- (Z.log2 a - j))) by (apply Z.pow_pos_nonneg; lia).
    nia.
Qed.

(** A multiple of [2 ^ -t] with 53 bits at most is a binary64 value. *)
Lemma binary64_dyadic (m t : Z) :
  0 < t <= 1074 -> Z.abs m <= 2 ^ 53 ->
  binary64 (Qred (m # Z.to_pos (2 ^ t))) = Qred (m # Z.to_pos (2 ^ t)).
Proof.
  intros Ht Hm.
  assert (0 < 2 ^ t) as P by (apply Z.pow_pos_nonneg; lia).
  pose proof (gcd_Qred (m # Z.to_pos (2 ^ t))) as G.
  pose proof (Qred_correct (m # Z.to_pos (2 ^ t))) as C.
  assert (Qred (Qred (m # Z.to_pos (2 ^ t))) = Qred (m # Z.to_pos (2 ^ t)))
    as I by apply Qred_complete, Qred_correct.
  destruct (Qred (m # Z.to_pos (2 ^ t))) as [num den].
  unfold binary64. rewrite I. simpl Qnum in *. simpl Qden in *.
  destruct (Pos.eqb_spec den 1) as [D1 | D1]; [reflexivity |].
  unfold Qeq in C. simpl in C. rewrite Z2Pos.id in C by exact P.
  assert (Z.pos den | 2 ^ t) as D.
  { apply Z.gauss with num; [| now rewrite Z.gcd_comm].
    exists m. rewrite C. ring. }
  destruct (pow2_divisor t ltac:(lia) (Z.pos den) (Pos2Z.is_pos den) D)
    as (j & Hj & Hden).
  assert (1 <= j) as Hj1.
  { destruct (Z.eq_dec j 0) as [-> |]; [| lia].
    exfalso. apply D1. change (2 ^ 0) with 1 in Hden. now injection Hden. }
  assert (Z.Odd num) as Hodd.
  { destruct (Z.Even_or_Odd num) as [[x X] |]; [exfalso | assumption].
    assert (2 | 1) as [y Y]; [| lia].
    rewrite <- G. apply Z.gcd_greatest.
    - exists x. lia.
    - rewrite Hden. exists (2 ^ (j - 1)).
      replace j with (Z.succ (j - 1)) at 1 by lia.
      rewrite Z.pow_succ_r by lia. ring. }
  assert (m = num * 2 ^ (t - j)) as Em.
  { rewrite Hden in C.
    assert (2 ^ t = 2 ^ (t - j) * 2 ^ j) as S.
    { rewrite <- Z.pow_add_r by lia. f_equal. lia. }
    rewrite S in C.
    assert (0 < 2 ^ j) by (apply Z.pow_pos_nonneg; lia).
    apply Z.mul_cancel_r with (2 ^ j); [lia |]. rewrite <- C. ring. }
  set (a := Z.abs num).
  assert (0 < a < 2 ^ 53) as Ha.
  { assert (0 < 2 ^ (t - j)) by (apply Z.pow_pos_nonneg; lia).
    rewrite Em, Z.abs_mul, (Z.abs_eq (2 ^ (t - j))) in Hm by lia.
    fold a in Hm.
    destruct Hodd as [x X].
    assert (a <> 2 ^ 53).
    { change (2 ^ 53) with 9007199254740992. unfold a. lia. }
    unfold a in *. nia. }
  assert (Z.log2 a < 53) as HL by (apply Z.log2_lt_pow2; lia).
  pose proof (Z.log2_nonneg a) as HL0.
  rewrite Hden, Z.log2_pow2 by lia.
  rewrite exponent_pow2 by lia.
  set (u := Z.max (Z.log2 a - j - 52) (-1074)).
  assert (u <= - j) as Hu by lia.
  unfold scaled.
  destruct (Z.leb_spec 0 u) as [U | U]; [lia |].
  assert (0 < 2 ^ j) by (apply Z.pow_pos_nonneg; lia).
  replace (a * 2 ^ (- u)) with (a * 2 ^ (- u - j) * 2 ^ j).
  2:{ rewrite <- Z.mul_assoc, <- Z.pow_add_r by lia. do 2 f_equal. lia. }
  rewrite round_half_even_exact by assumption.
  rewrite <- I. apply Qred_complete.
  unfold Qeq. simpl.
  rewrite Z2Pos.id by (apply Z.pow_pos_nonneg; lia).
  rewrite Hden.
  replace (Z.sgn num * (a * 2 ^ (- u - j)) * 2 ^ j)
    with (a * Z.sgn num * (2 ^ (- u - j) * 2 ^ j)) by ring.
  unfold a. rewrite Z.abs_sgn, <- Z.pow_add_r by lia.
  do 2 f_equal. lia.
Qed.

(** What [binary64] answers: a whole number, or such a multiple. *)
Lemma binary64_shape (q : Q) :
  (exists z, binary64 q = inject_Z z)
  \/ exists m t,
       0 < t <= 1074 /\ Z.abs m <= 2 ^ 53
       /\ binary64 q = Qred (m # Z.to_pos (2 ^ t)).
Proof.
  unfold binary64.
  destruct (Qred q) as [num den]. simpl Qnum. simpl Qden.
  destruct (Pos.eqb_spec den 1) as [-> | D1]; [left; now exists num |].
  destruct (Z.eq_dec num 0) as [-> | Hn].
  { simpl Z.sgn.
    match goal with |- context [let (n', d') := ?s in _] => destruct s as [n' d'] end.
    match goal with |- context [let (n', d') := ?s in _] => destruct s as [n2 d2] end.
    rewrite Z.mul_0_l.
    match goal with |- context [Z.leb 0 ?u] => destruct (Z.leb_spec 0 u) as [U | U] end.
    - left. eexists. reflexivity.
    - right. do 2 eexists. split; [| split; [| reflexivity]]; [lia |].
      simpl. lia. }
  pose proof (exponent_upper (Z.abs num) (Zpos den)) as M.
  cbv zeta in M. specialize (M ltac:(lia) ltac:(lia)).
  set (e := let (n', d') := scaled (Z.abs num) (Z.pos den)
                                 (Z.log2 (Z.abs num) - Z.log2 (Z.pos den)) in
            if (d' <=? n')%Z then (Z.log2 (Z.abs num) - Z.log2 (Z.pos den))%Z
            else (Z.log2 (Z.abs num) - Z.log2 (Z.pos den) - 1)%Z) in *.
  clearbody e.
  set (a := Z.abs num) in *.
  set (u := Z.max (e - 52) (-1074)).
  unfold scaled.
  destruct (Z.leb_spec 0 u) as [Hu | Hu]; [left; eexists; reflexivity |].
  right. exists (Z.sgn num * round_half_even (a * 2 ^ (- u)) (Z.pos den)), (- u).
  split; [lia |]. split; [| reflexivity].
  assert (0 < 2 ^ (- u)) as P by (apply Z.pow_pos_nonneg; lia).
  assert (a * 2 ^ (- u) < 2 ^ 53 * Z.pos den) as B.
  { assert (2 ^ (- u) <= 2 ^ (52 - e)) as Mono
      by (apply Z.pow_le_mono_r; lia).
    destruct (Z.le_gt_cases 0 e) as [He | He].
    - destruct M as [M _]. specialize (M He).
      assert (2 ^ (e + 1) * 2 ^ (52 - e) = 2 ^ 53) as T.
      { rewrite <- Z.pow_add_r by lia. f_equal. lia. }
      assert (0 < 2 ^ (52 - e)) by (apply Z.pow_pos_nonneg; lia).
      rewrite <- T. 
      apply Z.le_lt_trans with (a * 2 ^ (52 - e)); [unfold a; nia |].
      replace (2 ^ (e + 1) * 2 ^ (52 - e) * Z.pos den)
        with (Z.pos den * 2 ^ (e + 1) * 2 ^ (52 - e)) by ring.
      apply Z.mul_lt_mono_pos_r; assumption.
    - destruct M as [_ M]. specialize (M He).
      assert (2 ^ (52 - e) = 2 ^ 52 * 2 ^ (- e)) as T.
      { rewrite <- Z.pow_add_r by lia. reflexivity. }
      rewrite T in Mono.
      change (2 ^ 53) with (2 * 2 ^ 52).
      apply Z.le_lt_trans with (a * (2 ^ 52 * 2 ^ (- e))); [unfold a; nia |].
      replace (a * (2 ^ 52 * 2 ^ (- e))) with (a * 2 ^ (- e) * 2 ^ 52) by ring.
      replace (2 * 2 ^ 52 * Z.pos den) with (2 * Z.pos den * 2 ^ 52) by ring.
      apply Z.mul_lt_mono_pos_r; try assumption; reflexivity. }
  pose proof (round_half_even_bound (a * 2 ^ (- u)) (Z.pos den) (2 ^ 53)
                ltac:(lia) ltac:(unfold a; nia) B) as R.
  rewrite Z.abs_mul.
  destruct (Z.sgn_spec num) as [[? ->]|[[? ?]|[? ->]]]; lia.
Qed.

(** Rounding a binary64 value leaves it as it is. *)
Lemma binary64_idempotent (q : Q) : binary64 (binary64 q) = binary64 q.
Proof.
  destruct (binary64_shape q) as [[z ->] | (m & t & Ht & Hm & ->)].
  - apply binary64_inject_Z.
  - now apply binary64_dyadic.
Qed.

Lemma Qabs_cases (x : Q) :
  (0 <= x /\ Qabs x == x)%Q \/ (x <= 0 /\ Qabs x == - x)%Q.
Proof.
  destruct (Qlt_le_dec x 0) as [H | H].
  - right. split; [now apply Qlt_le_weak |].
    now rewrite Qabs_neg by now apply Qlt_le_weak.
  - left. split; [assumption |]. now rewrite Qabs_pos.
Qed.

(** One binary64 addition: a running total [F] that is [c] away from the
    exact total [S] is, once [x] is added to both, away by [c] and the
    rounding of the sum. *)
Lemma add_drift (F S x c X Y G : Q) :
  (Qabs (F - S) <= c ->
   c <= Y ->
   Qabs (S + x) <= X ->
   (X + Y) * (1 # 2 ^ 53) + (1 # 2 ^ 1075) <= G ->
   Qabs (binary64 (F + x) - (S + x)) <= c + G)%Q.
Proof.
  intros He Hc HS HG.
  pose proof (binary64_error (F + x)) as E.
  revert E HG.
  generalize (binary64 (F + x)) as R. generalize (1 # 2 ^ 1075)%Q as eta.
  intros eta R E HG.
  change (1 # 2 ^ 53)%Q with (1 # 9007199254740992)%Q in *.
  destruct (Qabs_cases (F - S)) as [[? A1] | [? A1]];
  destruct (Qabs_cases (S + x)) as [[? A2] | [? A2]];
  destruct (Qabs_cases (F + x)) as [[? A3] | [? A3]];
  destruct (Qabs_cases (R - (F + x))) as [[? A4] | [? A4]];
  destruct (Qabs_cases (R - (S + x))) as [[? A5] | [? A5]];
  rewrite ?A1, ?A2, ?A3, ?A4, ?A5 in *; lra.
Qed.

(* ================================================================== *)
(** * Running programs *)
(* ================================================================== *)

Lemma run_bind {A B : Type} (p : prog A) (f : A -> prog B) (s : store) :
  run (bind p f) s = let (a, s') := run p s in run (f a) s'.
Proof.
  revert s. induction p as [a | X rq k IH]; intro s; simpl.
  - reflexivity.
  - destruct (serve rq s) as [x s']. apply IH.
Qed.

Lemma run_then {A B : Type} (p : prog A) (q : prog B) (s : store) :
  run (p ;;; q) s = run q (snd (run p s)).
Proof. rewrite run_bind. now destruct (run p s). Qed.

Ltac run_bind := cbv beta iota; rewrite run_bind.

Lemma take_outage_served (s : store) :
  served s -> take_outage s = (None, after_request s).
Proof. unfold served, take_outage, after_request. now intros ->. Qed.

Lemma store_request_served {A : Type} (s : store)
    (perform : store -> response A * store) :
  served s -> store_request s perform = perform (after_request s).
Proof. intro H. unfold store_request. now rewrite take_outage_served. Qed.

Lemma store_request_failed {A : Type} (s : store)
    (perform : store -> response A * store) (message : string) :
  hd None (outages s) = Some message ->
  store_request s perform = (Error message, after_request s).
Proof.
  intro H. unfold store_request, take_outage. rewrite H. reflexivity.
Qed.

(* ================================================================== *)
(** * The [products] table *)
(* ================================================================== *)

Arguments matches_all : simpl never.

Lemma matches_eq_id (i : id) (p : Product.t) :
  matches_all [eq_id i] p = Nat.eqb (Product.id p) i.
Proof. unfold matches_all. simpl. apply andb_true_r. Qed.

Lemma select_absent_id (i : id) (rows : list Product.t) :
  ~ In i (map Product.id rows) ->
  filter (matches_all [eq_id i]) rows = [].
Proof.
  induction rows as [| a rows IH]; simpl; intro H; [reflexivity |].
  rewrite matches_eq_id.
  destruct (Nat.eqb_spec (Product.id a) i) as [E | E].
  - exfalso. apply H. now left.
  - apply IH. intro. apply H. now right.
Qed.

(** Selecting by primary key finds the row, and only it. *)
Lemma select_by_id (p : Product.t) (rows : list Product.t) :
  unique_ids rows -> In p rows ->
  filter (matches_all [eq_id (Product.id p)]) rows = [p].
Proof.
  unfold unique_ids.
  induction rows as [| a rows IH]; simpl; intros U H; [contradiction |].
  inversion U as [| ? ? Ha Urows]; subst.
  rewrite matches_eq_id.
  destruct H as [-> | H].
  - rewrite Nat.eqb_refl. f_equal. now apply select_absent_id.
  - destruct (Nat.eqb_spec (Product.id a) (Product.id p)) as [E | E].
    + exfalso. apply Ha. rewrite E. now apply in_map.
    + now apply IH.
Qed.

Lemma stock_of_found (p : Product.t) (rows : list Product.t) :
  unique_ids rows -> In p rows ->
  stock_of (Product.id p) rows = Some (Product.stock_quantity p).
Proof.
  unfold unique_ids, stock_of.
  induction rows as [| a rows IH]; simpl; intros U H; [contradiction |].
  inversion U as [| ? ? Ha Urows]; subst.
  destruct H as [-> | H].
  - now rewrite Nat.eqb_refl.
  - destruct (Nat.eqb_spec (Product.id a) (Product.id p)) as [E | E].
    + exfalso. apply Ha. rewrite E. now apply in_map.
    + now apply IH.
Qed.

Lemma numeric_fields_stock (n : number) :
  numeric_fields (stock_patch n) = stock_patch (parseInt (Number n)).
Proof. reflexivity. Qed.

Lemma patch_product_stock (z : Z) (p : Product.t) :
  patch_product (stock_patch (of_Z z)) p = Some (with_stock z p).
Proof.
  unfold patch_product, stock_patch. simpl.
  rewrite to_int_of_Z. reflexivity.
Qed.

(** An update by primary key keeps the keys and leaves every other row as
    it was. *)
Lemma update_rows_frame (i : id) (u : ProductPatch.t)
    (rows table changed : list Product.t) :
  update_rows [eq_id i] u rows = Some (table, changed) ->
  map Product.id table = map Product.id rows
  /\ forall j, j <> i -> stock_of j table = stock_of j rows.
Proof.
  revert table changed.
  induction rows as [| a rows IH]; simpl; intros table changed H.
  - inversion H; subst. split; [reflexivity | intros; reflexivity].
  - destruct (update_rows [eq_id i] u rows) as [[t c] |]; [| discriminate].
    destruct (IH t c eq_refl) as [Hid Hst].
    rewrite matches_eq_id in H.
    destruct (Nat.eqb_spec (Product.id a) i) as [E | E].
    + destruct (patch_product u a) as [a' |] eqn:P; [| discriminate].
      inversion H; subst table changed. clear H.
      assert (Product.id a' = Product.id a) as Ea.
      { unfold patch_product in P.
        repeat match type of P with
               | match ?e with _ => _ end = _ => destruct e; try discriminate
               end.
        inversion P. reflexivity. }
      split.
      * simpl. now rewrite Ea, Hid.
      * intros j Hj. unfold stock_of in *. simpl. rewrite Ea.
        destruct (Nat.eqb_spec (Product.id a) j) as [E' | E'];
          [congruence |]. now apply Hst.
    + inversion H; subst table changed. clear H.
      split.
      * simpl. now rewrite Hid.
      * intros j Hj. unfold stock_of in *. simpl.
        destruct (Nat.eqb (Product.id a) j); [reflexivity |]. now apply Hst.
Qed.

(** Writing a stock count by primary key. *)
Lemma update_rows_stock (i : id) (z : Z) (rows : list Product.t) :
  exists changed,
    update_rows [eq_id i] (stock_patch (of_Z z)) rows
    = Some (map (fun p => if Nat.eqb (Product.id p) i
                          then with_stock z p else p) rows, changed).
Proof.
  induction rows as [| a rows [changed IH]]; simpl.
  - now exists [].
  - rewrite IH, matches_eq_id, patch_product_stock.
    destruct (Nat.eqb (Product.id a) i); eauto.
Qed.

Lemma stock_of_written (i : id) (z : Z) (rows : list Product.t) :
  In i (map Product.id rows) ->
  stock_of i (map (fun p => if Nat.eqb (Product.id p) i
                            then with_stock z p else p) rows) = Some z.
Proof.
  unfold stock_of.
  induction rows as [| a rows IH]; simpl; intro H; [contradiction |].
  destruct (Nat.eqb_spec (Product.id a) i) as [E | E].
  - simpl. rewrite E, Nat.eqb_refl. reflexivity.
  - simpl. destruct (Nat.eqb_spec (Product.id a) i); [contradiction |].
    apply IH. destruct H; [contradiction | assumption].
Qed.

(* ================================================================== *)
(** * What each method does to the store *)
(* ================================================================== *)

Lemma run_getProductById (i : id) (s : store) :
  run (getProductById i) s =
  match hd None (outages s) with
  | Some message => (Failure message, after_request s)
  | None =>
      (match single (Data (filter (matches_all [eq_id i]) (products s))) with
       | Error message => Failure message
       | Data data => Success data
       end, after_request s)
  end.
Proof.
  unfold getProductById, await. simpl.
  unfold store_request, take_outage, after_request.
  destruct (hd None (outages s)); simpl; [reflexivity |].
  destruct (filter (matches_all [eq_id i]) (products s)) as [| a [| b l]];
    reflexivity.
Qed.

Lemma run_getProductById_found (p : Product.t) (s : store) :
  served s -> unique_ids (products s) -> In p (products s) ->
  run (getProductById (Product.id p)) s = (Success p, after_request s).
Proof.
  intros Hs U H. rewrite run_getProductById, Hs.
  now rewrite select_by_id.
Qed.

Lemma run_updateProduct (i : id) (u : ProductPatch.t) (s : store) :
  run (updateProduct i u) s =
  match hd None (outages s) with
  | Some message => (Failure message, after_request s)
  | None =>
      match update_rows [eq_id i] (numeric_fields u) (products s) with
      | Some (table, changed) =>
          (Success (hd_error changed), with_products table (after_request s))
      | None => (Failure column_rejects, after_request s)
      end
  end.
Proof.
  unfold updateProduct, await. simpl.
  unfold store_request, take_outage, after_request.
  destruct (hd None (outages s)); simpl; [reflexivity |].
  destruct (update_rows [eq_id i] (numeric_fields u) (products s))
    as [[table changed] |]; reflexivity.
Qed.

Lemma run_createInventoryTransaction (td : TransactionData.t) (s : store) :
  run (createInventoryTransaction td) s =
  match auth s with
  | SessionError message => (Failure message, s)
  | NoSession => (Failure "User not authenticated", s)
  | Session user =>
      match hd None (outages s) with
      | Some message => (Failure message, after_request s)
      | None =>
          match insert_inventory_transaction (products s)
                  (NewInventoryTransaction.make
                     (TransactionData.product_id td) (TransactionData.type td)
                     (parseInt (Number (TransactionData.quantity td)))
                     user (TransactionData.notes td)) with
          | Some r =>
              (Success r,
               with_inventory_transactions (inventory_transactions s ++ [r])
                 (after_request s))
          | None => (Failure column_rejects, after_request s)
          end
      end
  end.
Proof.
  unfold createInventoryTransaction, await. simpl.
  destruct (auth s); try reflexivity. simpl.
  unfold store_request, take_outage, after_request.
  destruct (hd None (outages s)); simpl; [reflexivity |].
  match goal with
  | |- context [insert_inventory_transaction ?t ?r] =>
      destruct (insert_inventory_transaction t r)
  end; reflexivity.
Qed.

(** The ledger entry a call to [createInventoryTransaction] appends when
    the quantity is an integer. *)
Lemma insert_inventory_transaction_integer (rows : list Product.t)
    (i : id) (type : string) (z : Z) (user notes : string) :
  has_product i rows = true ->
  insert_inventory_transaction rows
    (NewInventoryTransaction.make i type (parseInt (Number (of_Z z)))
       user notes)
  = Some (InventoryTransaction.make i type z user notes).
Proof.
  unfold insert_inventory_transaction. simpl. intros ->.
  now rewrite parseInt_of_Z, to_int_of_Z.
Qed.

Lemma insert_inventory_transaction_product (rows : list Product.t)
    (row : NewInventoryTransaction.t) (r : InventoryTransaction.t) :
  insert_inventory_transaction rows row = Some r ->
  InventoryTransaction.product_id r = NewInventoryTransaction.product_id row.
Proof.
  unfold insert_inventory_transaction.
  destruct (has_product _ _); [| discriminate].
  destruct (to_int (NewInventoryTransaction.quantity row)); [| discriminate].
  intro H. inversion H. reflexivity.
Qed.

(** A product of the table is there to refer to, and stays there through
    an update. *)
Lemma has_product_In (i : id) (rows : list Product.t) :
  has_product i rows = true <-> In i (map Product.id rows).
Proof.
  unfold has_product. rewrite existsb_exists, in_map_iff.
  split; intros (p & A & B); exists p.
  - apply Nat.eqb_eq in B. auto.
  - split; [assumption | now apply Nat.eqb_eq].
Qed.

Lemma has_product_ids (i : id) (rows rows' : list Product.t) :
  map Product.id rows' = map Product.id rows ->
  has_product i rows' = has_product i rows.
Proof.
  intro E. apply eq_true_iff_eq. rewrite !has_product_In. now rewrite E.
Qed.

(** One turn of the stock loop of [createSale]. *)
Lemma run_updateStock (saleId : id) (user : string) (item : CartItem.t)
    (s : store) :
  run (updateStock saleId user item) s =
  let (product, s1) := run (getProductById (CartItem.id item)) s in
  match product with
  | Success data =>
      let (_, s2) :=
        run (updateProduct (CartItem.id item)
               (stock_patch (nsub (of_Z (Product.stock_quantity data))
                                  (CartItem.quantity item)))) s1 in
      let (_, s3) :=
        run (createInventoryTransaction
               (TransactionData.make (CartItem.id item) "sale"
                  (nneg (CartItem.quantity item))
                  ("Sale " ++ string_of_nat saleId)%string (Some user))) s2 in
      (tt, s3)
  | Failure _ => (tt, s1)
  end.
Proof.
  unfold updateStock. run_bind.
  destruct (run (getProductById (CartItem.id item)) s) as [[data | e] s1];
    [| reflexivity].
  cbv beta iota. run_bind. fold (stock_patch
    (nsub (of_Z (Product.stock_quantity data)) (CartItem.quantity item))).
  destruct (run (updateProduct _ _) s1) as [r2 s2].
  cbv beta iota. run_bind.
  destruct (run (createInventoryTransaction _) s2) as [r3 s3].
  reflexivity.
Qed.

Lemma run_updateStocks_cons (saleId : id) (user : string) (item : CartItem.t)
    (rest : list CartItem.t) (s : store) :
  run (updateStocks saleId user (item :: rest)) s =
  run (updateStocks saleId user rest)
    (snd (run (updateStock saleId user item) s)).
Proof.
  cbn [updateStocks]. run_bind.
  destruct (run (updateStock saleId user item) s). reflexivity.
Qed.

Lemma getProductById_store (i : id) (s : store) :
  snd (run (getProductById i) s) = after_request s.
Proof.
  rewrite run_getProductById. destruct (hd None (outages s)); reflexivity.
Qed.

Lemma updateProduct_store (i : id) (u : ProductPatch.t) (s : store) :
  exists table,
    snd (run (updateProduct i u) s) = with_products table (after_request s)
    /\ map Product.id table = map Product.id (products s)
    /\ forall j, j <> i -> stock_of j table = stock_of j (products s).
Proof.
  rewrite run_updateProduct.
  destruct (hd None (outages s)).
  - exists (products s). repeat split; reflexivity.
  - destruct (update_rows [eq_id i] (numeric_fields u) (products s))
      as [[table changed] |] eqn:E.
    + exists table. split; [reflexivity |].
      eapply update_rows_frame; eassumption.
    + exists (products s). repeat split; reflexivity.
Qed.

Lemma createInventoryTransaction_store (td : TransactionData.t) (s : store) :
  let s' := snd (run (createInventoryTransaction td) s) in
  products s' = products s /\ sales s' = sales s
  /\ sale_items s' = sale_items s /\ auth s' = auth s
  /\ (outages s = [] -> outages s' = [])
  /\ exists added,
       inventory_transactions s' = inventory_transactions s ++ added
       /\ forall j, j <> TransactionData.product_id td ->
                    entries_of j added = [].
Proof.
  rewrite run_createInventoryTransaction.
  assert (forall l : list InventoryTransaction.t, l = l ++ []) as nil_r
    by (intro; now rewrite app_nil_r).
  destruct (auth s) eqn:A; simpl; rewrite ?A;
    try (repeat split; auto; exists []; split; [apply nil_r | reflexivity]).
  destruct (hd None (outages s)) eqn:O; simpl; rewrite ?A.
  - repeat split; auto.
    + now intros ->.
    + exists []. split; [apply nil_r | reflexivity].
  - match goal with
    | |- context [insert_inventory_transaction ?t ?r] =>
        destruct (insert_inventory_transaction t r) as [e |] eqn:I
    end; simpl; rewrite ?A.
    + repeat split; auto.
      * now intros ->.
      * exists [e]. split; [reflexivity |].
        intros j Hj. unfold entries_of. simpl.
        apply insert_inventory_transaction_product in I. simpl in I.
        rewrite I.
        destruct (Nat.eqb_spec (TransactionData.product_id td) j);
          [congruence | reflexivity].
    + repeat split; auto.
      * now intros ->.
      * exists []. split; [apply nil_r | reflexivity].
Qed.

Lemma leaves_refl (pid : id) (s : store) : leaves pid s s.
Proof.
  repeat split; auto. exists []. split; [now rewrite app_nil_r | reflexivity].
Qed.

Lemma leaves_trans (pid : id) (s1 s2 s3 : store) :
  leaves pid s1 s2 -> leaves pid s2 s3 -> leaves pid s1 s3.
Proof.
  intros (A1 & B1 & C1 & D1 & E1 & F1 & l1 & G1 & H1)
         (A2 & B2 & C2 & D2 & E2 & F2 & l2 & G2 & H2).
  repeat split; try congruence; auto.
  exists (l1 ++ l2). split.
  - rewrite G2, G1. now rewrite app_assoc.
  - unfold entries_of in *. rewrite filter_app.
    now rewrite H1, H2.
Qed.

Lemma updateStock_leaves (saleId : id) (user : string) (item : CartItem.t)
    (pid : id) (s : store) :
  CartItem.id item <> pid ->
  leaves pid s (snd (run (updateStock saleId user item) s)).
Proof.
  intro Hne. rewrite run_updateStock.
  pose proof (getProductById_store (CartItem.id item) s) as H1.
  destruct (run (getProductById (CartItem.id item)) s) as [[data | e] s1];
    simpl in H1; subst s1.
  - match goal with
    | |- context [run (updateProduct ?i ?u) ?s0] =>
        destruct (updateProduct_store i u s0) as (table & H2 & Hid & Hst);
        destruct (run (updateProduct i u) s0) as [r2 s2]
    end.
    simpl in H2. subst s2.
    match goal with
    | |- context [run (createInventoryTransaction ?td) ?s0] =>
        pose proof (createInventoryTransaction_store td s0) as H3;
        destruct (run (createInventoryTransaction td) s0) as [r3 s3]
    end.
    simpl in H3.
    destruct H3 as (P & S & SI & A & O & added & L & E).
    simpl in *.
    split; [congruence |]. split; [congruence |]. split; [congruence |].
    split; [intro H; apply O; now rewrite H |].
    split; [congruence |].
    split; [rewrite P; apply (Hst pid); congruence |].
    exists added. split; [assumption |]. apply E. congruence.
  - unfold after_request. simpl.
    split; [reflexivity |]. split; [reflexivity |]. split; [reflexivity |].
    split; [now intros -> |]. split; [reflexivity |].
    split; [reflexivity |].
    exists []. split; [now rewrite app_nil_r | reflexivity].
Qed.

Lemma updateStocks_leaves (saleId : id) (user : string)
    (items : list CartItem.t) (pid : id) (s : store) :
  ~ In pid (map CartItem.id items) ->
  leaves pid s (snd (run (updateStocks saleId user items) s)).
Proof.
  revert s. induction items as [| item rest IH]; intros s H.
  - apply leaves_refl.
  - rewrite run_updateStocks_cons.
    apply leaves_trans with (s2 := snd (run (updateStock saleId user item) s)).
    + apply updateStock_leaves. intro E. apply H. simpl. now left.
    + apply IH. intro E. apply H. simpl. now right.
Qed.

Lemma run_updateStocks_app (saleId : id) (user : string)
    (l1 l2 : list CartItem.t) (s : store) :
  run (updateStocks saleId user (l1 ++ l2)) s =
  run (updateStocks saleId user l2)
    (snd (run (updateStocks saleId user l1) s)).
Proof.
  revert s. induction l1 as [| item l1 IH]; intro s.
  - reflexivity.
  - rewrite <- app_comm_cons, !run_updateStocks_cons. apply IH.
Qed.

(** The loop never touches sales or sale lines, whatever fails. *)
Lemma updateStock_sales (saleId : id) (user : string) (item : CartItem.t)
    (s : store) :
  let s' := snd (run (updateStock saleId user item) s) in
  sales s' = sales s /\ sale_items s' = sale_items s.
Proof.
  rewrite run_updateStock.
  pose proof (getProductById_store (CartItem.id item) s) as H1.
  destruct (run (getProductById (CartItem.id item)) s) as [[data | e] s1];
    simpl in H1; subst s1; [| split; reflexivity].
  match goal with
  | |- context [run (updateProduct ?i ?u) ?s0] =>
      destruct (updateProduct_store i u s0) as (table & H2 & _);
      destruct (run (updateProduct i u) s0) as [r2 s2]
  end.
  simpl in H2. subst s2.
  match goal with
  | |- context [run (createInventoryTransaction ?td) ?s0] =>
      pose proof (createInventoryTransaction_store td s0) as H3;
      destruct (run (createInventoryTransaction td) s0) as [r3 s3]
  end.
  simpl in H3. destruct H3 as (_ & S & SI & _). simpl. now split.
Qed.

Lemma updateStocks_sales (saleId : id) (user : string)
    (items : list CartItem.t) (s : store) :
  let s' := snd (run (updateStocks saleId user items) s) in
  sales s' = sales s /\ sale_items s' = sale_items s.
Proof.
  revert s. induction items as [| item rest IH]; intro s.
  - split; reflexivity.
  - rewrite run_updateStocks_cons.
    destruct (IH (snd (run (updateStock saleId user item) s))) as [A B].
    destruct (updateStock_sales saleId user item s) as [C D].
    simpl in *. split; congruence.
Qed.

Lemma quiet_served (s : store) : outages s = [] -> served s.
Proof. unfold served. now intros ->. Qed.

Lemma quiet_after_request (s : store) :
  outages s = [] -> outages (after_request s) = [].
Proof. unfold after_request. simpl. now intros ->. Qed.

(** The turn of the loop that sells [q] units of a product in stock. *)
Lemma run_updateStock_sells (saleId : id) (user : string) (item : CartItem.t)
    (p : Product.t) (q : Z) (s : store) :
  outages s = [] -> auth s = Session user ->
  unique_ids (products s) -> In p (products s) ->
  Product.id p = CartItem.id item ->
  CartItem.quantity item = of_Z q ->
  run (updateStock saleId user item) s =
  (tt,
   with_inventory_transactions
     (inventory_transactions s ++ [sale_entry saleId user (Product.id p) q])
     (after_request
        (with_products
           (map (fun a => if Nat.eqb (Product.id a) (Product.id p)
                          then with_stock (Product.stock_quantity p - q) a
                          else a) (products s))
           (after_request (after_request s))))).
Proof.
  intros O A U H Hid Hq.
  pose proof (quiet_after_request s O) as O1.
  pose proof (quiet_after_request _ O1) as O2.
  rewrite run_updateStock, <- Hid, Hq.
  rewrite run_getProductById_found; auto using quiet_served.
  rewrite run_updateProduct, numeric_fields_stock, nsub_of_Z, parseInt_of_Z.
  rewrite O1. cbn [hd].
  destruct (update_rows_stock (Product.id p)
              (Product.stock_quantity p - q) (products (after_request s)))
    as [changed E].
  rewrite E. cbv beta iota.
  rewrite run_createInventoryTransaction.
  simpl. rewrite A, O. simpl.
  rewrite nneg_of_Z, insert_inventory_transaction_integer; [reflexivity |].
  apply has_product_In. rewrite map_map. apply in_map_iff.
  exists p. split; [| assumption]. now rewrite Nat.eqb_refl.
Qed.

(** [createSale], step by step. *)
Lemma run_createSale (saleData : SaleData.t) (s : store) :
  run (createSale saleData) s =
  match auth s with
  | SessionError message => (Failure message, s)
  | NoSession => (Failure "User not authenticated", s)
  | Session user =>
      match hd None (outages s) with
      | Some message => (Failure message, after_request s)
      | None =>
          match insert_sale (next_id s)
                  (NewSale.make user
                     (parseFloat (Number (SaleData.total saleData)))
                     (SaleData.payment_method saleData)) with
          | None => (Failure column_rejects, after_request s)
          | Some sale =>
              let s1 :=
                with_next_id (S (next_id s))
                  (with_sales (sales s ++ [sale]) (after_request s)) in
              let saleItems :=
                map (saleItem (Sale.id sale)) (SaleData.items saleData) in
              match hd None (outages s1) with
              | Some message => (Failure message, after_request s1)
              | None =>
                  match insert_sale_items (sales s1) (products s1) saleItems
                  with
                  | None => (Failure column_rejects, after_request s1)
                  | Some rows =>
                      (Success (SaleResult.make sale saleItems (Sale.id sale)),
                       snd (run (updateStocks (Sale.id sale) user
                                   (SaleData.items saleData))
                              (with_sale_items (sale_items s1 ++ rows)
                                 (after_request s1))))
                  end
              end
          end
      end
  end.
Proof.
  unfold createSale, await, after_request. cbn [bind run serve].
  destruct (auth s) as [m | | user]; try reflexivity.
  cbn [bind run serve]. unfold store_request, take_outage.
  destruct (outages s) as [| [m |] rest]; simpl; try reflexivity;
    (destruct (insert_sale (next_id s) _) as [sale |]; [| reflexivity]);
    simpl; [| destruct rest as [| [m |] rest]]; simpl; try reflexivity;
    unfold store_request, take_outage; simpl;
    (match goal with
     | |- context [insert_sale_items ?a ?b ?r] =>
         destruct (insert_sale_items a b r) as [rows |]; [| reflexivity]
     end);
    run_bind;
    (match goal with
     | |- context [run (updateStocks ?a ?b ?c) ?s2] =>
         destruct (run (updateStocks a b c) s2) as [[] s3]
     end);
    reflexivity.
Qed.

Lemma stock_of_Some (i : id) (z : Z) (rows : list Product.t) :
  stock_of i rows = Some z ->
  exists p, In p rows /\ Product.id p = i /\ Product.stock_quantity p = z.
Proof.
  unfold stock_of. intro H.
  destruct (find (fun p => Nat.eqb (Product.id p) i) rows) as [p |] eqn:F;
    [| discriminate].
  apply find_some in F. destruct F as [Hin Hid].
  exists p. repeat split; auto.
  - now apply Nat.eqb_eq.
  - simpl in H. congruence.
Qed.

Lemma insert_sale_row (i : id) (row : NewSale.t) (sale : Sale.t) :
  insert_sale i row = Some sale ->
  Sale.id sale = i
  /\ Sale.cashier_id sale = NewSale.cashier_id row
  /\ Num (Sale.total sale) = NewSale.total row
  /\ Sale.payment_method sale = NewSale.payment_method row.
Proof.
  unfold insert_sale, mandatory_number.
  destruct (NewSale.total row) as [| t]; [discriminate |].
  intro H. inversion H. simpl. auto.
Qed.

Lemma entries_of_app (i : id) (l1 l2 : list InventoryTransaction.t) :
  entries_of i (l1 ++ l2) = entries_of i l1 ++ entries_of i l2.
Proof. apply filter_app. Qed.

(** What a successful [createSale] went through. *)
Lemma createSale_success (saleData : SaleData.t) (s s' : store)
    (r : SaleResult.t) :
  run (createSale saleData) s = (Success r, s') ->
  exists user sale rows,
    auth s = Session user
    /\ hd None (outages s) = None
    /\ hd None (tl (outages s)) = None
    /\ insert_sale (next_id s)
         (NewSale.make user (parseFloat (Number (SaleData.total saleData)))
            (SaleData.payment_method saleData)) = Some sale
    /\ insert_sale_items (sales s ++ [sale]) (products s)
         (map (saleItem (Sale.id sale)) (SaleData.items saleData)) = Some rows
    /\ r = SaleResult.make sale
             (map (saleItem (Sale.id sale)) (SaleData.items saleData))
             (Sale.id sale)
    /\ s' = snd (run (updateStocks (Sale.id sale) user
                        (SaleData.items saleData))
                   (with_sale_items (sale_items s ++ rows)
                      (after_request
                         (with_next_id (S (next_id s))
                            (with_sales (sales s ++ [sale])
                               (after_request s)))))).
Proof.
  rewrite run_createSale.
  destruct (auth s) as [m | | user]; try discriminate.
  destruct (hd None (outages s)) as [m |] eqn:O1; [discriminate |].
  destruct (insert_sale (next_id s) _) as [sale |] eqn:I1; [| discriminate].
  cbv zeta. simpl outages.
  destruct (hd None (tl (outages s))) as [m |] eqn:O2; [discriminate |].
  destruct (insert_sale_items _ _ _) as [rows |] eqn:I2; [| discriminate].
  intro H. inversion H. subst.
  exists user, sale, rows. repeat split; auto.
Qed.

(* ================================================================== *)
(** * Sales: stock and ledger *)
(* ================================================================== *)

(** C1, for the sales during which the store fails no request.  When
    [createSale] returns success and the store fails none of its requests,
    then for a product that the cart holds once, in quantity [q], and that
    had stock [oldStock]: the stored stock is [oldStock - q] afterwards,
    and the call has appended exactly one ledger entry for that product,
    of type ["sale"], with quantity [-q], by the cashier, with the note
    [Sale <id of the sale>]. *)
Theorem createSale_stock_and_ledger
    (s s' : store) (saleData : SaleData.t) (r : SaleResult.t)
    (before after : list CartItem.t) (item : CartItem.t)
    (p : Product.t) (q : Z) :
  run (createSale saleData) s = (Success r, s') ->
  outages s = [] ->
  unique_ids (products s) ->
  In p (products s) ->
  Product.id p = CartItem.id item ->
  SaleData.items saleData = before ++ item :: after ->
  ~ In (CartItem.id item) (map CartItem.id (before ++ after)) ->
  CartItem.quantity item = of_Z q ->
  stock_of (Product.id p) (products s')
  = Some (Product.stock_quantity p - q)
  /\ exists added,
       inventory_transactions s' = inventory_transactions s ++ added
       /\ entries_of (Product.id p) added
          = [InventoryTransaction.make (Product.id p) "sale" (- q)
               (Sale.cashier_id (SaleResult.sale r))
               ("Sale " ++ string_of_nat (SaleResult.saleId r))%string].
Proof.
  intros Hrun O U Hin Hid Hitems Honce Hq.
  destruct (createSale_success _ _ _ _ Hrun)
    as (user & sale & rows & A & _ & _ & I1 & _ & Hr & Hs').
  apply insert_sale_row in I1. destruct I1 as (_ & Hcashier & _).
  simpl in Hcashier. subst r. simpl.
  set (s2 := with_sale_items _ _) in Hs'.
  assert (outages s2 = []) as O2 by (subst s2; simpl; now rewrite O).
  assert (auth s2 = Session user) as A2 by (subst s2; simpl; assumption).
  assert (products s2 = products s) as P2 by reflexivity.
  assert (inventory_transactions s2 = inventory_transactions s) as L2
    by reflexivity.
  clearbody s2.
  rewrite Hitems, run_updateStocks_app, run_updateStocks_cons in Hs'.
  set (sA := snd (run (updateStocks (Sale.id sale) user before) s2)) in Hs'.
  assert (leaves (Product.id p) s2 sA) as LA.
  { apply updateStocks_leaves. rewrite Hid. intro H. apply Honce.
    rewrite map_app. apply in_or_app. now left. }
  destruct LA as (_ & _ & AA & OA & IA & SA & addedA & LedA & EA).
  rewrite P2 in IA, SA.
  rewrite (stock_of_found p (products s) U Hin) in SA.
  apply stock_of_Some in SA. destruct SA as (pA & HinA & HidA & HstA).
  assert (unique_ids (products sA)) as UA
    by (unfold unique_ids; now rewrite IA).
  rewrite (run_updateStock_sells (Sale.id sale) user item pA q sA) in Hs';
    auto; try congruence.
  set (sB := with_inventory_transactions _ _) in Hs'.
  assert (leaves (Product.id p) sB s') as LB.
  { rewrite Hs'. apply updateStocks_leaves. rewrite Hid. intro H.
    apply Honce. rewrite map_app. apply in_or_app. now right. }
  destruct LB as (_ & _ & _ & _ & _ & SB & addedB & LedB & EB).
  split.
  - rewrite SB. subst sB. simpl. rewrite HidA, HstA.
    apply stock_of_written. rewrite IA. now apply in_map.
  - exists (addedA ++ [sale_entry (Sale.id sale) user (Product.id pA) q]
            ++ addedB).
    split.
    + rewrite LedB. subst sB. simpl. rewrite LedA, L2.
      now rewrite <- !app_assoc.
    + rewrite !entries_of_app, EA, EB, HidA, Hcashier.
      unfold entries_of, sale_entry. simpl. now rewrite Nat.eqb_refl.
Qed.

(* ================================================================== *)
(** * Sales: totals *)
(* ================================================================== *)

Lemma to_int_parseInt (v : value) (z : Z) :
  to_int (parseInt v) = Some z -> parseInt v = of_Z z.
Proof.
  destruct (parseInt_integer v) as [E | [z' E]]; rewrite E.
  - discriminate.
  - rewrite to_int_of_Z. congruence.
Qed.

Lemma mandatory_number_Some (n : number) (q : Q) :
  mandatory_number n = Some q -> n = Num q.
Proof. destruct n; simpl; congruence. Qed.

Lemma insert_sale_item_line (sale_rows : list Sale.t)
    (product_rows : list Product.t) (saleId : id) (item : CartItem.t)
    (line : SaleItem.t) :
  insert_sale_item sale_rows product_rows (saleItem saleId item) = Some line ->
  line_of item line.
Proof.
  unfold insert_sale_item, saleItem. simpl.
  destruct (has_sale _ _ && has_product _ _)%bool; [| discriminate].
  destruct (to_int (parseInt (Number (CartItem.quantity item))))
    as [z |] eqn:Q; [| discriminate].
  destruct (mandatory_number (parseFloat (Number (CartItem.price item))))
    as [u |] eqn:U; [| discriminate].
  destruct (mandatory_number (nmul _ _)) as [t |] eqn:T; [| discriminate].
  intro H. inversion H. clear H.
  apply to_int_parseInt in Q.
  apply mandatory_number_Some in U, T.
  unfold line_of. simpl.
  change (parseFloat (Number (CartItem.price item)))
    with (CartItem.price item) in U, T.
  repeat split; congruence.
Qed.

Lemma insert_sale_items_lines (sale_rows : list Sale.t)
    (product_rows : list Product.t) (saleId : id) (items : list CartItem.t)
    (lines : list SaleItem.t) :
  insert_sale_items sale_rows product_rows (map (saleItem saleId) items)
  = Some lines ->
  Forall2 line_of items lines.
Proof.
  revert lines. induction items as [| item rest IH]; simpl; intros lines H.
  - inversion H. constructor.
  - destruct (insert_sale_item _ _ (saleItem saleId item)) as [line |] eqn:L;
      [| discriminate].
    destruct (insert_sale_items _ _ (map (saleItem saleId) rest)) as [ls |];
      [| discriminate].
    inversion H. subst lines.
    constructor; [eapply insert_sale_item_line; eassumption | now apply IH].
Qed.

(** The total [processPayment] computes is the sum of the stored line
    totals, when the cart holds whole quantities. *)
Lemma sum_of_cart (cart : list CartItem.t) (lines : list SaleItem.t)
    (start : number) :
  Forall2 line_of cart lines ->
  Forall (fun item => is_integer (CartItem.quantity item)) cart ->
  fold_left (fun sum item =>
               nadd sum (nmul (CartItem.price item) (CartItem.quantity item)))
    cart start
  = fold_left (fun sum line => nadd sum (Num (SaleItem.total line)))
      lines start.
Proof.
  intro H. revert start.
  induction H as [| item line cart lines (U & Q & T) _ IH];
    intros start W; simpl.
  - reflexivity.
  - inversion W as [| ? ? [z Hz] W']; subst.
    rewrite Hz, parseInt_of_Z in Q.
    rewrite T, U, Q, Hz. now apply IH.
Qed.

(** The total of a stored line is a binary64 value within rounding of its
    unit price times its quantity. *)
Lemma line_of_rounded (item : CartItem.t) (line : SaleItem.t) :
  line_of item line -> rounded_product line.
Proof.
  intros (_ & _ & T).
  unfold nmul, of_Z in T. rewrite binary64_inject_Z in T.
  injection T as T. unfold rounded_product, is_binary64, rounding.
  rewrite T. split; [apply binary64_idempotent | apply binary64_error].
Qed.

Lemma lines_rounded (cart : list CartItem.t) (lines : list SaleItem.t) :
  Forall2 line_of cart lines -> Forall rounded_product lines.
Proof.
  induction 1 as [| item line cart lines H _ IH]; constructor;
    [eapply line_of_rounded; eassumption | assumption].
Qed.

(** The sum [reduce] computes, one binary64 addition after the other. *)
Lemma sum_of_lines_from (lines : list SaleItem.t) (start : Q) :
  fold_left (fun sum line => nadd sum (Num (SaleItem.total line)))
    lines (Num start)
  = Num (fold_left
           (fun sum line =>
              binary64 (binary64 sum + binary64 (SaleItem.total line))%Q)
           lines start).
Proof.
  revert start. induction lines as [| line lines IH]; intro start; simpl.
  - reflexivity.
  - unfold nadd at 2. apply IH.
Qed.

Lemma inject_Z_succ (k : nat) :
  (inject_Z (Z.of_nat (S k)) == inject_Z (Z.of_nat k) + 1)%Q.
Proof.
  rewrite Nat2Z.inj_succ. unfold Z.succ. rewrite inject_Z_plus. reflexivity.
Qed.

(** Each addition adds the rounding of one sum to what the running total
    is away from the exact one. *)
Lemma sum_drift (A G : Q) (n : nat) :
  (0 <= A)%Q -> (0 <= G)%Q ->
  ((inject_Z (Z.of_nat n) * A + inject_Z (Z.of_nat n) * G) * (1 # 2 ^ 53)
   + (1 # 2 ^ 1075) <= G)%Q ->
  forall (lines : list SaleItem.t) (k : nat) (F T : Q),
    (k + List.length lines <= n)%nat ->
    Forall (fun line => is_binary64 (SaleItem.total line)) lines ->
    Forall (fun line => (Qabs (SaleItem.total line) <= A)%Q) lines ->
    is_binary64 F ->
    (Qabs (F - T) <= inject_Z (Z.of_nat k) * G)%Q ->
    (Qabs T <= inject_Z (Z.of_nat k) * A)%Q ->
    (Qabs (fold_left
             (fun sum line =>
                binary64 (binary64 sum + binary64 (SaleItem.total line)))
             lines F
           - fold_left (fun sum line => sum + SaleItem.total line) lines T)
     <= inject_Z (Z.of_nat (k + List.length lines)) * G)%Q.
Proof.
  intros HA HG Hstep.
  induction lines as [| line lines IH]; intros k F T Hk Hb Hm HF He HS.
  - simpl. now rewrite Nat.add_0_r.
  - inversion Hb as [| ? ? Hb1 Hb2]. inversion Hm as [| ? ? Hm1 Hm2]. subst.
    simpl List.length in *. simpl fold_left.
    rewrite Hb1, HF.
    assert (inject_Z (Z.of_nat (S k)) <= inject_Z (Z.of_nat n))%Q as Kn
      by (rewrite <- Zle_Qle; lia).
    assert (inject_Z (Z.of_nat k) <= inject_Z (Z.of_nat n))%Q as Kn'
      by (rewrite <- Zle_Qle; lia).
    assert (0 <= inject_Z (Z.of_nat k))%Q as K0
      by (change 0%Q with (inject_Z 0); rewrite <- Zle_Qle; lia).
    pose proof (inject_Z_succ k) as Sk.
    assert (Qabs (T + SaleItem.total line)
            <= inject_Z (Z.of_nat (S k)) * A)%Q as HS'.
    { eapply Qle_trans; [apply Qabs_triangle |].
      rewrite Sk. lra. }
    replace (k + S (List.length lines))%nat
      with (S k + List.length lines)%nat by lia.
    apply IH; try assumption.
    + lia.
    + apply binary64_idempotent.
    + eapply Qle_trans.
      * apply add_drift with (c := (inject_Z (Z.of_nat k) * G)%Q)
                             (X := (inject_Z (Z.of_nat n) * A)%Q)
                             (Y := (inject_Z (Z.of_nat n) * G)%Q)
                             (G := G).
        -- exact He.
        -- now apply Qmult_le_compat_r.
        -- eapply Qle_trans; [exact HS' |]. now apply Qmult_le_compat_r.
        -- exact Hstep.
      * rewrite Sk. lra.
Qed.

(** The sum of the stored line totals, as [reduce] computes it, is within
    [drift] of their exact sum. *)
Lemma sum_of_lines_drift (lines : list SaleItem.t) (A : Q) :
  Forall (fun line => is_binary64 (SaleItem.total line)) lines ->
  Forall (fun line => (Qabs (SaleItem.total line) <= A)%Q) lines ->
  Z.of_nat (List.length lines) <= 2 ^ 52 ->
  exists total,
    sum_of_lines lines = Num total
    /\ is_binary64 total
    /\ (Qabs (total - exact_sum lines)
        <= drift (Z.of_nat (List.length lines)) A)%Q.
Proof.
  intros Hb Hm Hn.
  unfold sum_of_lines, of_Z. rewrite sum_of_lines_from.
  eexists. split; [reflexivity |]. split.
  { destruct lines as [| line lines] using rev_ind.
    - apply binary64_inject_Z.
    - rewrite fold_left_app. simpl. apply binary64_idempotent. }
  assert (lines = [] \/ (0 <= A)%Q) as [-> | HA].
  { destruct Hm as [| line lines Hl _]; [now left | right].
    eapply Qle_trans; [apply Qabs_nonneg | exact Hl]. }
  { unfold drift, exact_sum. simpl. rewrite Qmult_0_l. discriminate. }
  set (n := List.length lines) in *.
  set (G := (inject_Z (Z.of_nat n) * A * (1 # 2 ^ 52) + (1 # 2 ^ 1074))%Q).
  assert (0 <= inject_Z (Z.of_nat n))%Q as N0
    by (change 0%Q with (inject_Z 0); rewrite <- Zle_Qle; lia).
  assert (inject_Z (Z.of_nat n) <= inject_Z (2 ^ 52))%Q as N1
    by (rewrite <- Zle_Qle; exact Hn).
  assert (0 <= inject_Z (Z.of_nat n) * A)%Q as NA
    by (apply Qmult_le_0_compat; assumption).
  assert (0 <= G)%Q as HG.
  { unfold G. assert (0 <= 1 # 2 ^ 1074)%Q by discriminate.
    revert H. generalize (1 # 2 ^ 1074)%Q. intros. 
    change (1 # 2 ^ 52)%Q with (1 # 4503599627370496)%Q. lra. }
  pose proof (sum_drift A G n HA HG) as D.
  unfold drift. fold G.
  change (Z.of_nat n) with (Z.of_nat (0 + n)) at 1.
  apply D.
  - assert (inject_Z (Z.of_nat n) * G <= inject_Z (2 ^ 52) * G)%Q as NG
      by now apply Qmult_le_compat_r.
    assert ((1 # 2 ^ 1074) == 2 * (1 # 2 ^ 1075))%Q as E by reflexivity.
    unfold G in *. revert NG E HG.
    generalize (1 # 2 ^ 1074)%Q (1 # 2 ^ 1075)%Q. intros e1 e2 NG E HG.
    change (inject_Z (2 ^ 52)) with (4503599627370496 # 1)%Q in *.
    change (1 # 2 ^ 52)%Q with (1 # 4503599627370496)%Q in *.
    change (1 # 2 ^ 53)%Q with (1 # 9007199254740992)%Q in *.
    lra.
  - unfold n. simpl. lia.
  - assumption.
  - assumption.
  - apply binary64_inject_Z.
  - simpl. setoid_replace (0 - 0)%Q with 0%Q by ring. simpl.
    rewrite Qmult_0_l. discriminate.
  - simpl. rewrite Qmult_0_l. discriminate.
Qed.

(** C2: the totals of a sale.  For every successful [createSale]: the
    sale lines it stores carry the unit price of their cart entry and a
    total that [createSale] computes itself, the binary64 product of the
    unit price and the quantity, which is within the rounding of one
    multiplication of the exact product; the total of the stored sale
    record is the total the caller passed in [saleData.total], whatever
    the lines add up to; when the caller computed it as [processPayment]
    does, over a cart of whole quantities, it is the sum of the stored
    line totals as [reduce] adds them up, in binary64, and that sum is
    within [drift] of their exact sum. *)
Theorem createSale_totals (s s' : store) (saleData : SaleData.t)
    (r : SaleResult.t) :
  run (createSale saleData) s = (Success r, s') ->
  sales s' = sales s ++ [SaleResult.sale r]
  /\ Num (Sale.total (SaleResult.sale r)) = SaleData.total saleData
  /\ exists lines,
       sale_items s' = sale_items s ++ lines
       /\ Forall2 line_of (SaleData.items saleData) lines
       /\ Forall rounded_product lines
       /\ forall cart paymentMethod,
            saleData = processPayment_saleData cart paymentMethod ->
            Forall (fun item => is_integer (CartItem.quantity item)) cart ->
            Num (Sale.total (SaleResult.sale r)) = sum_of_lines lines
            /\ forall A,
                 Forall (fun line => (Qabs (SaleItem.total line) <= A)%Q)
                   lines ->
                 Z.of_nat (List.length lines) <= 2 ^ 52 ->
                 (Qabs (Sale.total (SaleResult.sale r) - exact_sum lines)
                  <= drift (Z.of_nat (List.length lines)) A)%Q.
Proof.
  intro Hrun.
  destruct (createSale_success _ _ _ _ Hrun)
    as (user & sale & rows & _ & _ & _ & I1 & I2 & Hr & Hs').
  apply insert_sale_row in I1. destruct I1 as (_ & _ & Htotal & _).
  simpl in Htotal.
  change (parseFloat (Number (SaleData.total saleData)))
    with (SaleData.total saleData) in Htotal.
  pose proof (insert_sale_items_lines _ _ _ _ _ I2) as Hlines.
  match type of Hs' with
  | _ = snd (run (updateStocks ?a ?b ?c) ?s2) =>
      destruct (updateStocks_sales a b c s2) as [S SI]
  end.
  rewrite <- Hs' in S, SI. simpl in S, SI.
  subst r. simpl.
  split; [assumption |]. split; [assumption |].
  exists rows. split; [assumption |]. split; [assumption |].
  pose proof (lines_rounded _ _ Hlines) as Hrounded.
  split; [assumption |].
  intros cart paymentMethod -> W.
  assert (Num (Sale.total sale) = sum_of_lines rows) as Hsum.
  { rewrite Htotal. simpl. unfold sum_of_lines. now apply sum_of_cart. }
  split; [exact Hsum |].
  intros A Hm Hn.
  assert (Forall (fun line => is_binary64 (SaleItem.total line)) rows) as Hb.
  { eapply Forall_impl; [| exact Hrounded]. now intros line [B _]. }
  destruct (sum_of_lines_drift rows A Hb Hm Hn) as (total & E & _ & D).
  rewrite E in Hsum. injection Hsum as ->. exact D.
Qed.

(* ================================================================== *)
(** * Sales: the empty cart *)
(* ================================================================== *)

(** C4: the empty cart.  [createSale] does not look at whether the cart is
    empty.  With an empty cart it writes no sale line, no stock and no
    ledger entry; and when there is a session, the total is a number and
    the store fails neither insert, it stores a sale record with the
    caller's total and returns success. *)
Theorem createSale_empty_cart (s : store) (saleData : SaleData.t) :
  SaleData.items saleData = [] ->
  let res := fst (run (createSale saleData) s) in
  let s' := snd (run (createSale saleData) s) in
  products s' = products s
  /\ sale_items s' = sale_items s
  /\ inventory_transactions s' = inventory_transactions s
  /\ forall user total,
       auth s = Session user ->
       hd None (outages s) = None ->
       hd None (tl (outages s)) = None ->
       SaleData.total saleData = Num total ->
       let sale :=
         Sale.make (next_id s) user total (SaleData.payment_method saleData) in
       res = Success (SaleResult.make sale [] (next_id s))
       /\ sales s' = sales s ++ [sale].
Proof.
  intros Hitems res s'. subst res s'.
  rewrite run_createSale, Hitems.
  destruct (auth s) as [m | | user] eqn:A; simpl;
    try (repeat split; auto; discriminate).
  destruct (hd None (outages s)) as [m |] eqn:O1; simpl;
    [repeat split; auto; discriminate |].
  unfold insert_sale, mandatory_number.
  change (parseFloat (Number (SaleData.total saleData)))
    with (SaleData.total saleData).
  destruct (SaleData.total saleData) as [| t] eqn:T; simpl;
    [repeat split; auto; discriminate |].
  destruct (hd None (tl (outages s))) as [m |] eqn:O2; simpl;
    [repeat split; auto; discriminate |].
  rewrite app_nil_r.
  split; [reflexivity |]. split; [reflexivity |]. split; [reflexivity |].
  intros user' total' A' _ _ T'. inversion A'. inversion T'. subst.
  split; reflexivity.
Qed.

(* ================================================================== *)
(** * Restocking *)
(* ================================================================== *)

(** C9.  Once [restockProduct] has read the product, it returns
    [success: true] with [newStock = currentStock + quantity], whatever
    becomes of the stock update and of the ledger append: when the store
    fails the update the stock is left as it was, and when there is no
    session nothing is appended to the ledger, and the answer is the
    same. *)
Theorem restockProduct_reports_success
    (s : store) (p : Product.t) (quantity : value) (z : Z) (notes : string) :
  served s ->
  unique_ids (products s) ->
  In p (products s) ->
  parseInt quantity = of_Z z ->
  let s' := snd (run (restockProduct (Product.id p) quantity notes) s) in
  fst (run (restockProduct (Product.id p) quantity notes) s)
  = Success (of_Z (Product.stock_quantity p + z))
  /\ (forall message, hd None (tl (outages s)) = Some message ->
        products s' = products s)
  /\ (auth s = NoSession ->
        inventory_transactions s' = inventory_transactions s).
Proof.
  intros Hs U Hin Hq s'. subst s'.
  unfold restockProduct. run_bind.
  rewrite run_getProductById_found by assumption.
  run_bind. rewrite Hq, nadd_of_Z.
  fold (stock_patch (of_Z (Product.stock_quantity p + z))).
  match goal with
  | |- context [run (updateProduct ?i ?u) ?s0] =>
      pose proof (run_updateProduct i u s0) as H2;
      destruct (run (updateProduct i u) s0) as [r2 s2]
  end.
  run_bind.
  match goal with
  | |- context [run (createInventoryTransaction ?td) ?s0] =>
      pose proof (createInventoryTransaction_store td s0) as H3;
      pose proof (run_createInventoryTransaction td s0) as H4;
      destruct (run (createInventoryTransaction td) s0) as [r3 s3]
  end.
  simpl in H3. destruct H3 as (P & _ & _ & A & _).
  simpl. split; [reflexivity |]. split.
  - intros message O. rewrite P.
    simpl in H2. rewrite O in H2. inversion H2. reflexivity.
  - intro N.
    assert (auth s2 = NoSession) as N2.
    { simpl in H2. destruct (hd None (tl (outages s)));
        [| destruct (update_rows _ _ _) as [[t c] |]];
        inversion H2; assumption. }
    rewrite N2 in H4. inversion H4. subst s3.
    simpl in H2. destruct (hd None (tl (outages s)));
      [| destruct (update_rows _ _ _) as [[t c] |]];
      inversion H2; reflexivity.
Qed.

(* ================================================================== *)
(** * Creating a product *)
(* ================================================================== *)

Lemma or_zero_of_Z (z : Z) : or_zero (of_Z z) = of_Z z.
Proof.
  unfold or_zero, truthy, of_Z. rewrite binary64_inject_Z.
  destruct (Qeq_bool (inject_Z z) 0) eqn:E; simpl; [| reflexivity].
  apply Qeq_bool_eq in E. unfold Qeq, inject_Z in E. simpl in E.
  f_equal. f_equal. lia.
Qed.

Lemma run_createProduct (productData : ProductData.t) (s : store)
    (price : Q) (stock : Z) :
  served s ->
  parseFloat (ProductData.price productData) = Num price ->
  or_zero (parseInt (ProductData.stock_quantity productData)) = of_Z stock ->
  let p :=
    Product.make (next_id s) (ProductData.name productData)
      (ProductData.category productData) price
      (nullable_number
         (if truthy (ProductData.cost_price productData)
          then Some (parseFloat (ProductData.cost_price productData))
          else None))
      stock (ProductData.size productData) (ProductData.barcode productData)
      (match ProductData.is_on_sale productData with
       | Some b => b
       | None => false
       end)
      (nullable_number
         (if truthy (ProductData.sale_price productData)
          then Some (parseFloat (ProductData.sale_price productData))
          else None))
      true in
  let s1 :=
    with_next_id (S (next_id s))
      (with_products (products s ++ [p]) (after_request s)) in
  run (createProduct productData) s =
  if ngt0 (parseInt (ProductData.stock_quantity productData)) then
    (Success p,
     snd (run (createInventoryTransaction
                 (TransactionData.make (next_id s) "restock"
                    (parseInt (ProductData.stock_quantity productData))
                    "Initial stock" None)) s1))
  else (Success p, s1).
Proof.
  intros Hs Hprice Hstock p s1.
  unfold createProduct, await. cbn [bind run serve].
  rewrite store_request_served by assumption.
  unfold insert_product. cbn [NewProduct.price NewProduct.stock_quantity].
  rewrite Hprice, Hstock, to_int_of_Z.
  cbn [mandatory_number next_id after_request with_outages].
  cbv beta iota. rewrite run_then.
  destruct (ngt0 (parseInt (ProductData.stock_quantity productData))).
  - rewrite run_then. reflexivity.
  - reflexivity.
Qed.

(** C7.  When the store accepts the new product, [createProduct] returns
    success with it, and the product is in the table, whatever becomes of
    the ledger entry.  With an initial stock above zero, the entry it then
    appends is one entry of type ["restock"] for that product, with the
    initial stock as quantity and the note ["Initial stock"]; the ledger
    gets it when there is a session and the store does not fail the
    append, and is left as it was otherwise.  With no initial stock, or
    zero, the ledger is left as it was. *)
Theorem createProduct_initial_stock
    (s : store) (productData : ProductData.t) (price : Q) :
  served s ->
  parseFloat (ProductData.price productData) = Num price ->
  let n := parseInt (ProductData.stock_quantity productData) in
  exists p s',
    run (createProduct productData) s = (Success p, s')
    /\ products s' = products s ++ [p]
    /\ of_Z (Product.stock_quantity p) = or_zero n
    /\ (ngt0 n = true ->
        n = of_Z (Product.stock_quantity p) /\ 0 < Product.stock_quantity p)
    /\ inventory_transactions s'
       = inventory_transactions s
         ++ (if ngt0 n then
               match auth s, hd None (tl (outages s)) with
               | Session user, None =>
                   [InventoryTransaction.make (Product.id p) "restock"
                      (Product.stock_quantity p) user "Initial stock"]
               | _, _ => []
               end
             else []).
Proof.
  intros Hs Hprice n.
  assert (exists stock, or_zero n = of_Z stock
                        /\ (ngt0 n = true -> n = of_Z stock))
    as (stock & Hstock & Hpos).
  { subst n.
    destruct (parseInt_integer (ProductData.stock_quantity productData))
      as [E | [z E]]; rewrite E.
    - exists 0. split; [reflexivity | discriminate].
    - exists z. split; [apply or_zero_of_Z | reflexivity]. }
  rewrite (run_createProduct productData s price stock Hs Hprice Hstock).
  fold n. cbv zeta.
  assert (ngt0 n = true -> n = of_Z stock /\ 0 < stock) as Hgt.
  { intro G. pose proof (Hpos G) as E. split; [assumption |].
    rewrite E, ngt0_of_Z in G. now apply Z.ltb_lt. }
  destruct (ngt0 n) eqn:G.
  - rewrite run_createInventoryTransaction.
    cbn [TransactionData.quantity]. fold n. rewrite (Hpos eq_refl).
    simpl auth. simpl outages.
    eexists. eexists. split; [reflexivity |].
    destruct (auth s) as [m | | user]; simpl;
      try (split; [reflexivity |];
           split; [now rewrite or_zero_of_Z |];
           split; [intros _; split; [reflexivity | exact (proj2 (Hgt eq_refl))]
                 | now rewrite app_nil_r]).
    destruct (hd None (tl (outages s))) as [m' |]; simpl;
      [split; [reflexivity |];
       split; [now rewrite or_zero_of_Z |];
       split; [intros _; split; [reflexivity | exact (proj2 (Hgt eq_refl))]
                 | now rewrite app_nil_r] |].
    rewrite insert_inventory_transaction_integer
      by (apply has_product_In; rewrite map_app; apply in_or_app;
          right; now left).
    simpl.
    split; [reflexivity |]. split; [now rewrite or_zero_of_Z |].
    split; [intros _; split; [reflexivity | exact (proj2 (Hgt eq_refl))]
           | reflexivity].
  - eexists. eexists. split; [reflexivity |]. simpl.
    split; [reflexivity |]. split; [now symmetry |].
    split; [discriminate | now rewrite app_nil_r].
Qed.

(* ================================================================== *)
(** * Updating a product *)
(* ================================================================== *)

Lemma update_rows_absent (i : id) (u : ProductPatch.t)
    (rows : list Product.t) :
  ~ In i (map Product.id rows) ->
  update_rows [eq_id i] u rows = Some (rows, []).
Proof.
  induction rows as [| a rows IH]; simpl; intro H; [reflexivity |].
  rewrite IH by (intro; apply H; now right).
  rewrite matches_eq_id.
  destruct (Nat.eqb_spec (Product.id a) i) as [E | E]; [| reflexivity].
  exfalso. apply H. now left.
Qed.

Lemma replace_absent (i : id) (p' : Product.t) (rows : list Product.t) :
  ~ In i (map Product.id rows) ->
  map (fun a => if Nat.eqb (Product.id a) i then p' else a) rows = rows.
Proof.
  induction rows as [| a rows IH]; simpl; intro H; [reflexivity |].
  rewrite IH by (intro; apply H; now right).
  destruct (Nat.eqb_spec (Product.id a) i) as [E | E]; [| reflexivity].
  exfalso. apply H. now left.
Qed.

(** An update by primary key changes the one row that has the key. *)
Lemma update_rows_by_key (u : ProductPatch.t) (p p' : Product.t)
    (rows : list Product.t) :
  unique_ids rows -> In p rows ->
  patch_product u p = Some p' ->
  update_rows [eq_id (Product.id p)] u rows
  = Some (map (fun a => if Nat.eqb (Product.id a) (Product.id p)
                        then p' else a) rows, [p']).
Proof.
  unfold unique_ids.
  induction rows as [| a rows IH]; simpl; intros U H P; [contradiction |].
  inversion U as [| ? ? Ha Urows]; subst.
  rewrite matches_eq_id.
  destruct H as [-> | H].
  - rewrite Nat.eqb_refl, P.
    rewrite update_rows_absent, replace_absent by assumption. reflexivity.
  - rewrite (IH Urows H P).
    destruct (Nat.eqb_spec (Product.id a) (Product.id p)) as [E | E];
      [| reflexivity].
    exfalso. apply Ha. rewrite E. now apply in_map.
Qed.

Lemma parseFloat_falsy (v : value) (q : Q) :
  truthy v = false -> parseFloat v = Num q -> v = Number (Num q).
Proof.
  destruct v as [| | n | t]; unfold parseFloat; simpl; try discriminate.
  - congruence.
  - intros E. apply negb_false_iff, String.eqb_eq in E. subst t.
    discriminate.
Qed.

(** What the store makes of the coerced price and stock of an update. *)
Lemma patch_product_numeric (u : ProductPatch.t) (p : Product.t)
    (vprice vstock : value) (q : Q) (z : Z) :
  ProductPatch.price u = Some vprice ->
  ProductPatch.stock_quantity u = Some vstock ->
  ProductPatch.cost_price u = None ->
  ProductPatch.sale_price u = None ->
  parseFloat vprice = Num q ->
  parseInt vstock = of_Z z ->
  exists p',
    patch_product (numeric_fields u) p = Some p'
    /\ Product.id p' = Product.id p
    /\ Product.price p' = q
    /\ Product.stock_quantity p' = z.
Proof.
  intros Hp Hs Hc Hsale Fq Iz.
  destruct u as [nm cat pr cp sq sz bc os sp ia].
  simpl in Hp, Hs, Hc, Hsale. subst pr sq cp sp.
  assert (defined_field (Some vstock) = true) as D.
  { destruct vstock; try reflexivity. discriminate. }
  unfold numeric_fields, patch_product; simpl.
  destruct (truthy vprice) eqn:T; simpl; rewrite D; simpl;
    rewrite ?(parseFloat_falsy vprice q T Fq), ?Fq, Iz, to_int_of_Z; simpl;
    (eexists; split; [reflexivity |]; simpl; auto).
Qed.

(** The fields of an update as [updateProduct] sends them. *)
Lemma numeric_fields_sent (u : ProductPatch.t) :
  numeric_fields u
  = ProductPatch.make (ProductPatch.name u) (ProductPatch.category u)
      (if truthy_field (ProductPatch.price u)
       then coerce parseFloat (ProductPatch.price u)
       else ProductPatch.price u)
      (if truthy_field (ProductPatch.cost_price u)
       then coerce parseFloat (ProductPatch.cost_price u)
       else ProductPatch.cost_price u)
      (if defined_field (ProductPatch.stock_quantity u)
       then coerce parseInt (ProductPatch.stock_quantity u)
       else ProductPatch.stock_quantity u)
      (ProductPatch.size u) (ProductPatch.barcode u)
      (ProductPatch.is_on_sale u)
      (if truthy_field (ProductPatch.sale_price u)
       then coerce parseFloat (ProductPatch.sale_price u)
       else ProductPatch.sale_price u)
      (ProductPatch.is_active u).
Proof.
  destruct u as [nm cat pr cp sq sz bc os sp ia].
  cbv beta iota zeta delta
    [numeric_fields ProductPatch.set_price ProductPatch.set_cost_price
     ProductPatch.set_stock_quantity ProductPatch.set_sale_price
     ProductPatch.name ProductPatch.category ProductPatch.price
     ProductPatch.cost_price ProductPatch.stock_quantity ProductPatch.size
     ProductPatch.barcode ProductPatch.is_on_sale ProductPatch.sale_price
     ProductPatch.is_active].
  destruct (truthy_field pr); cbv beta iota;
    destruct (truthy_field cp); cbv beta iota;
    destruct (defined_field sq); cbv beta iota;
    destruct (truthy_field sp); reflexivity.
Qed.

(** What the store makes of a price, a stock quantity, and a cost or sale
    price, as [updateProduct] sends them. *)
Lemma price_sent (old : Q) (v : option value) :
  match patch_number old (if truthy_field v then coerce parseFloat v else v) with
  | Some q =>
      reads_as_number parseFloat v = true
      /\ match v with
         | None | Some Undefined => q = old
         | Some v => parseFloat v = Num q
         end
  | None => reads_as_number parseFloat v = false
  end.
Proof.
  destruct v as [[| | n | t] |]; try (split; reflexivity); try reflexivity.
  - unfold truthy_field, reads_as_number.
    change (parseFloat (Number n)) with n.
    destruct (truthy (Number n)); destruct n as [| q]; simpl;
      try reflexivity; split; reflexivity.
  - unfold truthy_field, reads_as_number.
    destruct (truthy (Str t)) eqn:T.
    + cbn [coerce patch_number].
      destruct (parseFloat (Str t)) as [| q]; simpl;
        [reflexivity | split; reflexivity].
    + unfold truthy in T. apply negb_false_iff, String.eqb_eq in T.
      subst t. reflexivity.
Qed.

Lemma stock_sent (old : Z) (v : option value) :
  match patch_integer old (if defined_field v then coerce parseInt v else v) with
  | Some z =>
      reads_as_number parseInt v = true
      /\ match v with
         | None | Some Undefined => z = old
         | Some v => parseInt v = of_Z z
         end
  | None => reads_as_number parseInt v = false
  end.
Proof.
  destruct v as [[| | n | t] |]; try (split; reflexivity);
    unfold defined_field, reads_as_number; cbn [coerce patch_integer];
    match goal with
    | |- context [parseInt ?x] =>
        destruct (parseInt_integer x) as [E | [z E]]; rewrite E;
        [reflexivity | rewrite to_int_of_Z; split; reflexivity]
    end.
Qed.

Lemma nullable_sent (old : option Q) (v : option value) :
  match patch_nullable old (if truthy_field v then coerce parseFloat v else v)
  with
  | Some c =>
      not_empty_string v = true
      /\ match v with
         | None | Some Undefined => c = old
         | Some v => c = nullable_number (Some (parseFloat v))
         end
  | None => not_empty_string v = false
  end.
Proof.
  destruct v as [[| | n | t] |]; try (split; reflexivity).
  - unfold truthy_field. destruct (truthy (Number n)); split; reflexivity.
  - unfold truthy_field, not_empty_string, truthy, nonempty.
    destruct (negb (String.eqb t "")); [split; reflexivity | reflexivity].
Qed.

(** C6: what [updateProduct] checks.  [updateProduct] coerces the numeric
    fields of a partial update with [parseFloat] and [parseInt] and sends
    the result to the store without checking any range.  Whatever the
    fields of the update, on a store that serves the request and for a
    product of the table: when the price, if there is one, reads as a
    number, the stock quantity, if there is one, reads as a whole number,
    and neither the cost price nor the sale price is the empty string,
    the update succeeds, and the row it writes has the price and the stock
    quantity as read, whatever their sign, the cost price and the sale
    price as [parseFloat] reads them (null when that is [NaN]), and, for
    every field that is not in the update, the value it had; otherwise the
    store refuses the update.  [updateProduct] has no validation failure
    of its own: when it fails, the store failed the request or refused a
    value. *)
Theorem updateProduct_no_validation :
  (forall (s : store) (p : Product.t) (u : ProductPatch.t),
     served s ->
     unique_ids (products s) ->
     In p (products s) ->
     if writable u then
       exists p',
         run (updateProduct (Product.id p) u) s
         = (Success (Some p'),
            with_products
              (map (fun a => if Nat.eqb (Product.id a) (Product.id p)
                             then p' else a) (products s))
              (after_request s))
         /\ Product.id p' = Product.id p
         /\ match ProductPatch.price u with
            | None | Some Undefined => Product.price p' = Product.price p
            | Some v => parseFloat v = Num (Product.price p')
            end
         /\ match ProductPatch.stock_quantity u with
            | None | Some Undefined =>
                Product.stock_quantity p' = Product.stock_quantity p
            | Some v => parseInt v = of_Z (Product.stock_quantity p')
            end
         /\ match ProductPatch.cost_price u with
            | None | Some Undefined =>
                Product.cost_price p' = Product.cost_price p
            | Some v =>
                Product.cost_price p' = nullable_number (Some (parseFloat v))
            end
         /\ match ProductPatch.sale_price u with
            | None | Some Undefined =>
                Product.sale_price p' = Product.sale_price p
            | Some v =>
                Product.sale_price p' = nullable_number (Some (parseFloat v))
            end
         /\ Product.name p' = patch_field (Product.name p) (ProductPatch.name u)
         /\ Product.category p'
            = patch_field (Product.category p) (ProductPatch.category u)
         /\ Product.size p' = patch_field (Product.size p) (ProductPatch.size u)
         /\ Product.barcode p'
            = patch_field (Product.barcode p) (ProductPatch.barcode u)
         /\ Product.is_on_sale p'
            = patch_field (Product.is_on_sale p) (ProductPatch.is_on_sale u)
         /\ Product.is_active p'
            = patch_field (Product.is_active p) (ProductPatch.is_active u)
     else
       run (updateProduct (Product.id p) u) s
       = (Failure column_rejects, after_request s))
  /\ (forall (s : store) (productId : id) (u : ProductPatch.t)
             (error : string),
        fst (run (updateProduct productId u) s) = Failure error ->
        hd None (outages s) = Some error \/ error = column_rejects).
Proof.
  split.
  - intros s p u Hs U Hin.
    rewrite run_updateProduct, Hs.
    assert (update_rows [eq_id (Product.id p)] (numeric_fields u) (products s)
            = match patch_product (numeric_fields u) p with
              | Some p' =>
                  Some (map (fun a => if Nat.eqb (Product.id a) (Product.id p)
                                      then p' else a) (products s), [p'])
              | None => None
              end) as E.
    { destruct (patch_product (numeric_fields u) p) as [p' |] eqn:P.
      - now apply update_rows_by_key.
      - clear Hs. unfold unique_ids in U.
        induction (products s) as [| a rows IH]; [contradiction |].
        cbn [update_rows]. rewrite matches_eq_id.
        inversion U as [| ? ? Ha Urows]; subst.
        destruct Hin as [-> | Hin].
        + rewrite Nat.eqb_refl, P.
          now destruct (update_rows _ _ rows) as [[t c] |].
        + now rewrite (IH Urows Hin). }
    rewrite E. clear E.
    unfold patch_product, writable. rewrite numeric_fields_sent.
    cbn [ProductPatch.price ProductPatch.cost_price ProductPatch.stock_quantity
         ProductPatch.sale_price ProductPatch.name ProductPatch.category
         ProductPatch.size ProductPatch.barcode ProductPatch.is_on_sale
         ProductPatch.is_active].
    pose proof (price_sent (Product.price p) (ProductPatch.price u)) as Hp.
    pose proof (stock_sent (Product.stock_quantity p)
                  (ProductPatch.stock_quantity u)) as Hst.
    pose proof (nullable_sent (Product.cost_price p)
                  (ProductPatch.cost_price u)) as Hc.
    pose proof (nullable_sent (Product.sale_price p)
                  (ProductPatch.sale_price u)) as Hsp.
    destruct (patch_number _ _) as [price |];
      [destruct Hp as [-> Hp] | rewrite Hp; reflexivity].
    destruct (patch_nullable (Product.cost_price p) _) as [cost |];
      [destruct Hc as [-> Hc]
      | rewrite Hc, andb_false_r; reflexivity].
    destruct (patch_integer _ _) as [stock |];
      [destruct Hst as [-> Hst] | rewrite Hst; reflexivity].
    destruct (patch_nullable (Product.sale_price p) _) as [sale |];
      [destruct Hsp as [-> Hsp]
      | rewrite Hsp, andb_false_r; reflexivity].
    cbn [andb]. eexists. split; [reflexivity |].
    cbn [Product.id Product.price Product.stock_quantity Product.cost_price
         Product.sale_price Product.name Product.category Product.size
         Product.barcode Product.is_on_sale Product.is_active].
    repeat (split; [first [reflexivity | assumption] |]). reflexivity.
  - intros s productId u error.
    rewrite run_updateProduct.
    destruct (hd None (outages s)) as [m |]; simpl.
    + intro H. inversion H. now left.
    + destruct (update_rows _ _ _) as [[table changed] |]; simpl;
        intro H; inversion H. now right.
Qed.

(* ================================================================== *)
(** * Barcodes *)
(* ================================================================== *)

Lemma two_rows {A : Type} (f : A -> bool) (a b : A) (l : list A) :
  In a l -> In b l -> a <> b -> f a = true -> f b = true ->
  exists x y rest, filter f l = x :: y :: rest.
Proof.
  intros Ha Hb Hne Fa Fb.
  assert (In a (filter f l)) as Ia by (apply filter_In; auto).
  assert (In b (filter f l)) as Ib by (apply filter_In; auto).
  destruct (filter f l) as [| x [| y rest]].
  - contradiction.
  - simpl in Ia, Ib. exfalso. apply Hne.
    destruct Ia as [<- | []], Ib as [<- | []]. reflexivity.
  - eauto.
Qed.

(** C10.  [getProductByBarcode] looks among all products, active or not.
    When a soft-deleted product and an active one carry the same barcode,
    its single-row query matches at least two rows and the method returns
    a failure, not the active product; [checkBarcodeExists], which looks
    among active products only, answers that the barcode exists. *)
Theorem getProductByBarcode_shared_barcode
    (s : store) (barcode : string) (active deleted : Product.t) :
  served s ->
  In active (products s) ->
  In deleted (products s) ->
  Product.is_active active = true ->
  Product.is_active deleted = false ->
  Product.barcode active = barcode ->
  Product.barcode deleted = barcode ->
  (2 <= List.length (filter (matches_all [eq_barcode barcode]) (products s)))%nat
  /\ fst (run (getProductByBarcode barcode) s)
     = Failure "JSON object requested, multiple (or no) rows returned"
  /\ fst (run (checkBarcodeExists barcode None) s) = Success true.
Proof.
  intros Hs Ha Hd Aa Ad Ba Bd.
  assert (active <> deleted) as Hne by (intro E; rewrite E in Aa; congruence).
  destruct (two_rows (matches_all [eq_barcode barcode]) active deleted
              (products s) Ha Hd Hne) as (x & y & rest & F).
  { unfold matches_all. simpl. rewrite Ba, String.eqb_refl. reflexivity. }
  { unfold matches_all. simpl. rewrite Bd, String.eqb_refl. reflexivity. }
  split; [rewrite F; simpl; lia |]. split.
  - unfold getProductByBarcode, await. cbn [bind run serve].
    rewrite store_request_served by assumption.
    unfold after_request at 1. simpl products. rewrite F. reflexivity.
  - unfold checkBarcodeExists, await. cbn [bind run serve].
    rewrite store_request_served by assumption.
    unfold after_request at 1. simpl products.
    assert (In active
              (filter (matches_all [eq_barcode barcode; eq_is_active true])
                 (products s))) as I.
    { apply filter_In. split; [assumption |].
      unfold matches_all. simpl.
      rewrite Ba, String.eqb_refl, Aa. reflexivity. }
    remember (filter (matches_all [eq_barcode barcode; eq_is_active true])
                (products s)) as found.
    destruct found; [contradiction | reflexivity].
Qed.

(* ================================================================== *)
(** * Listing products *)
(* ================================================================== *)

Lemma ilike_percent (rest s : string) :
  ilike (String "%" rest) s
  = (ilike rest s
     || match s with
        | String _ s' => ilike (String "%" rest) s'
        | EmptyString => false
        end)%bool.
Proof. destruct s; reflexivity. Qed.

Lemma ilike_letter (c : ascii) (rest s : string) :
  wildcard c = false ->
  ilike (String c rest) s
  = match s with
    | String d s' => (same_letter c d && ilike rest s')%bool
    | EmptyString => false
    end.
Proof.
  unfold wildcard. intro W.
  apply orb_false_iff in W. destruct W as [W W4].
  apply orb_false_iff in W. destruct W as [W W3].
  cbn [ilike]. rewrite W, W3, W4. reflexivity.
Qed.

Lemma ilike_anything (s : string) : ilike "%" s = true.
Proof.
  induction s as [| c s IH].
  - reflexivity.
  - rewrite ilike_percent. rewrite IH. apply orb_true_r.
Qed.

Lemma ilike_starts_with (t s : string) :
  wildcard_free t = true -> ilike (t ++ "%") s = starts_with t s.
Proof.
  revert s. induction t as [| c t IH]; intros s W.
  - apply ilike_anything.
  - simpl in W. apply andb_true_iff in W. destruct W as [Wc Wt].
    apply negb_true_iff in Wc.
    change (String c t ++ "%")%string with (String c (t ++ "%")).
    rewrite ilike_letter by assumption.
    destruct s as [| d s]; [reflexivity |].
    simpl. now rewrite IH.
Qed.

(** With no wildcard in the search string, [ILIKE '%search%'] is a test
    for a substring without regard to case. *)
Lemma ilike_includes (t s : string) :
  wildcard_free t = true ->
  ilike ("%" ++ t ++ "%") s = includes t s.
Proof.
  intro W.
  change ("%" ++ t ++ "%")%string with (String "%" (t ++ "%")).
  induction s as [| d s IH].
  - rewrite ilike_percent, ilike_starts_with by assumption.
    simpl. reflexivity.
  - rewrite ilike_percent, ilike_starts_with by assumption.
    rewrite IH. reflexivity.
Qed.

Lemma insert_by_name_perm (p : Product.t) (rows : list Product.t) :
  Permutation (p :: rows) (insert_by_name p rows).
Proof.
  induction rows as [| r rest IH]; simpl.
  - apply Permutation_refl.
  - destruct (String.leb (Product.name p) (Product.name r)).
    + apply Permutation_refl.
    + apply perm_trans with (r :: p :: rest).
      * apply perm_swap.
      * now apply perm_skip.
Qed.

Lemma order_by_name_perm (rows : list Product.t) :
  Permutation rows (order_by_name rows).
Proof.
  induction rows as [| p rest IH]; simpl.
  - apply perm_nil.
  - apply perm_trans with (p :: order_by_name rest).
    + now apply perm_skip.
    + apply insert_by_name_perm.
Qed.

Lemma insert_by_name_sorted (p : Product.t) (rows : list Product.t) :
  Sorted by_name rows -> Sorted by_name (insert_by_name p rows).
Proof.
  induction 1 as [| r rest Hrest IH Hr]; simpl.
  - repeat constructor.
  - destruct (String.leb (Product.name p) (Product.name r)) eqn:L.
    + constructor; [now constructor |]. now constructor.
    + assert (by_name r p) as Hrp.
      { unfold by_name.
        destruct (String.leb_total (Product.name p) (Product.name r));
          congruence. }
      constructor; [assumption |].
      destruct rest as [| r' rest']; simpl.
      * now constructor.
      * destruct (String.leb (Product.name p) (Product.name r'));
          constructor; [assumption |].
        now inversion Hr.
Qed.

Lemma order_by_name_sorted (rows : list Product.t) :
  Sorted by_name (order_by_name rows).
Proof.
  induction rows as [| p rest IH]; simpl.
  - constructor.
  - now apply insert_by_name_sorted.
Qed.

Lemma matches_all_app (q1 q2 : list product_filter) (p : Product.t) :
  matches_all (q1 ++ q2) p = (matches_all q1 p && matches_all q2 p)%bool.
Proof. unfold matches_all. apply forallb_app. Qed.

(** What the query built by [getProducts] selects. *)
Lemma getProducts_query (filters : Filters.t) (p : Product.t) :
  matches_all
    (let query : list product_filter := [] in
     let query :=
       match Filters.category filters with
       | Some c =>
           if (nonempty c && negb (String.eqb c "All"))%bool
           then (query ++ [eq_category c])%list else query
       | None => query
       end in
     let query :=
       match Filters.search filters with
       | Some t =>
           if nonempty t
           then (query ++ [ilike_name ("%" ++ t ++ "%")%string])%list
           else query
       | None => query
       end in
     match Filters.activeOnly filters with
     | Some false => query
     | Some true | None => (query ++ [eq_is_active true])%list
     end) p
  = queried filters p.
Proof.
  unfold queried. destruct filters as [category search activeOnly].
  cbn [Filters.category Filters.search Filters.activeOnly]. cbv zeta.
  destruct category as [c |];
    [destruct (nonempty c && negb (String.eqb c "All"))%bool |];
    (destruct search as [t |]; [destruct (nonempty t) |]);
    destruct activeOnly as [[|] |];
    unfold matches_all; cbn [app forallb matches];
    destruct (Product.is_active p);
    cbn [Bool.eqb]; rewrite ?andb_true_r, ?andb_false_r; reflexivity.
Qed.

Lemma queried_selected (filters : Filters.t) (p : Product.t) :
  (forall t, Filters.search filters = Some t -> wildcard_free t = true) ->
  queried filters p = selected filters p.
Proof.
  intro W. unfold queried, selected.
  destruct (Filters.search filters) as [t |]; [| reflexivity].
  destruct (nonempty t); [| reflexivity].
  now rewrite ilike_includes by now apply W.
Qed.

(** C5: what [getProducts] returns.  Whatever the filter, when the store
    serves the query, [getProducts] returns the products of the table that
    the filter selects (each once per row), ordered by name: those of the
    given category when one other than ["All"] is given; those whose name
    matches the pattern [%search%], whatever the case of the letters, when
    a search string is given; the active ones unless [activeOnly] is
    [false].  When the search string holds no pattern character, the
    products whose name matches are those whose name contains the search
    string, whatever the case of the letters.  The barcode plays no part
    in the search. *)
Theorem getProducts_selects_and_orders (s : store) (filters : Filters.t) :
  served s ->
  exists data,
    run (getProducts filters) s = (Success data, after_request s)
    /\ Permutation (filter (queried filters) (products s)) data
    /\ Sorted by_name data
    /\ ((forall t, Filters.search filters = Some t -> wildcard_free t = true) ->
        Permutation (filter (selected filters) (products s)) data).
Proof.
  intros Hs.
  unfold getProducts, await. cbn [bind run serve].
  rewrite store_request_served by assumption.
  eexists. split; [reflexivity |].
  unfold after_request at 1 2 3. simpl products.
  rewrite (filter_ext _ _ (getProducts_query filters)).
  split; [apply order_by_name_perm |].
  split; [apply order_by_name_sorted |].
  intro W.
  rewrite <- (filter_ext _ _ (fun p => queried_selected filters p W)).
  apply order_by_name_perm.
Qed.

(* ================================================================== *)
(** * The inventory summary *)
(* ================================================================== *)

(** What [getInventorySummary] counts, for any table. *)
Lemma inventorySummary_counts (rows : list Product.t) :
  InventorySummary.lowStockCount (inventorySummary rows)
  = List.length (filter (fun p => Product.stock_quantity p <? 10) rows)
  /\ InventorySummary.outOfStockCount (inventorySummary rows)
     = List.length (filter (fun p => Product.stock_quantity p =? 0) rows)
  /\ InventorySummary.totalInventory (inventorySummary rows)
     = fold_left (fun sum p => sum + Product.stock_quantity p) rows 0.
Proof. repeat split. Qed.

(** A product that is out of stock is counted as low on stock, and one
    with exactly ten units is not. *)
Lemma inventorySummary_low_stock_test (p : Product.t) :
  InventorySummary.lowStockCount (inventorySummary [p])
  = if Product.stock_quantity p <? 10 then 1%nat else 0%nat.
Proof.
  unfold inventorySummary. simpl.
  destruct (Product.stock_quantity p <? 10); reflexivity.
Qed.

(** C3, on the stocks 0, 5 and 20 of its example: the summary counts one
    product out of stock and 25 units in all, and two products low on
    stock, the one with 5 units and the one with none. *)
Theorem getInventorySummary_example :
  map Product.stock_quantity (products shop) = [5; 0; 20]
  /\ exists summary,
       fst (run getInventorySummary shop) = Success summary
       /\ InventorySummary.lowStockCount summary = 2%nat
       /\ InventorySummary.outOfStockCount summary = 1%nat
       /\ InventorySummary.totalInventory summary = 25.
Proof.
  split; [reflexivity |].
  eexists. split; [reflexivity |]. repeat split.
Qed.

(* ================================================================== *)
(** * The hazard of concurrent checkouts *)
(* ================================================================== *)

Lemma nmul_price (a : Q) (q : Z) :
  nmul (Num a) (of_Z q)
  = Num (binary64 (binary64 a * binary64 (inject_Z q))).
Proof. reflexivity. Qed.

Lemma nadd_zero (b : Q) :
  nadd (of_Z 0) (Num b) = Num (binary64 (binary64 (inject_Z 0) + binary64 b)).
Proof. reflexivity. Qed.

Lemma patch_product_set_stock (z : Z) (p : Product.t) :
  patch_product
    (numeric_fields
       (ProductPatch.set_stock_quantity (Some (Number (of_Z z)))
          ProductPatch.empty)) p
  = Some (with_stock z p).
Proof.
  fold (stock_patch (of_Z z)).
  now rewrite numeric_fields_stock, parseInt_of_Z, patch_product_stock.
Qed.


Lemma run2_first {A B X : Type} (rest : list bool) (rq : request X)
    (k : X -> prog A) (b : prog B) (s : store) :
  run2 (true :: rest) (Await rq k) b s
  = let (r, s') := serve rq s in run2 rest (k r) b s'.
Proof. reflexivity. Qed.

Lemma run2_second {A B X : Type} (rest : list bool) (a : prog A)
    (rq : request X) (k : X -> prog B) (s : store) :
  run2 (false :: rest) a (Await rq k) s
  = let (r, s') := serve rq s in run2 rest a (k r) s'.
Proof. reflexivity. Qed.

Lemma run2_done {A B : Type} (x : A) (y : B) (s : store) :
  run2 [] (Ret x) (Ret y) s = (x, y, s).
Proof. reflexivity. Qed.

Lemma parseFloat_Number (n : number) : parseFloat (Number n) = n.
Proof. reflexivity. Qed.

Lemma serve_getSession (s : store) (session : session_state) :
  auth s = session -> serve auth_getSession s = (session, s).
Proof. intros <-. reflexivity. Qed.

Lemma serve_sales_insert (s : store) (user : string) (t : Q) (pm : string)
    (n : id) :
  served s -> next_id s = n ->
  serve (sales_insert (NewSale.make user (Num t) pm)) s
  = (Data (Sale.make n user t pm),
     with_next_id (S n)
       (with_sales (sales s ++ [Sale.make n user t pm]) (after_request s))).
Proof.
  intros Hs <-. cbn [serve]. rewrite store_request_served by assumption.
  reflexivity.
Qed.

Lemma serve_sale_items_insert (s : store) (saleId : id) (i : id)
    (name : string) (p : Q) (q : Z) :
  served s ->
  has_sale saleId (sales s) = true -> has_product i (products s) = true ->
  serve (sale_items_insert
           [saleItem saleId (CartItem.make i name (Num p) (of_Z q))]) s
  = (Data tt,
     with_sale_items
       (sale_items s
        ++ [SaleItem.make saleId i name q p
              (binary64 (binary64 p * binary64 (inject_Z q)))])
       (after_request s)).
Proof.
  intros Hs Hsale Hproduct. cbn [serve].
  rewrite store_request_served by assumption.
  unfold insert_sale_items, insert_sale_item, saleItem.
  cbn [NewSaleItem.quantity NewSaleItem.unit_price NewSaleItem.total
       NewSaleItem.sale_id NewSaleItem.product_id NewSaleItem.product_name
       CartItem.quantity CartItem.price CartItem.id CartItem.name].
  change (sales (after_request s)) with (sales s).
  change (products (after_request s)) with (products s).
  rewrite Hsale, Hproduct.
  rewrite parseInt_of_Z, to_int_of_Z, parseFloat_Number, nmul_price.
  reflexivity.
Qed.

Lemma serve_select_by_id (s : store) (p : Product.t) (i : id) :
  served s -> products s = [p] -> Product.id p = i ->
  serve (products_select [eq_id i] false) s = (Data [p], after_request s).
Proof.
  intros Hs Hp <-. cbn [serve]. rewrite store_request_served by assumption.
  unfold after_request at 1. cbn [products with_outages]. rewrite Hp.
  cbn [filter]. rewrite matches_eq_id, Nat.eqb_refl. reflexivity.
Qed.

Lemma serve_update_stock (s : store) (p : Product.t) (i : id) (z : Z) :
  served s -> products s = [p] -> Product.id p = i ->
  serve (products_update
           (numeric_fields
              (ProductPatch.set_stock_quantity (Some (Number (of_Z z)))
                 ProductPatch.empty)) [eq_id i]) s
  = (Data [with_stock z p],
     with_products [with_stock z p] (after_request s)).
Proof.
  intros Hs Hp <-. cbn [serve]. rewrite store_request_served by assumption.
  unfold after_request at 1. cbn [products with_outages]. rewrite Hp.
  cbn [update_rows]. rewrite matches_eq_id, Nat.eqb_refl.
  rewrite patch_product_set_stock. reflexivity.
Qed.

Lemma serve_ledger_insert (s : store) (i : id) (type : string) (z : Z)
    (user notes : string) :
  served s -> has_product i (products s) = true ->
  serve (inventory_transactions_insert
           (NewInventoryTransaction.make i type (parseInt (Number (of_Z z)))
              user notes)) s
  = (Data (InventoryTransaction.make i type z user notes),
     with_inventory_transactions
       (inventory_transactions s
        ++ [InventoryTransaction.make i type z user notes])
       (after_request s)).
Proof.
  intros Hs Hproduct. cbn [serve].
  rewrite store_request_served by assumption.
  rewrite insert_inventory_transaction_integer by assumption. reflexivity.
Qed.

(** C8.  Two [createSale] calls for the same product, of [q1] and [q2]
    units, on a stock of [oldStock].  Nothing but the order of the
    requests guards the read and the write of the stock.  When both calls
    read the stock before either writes it, both succeed, the ledger
    records both sales, and the stock ends at [oldStock - q2]: the first
    decrement is lost and the stock is overstated by [q1].  When the calls
    run one after the other, both succeed as well, whatever the stock,
    which ends at [oldStock - q1 - q2]: below zero when the stock was
    enough for one of them only. *)
Theorem createSale_lost_update (oldStock q1 q2 : Z) :
  (exists r1 r2 s',
     run2 racing (createSale (shirts q1)) (createSale (shirts q2))
       (shelf oldStock)
     = (Success r1, Success r2, s')
     /\ stock_of 1 (products s') = Some (oldStock - q2)
     /\ entries_of 1 (inventory_transactions s')
        = [sale_entry (SaleResult.saleId r1) "cashier-1" 1 q1;
           sale_entry (SaleResult.saleId r2) "cashier-1" 1 q2])
  /\ (exists r1 r2 s',
        run2 in_turn (createSale (shirts q1)) (createSale (shirts q2))
          (shelf oldStock)
        = (Success r1, Success r2, s')
        /\ stock_of 1 (products s') = Some (oldStock - q1 - q2)).
Proof.
  split.
  - unfold racing, shirts, shelf, processPayment_saleData, createSale, await.
    cbn -[run2 serve saleItem numeric_fields string_of_nat
          Qred Qmult Qplus inject_Z binary64].
    rewrite ?nmul_price, ?nadd_zero, ?parseFloat_Number.
    do 14 (match goal with
           | |- context [run2 (true :: _) (Await _ _) _ _] =>
               rewrite run2_first
           | |- context [run2 (false :: _) _ (Await _ _) _] =>
               rewrite run2_second
           end;
           first
             [ erewrite serve_getSession by reflexivity
             | erewrite serve_sales_insert by reflexivity
             | erewrite serve_sale_items_insert by reflexivity
             | erewrite serve_select_by_id by reflexivity
             | erewrite serve_update_stock by reflexivity
             | erewrite serve_ledger_insert by reflexivity ];
           cbn -[run2 serve saleItem numeric_fields string_of_nat
                 Qred Qmult Qplus inject_Z binary64];
           rewrite ?nsub_of_Z, ?nneg_of_Z, ?parseFloat_Number).
    rewrite run2_done.
    do 3 eexists. split; [reflexivity |]. split; reflexivity.
  - unfold in_turn, shirts, shelf, processPayment_saleData, createSale, await.
    cbn -[run2 serve saleItem numeric_fields string_of_nat
          Qred Qmult Qplus inject_Z binary64].
    rewrite ?nmul_price, ?nadd_zero, ?parseFloat_Number.
    do 14 (match goal with
           | |- context [run2 (true :: _) (Await _ _) _ _] =>
               rewrite run2_first
           | |- context [run2 (false :: _) _ (Await _ _) _] =>
               rewrite run2_second
           end;
           first
             [ erewrite serve_getSession by reflexivity
             | erewrite serve_sales_insert by reflexivity
             | erewrite serve_sale_items_insert by reflexivity
             | erewrite serve_select_by_id by reflexivity
             | erewrite serve_update_stock by reflexivity
             | erewrite serve_ledger_insert by reflexivity ];
           cbn -[run2 serve saleItem numeric_fields string_of_nat
                 Qred Qmult Qplus inject_Z binary64];
           rewrite ?nsub_of_Z, ?nneg_of_Z, ?parseFloat_Number).
    rewrite run2_done.
    do 3 eexists. split; reflexivity.
Qed.

(* ================================================================== *)
(** * The statements at work *)
(* ================================================================== *)

Lemma unique_ids_shop : unique_ids (products shop).
Proof.
  unfold unique_ids. simpl.
  repeat constructor; simpl; intuition discriminate.
Defined.

(** C1 at work: two shirts sold from a stock of five. *)
Lemma createSale_stock_and_ledger_witness :
  run (createSale two_shirts) shop
  = (Success (SaleResult.make (first_sale (binary64 (1999 # 50)))
                (map (saleItem 4) (SaleData.items two_shirts)) 4),
     snd (run (createSale two_shirts) shop))
  /\ stock_of 1 (products (snd (run (createSale two_shirts) shop)))
     = Some (5 - 2)
  /\ exists added,
       inventory_transactions (snd (run (createSale two_shirts) shop))
       = inventory_transactions shop ++ added
       /\ entries_of 1 added
          = [InventoryTransaction.make 1 "sale" (- 2) "cashier-1" "Sale 4"].
Proof.
  assert (run (createSale two_shirts) shop
          = (Success (SaleResult.make (first_sale (binary64 (1999 # 50)))
                        (map (saleItem 4) (SaleData.items two_shirts)) 4),
             snd (run (createSale two_shirts) shop))) as H
    by (vm_compute; reflexivity).
  split; [exact H |].
  apply (createSale_stock_and_ledger shop _ two_shirts _ [] []
           (CartItem.make 1 "Blue Shirt" (Num (1999 # 100)) (of_Z 2))
           shirt 2 H).
  - reflexivity.
  - exact unique_ids_shop.
  - simpl. auto.
  - reflexivity.
  - reflexivity.
  - simpl. tauto.
  - reflexivity.
Defined.

(** Success alone does not give C1: the store fails the stock update and
    the ledger append of a sale, and [createSale] returns success all the same, with
    the stock still at five and no ledger entry. *)
Lemma createSale_success_without_stock_update :
  (exists r,
     fst (run (createSale two_shirts)
            (shop_failing [None; None; None; Some "network error";
                           Some "network error"]))
     = Success r)
  /\ stock_of 1
       (products
          (snd (run (createSale two_shirts)
                  (shop_failing [None; None; None; Some "network error";
                                 Some "network error"]))))
     <> Some (5 - 2)
  /\ entries_of 1
       (inventory_transactions
          (snd (run (createSale two_shirts)
                  (shop_failing [None; None; None; Some "network error";
                                 Some "network error"]))))
     = [].
Proof.
  split; [eexists; vm_compute; reflexivity |].
  split; [vm_compute; discriminate | vm_compute; reflexivity].
Qed.

(** C2 at work: five shirts at 19.99.  The line and the sale are stored
    with the total 99.94999999999999, which is less than a cent away from
    99.95. *)
Lemma createSale_totals_witness :
  run (createSale five_shirts) shop
  = (Success (SaleResult.make
                (first_sale (binary64 (binary64 (1999 # 100) * 5)))
                (map (saleItem 4) (SaleData.items five_shirts)) 4),
     snd (run (createSale five_shirts) shop))
  /\ Num (Sale.total (first_sale (binary64 (binary64 (1999 # 100) * 5))))
     = SaleData.total five_shirts
  /\ string_of_number
       (Num (Sale.total (first_sale (binary64 (binary64 (1999 # 100) * 5)))))
     = "99.94999999999999"
  /\ Forall rounded_product
       (sale_items (snd (run (createSale five_shirts) shop)))
  /\ Num (Sale.total (first_sale (binary64 (binary64 (1999 # 100) * 5))))
     = sum_of_lines (sale_items (snd (run (createSale five_shirts) shop)))
  /\ (Qabs (Sale.total (first_sale (binary64 (binary64 (1999 # 100) * 5)))
            - exact_sum (sale_items (snd (run (createSale five_shirts) shop))))
      <= drift 1 100)%Q
  /\ (drift 1 100 < 1 # 100)%Q
  /\ (Qabs (Sale.total (first_sale (binary64 (binary64 (1999 # 100) * 5)))
            - (9995 # 100)) < 1 # 100)%Q.
Proof.
  assert (run (createSale five_shirts) shop
          = (Success (SaleResult.make
                        (first_sale (binary64 (binary64 (1999 # 100) * 5)))
                        (map (saleItem 4) (SaleData.items five_shirts)) 4),
             snd (run (createSale five_shirts) shop))) as H
    by (vm_compute; reflexivity).
  split; [exact H |].
  destruct (createSale_totals shop _ five_shirts _ H)
    as (_ & Htotal & lines & Hlines & _ & Hrounded & Hsum).
  split; [exact Htotal |].
  split; [vm_compute; reflexivity |].
  simpl app in Hlines. rewrite Hlines.
  split; [exact Hrounded |].
  destruct (Hsum [CartItem.make 1 "Blue Shirt" (Num (1999 # 100)) (of_Z 5)]
              "Cash" eq_refl) as [Hs Hd].
  { repeat constructor. now exists 5. }
  split; [exact Hs |].
  split; [| split; vm_compute; reflexivity].
  assert (List.length lines = 1%nat) as L
    by (rewrite <- Hlines; vm_compute; reflexivity).
  rewrite L in Hd. apply Hd.
  - rewrite <- Hlines. vm_compute. repeat constructor. discriminate.
  - vm_compute. discriminate.
Defined.

(** The total of the stored sale is the caller's (C2): the caller passes a
    total of 1 for lines that add up to 39.98, and the stored sale has the
    total 1. *)
Lemma createSale_stores_the_total_it_is_given :
  exists r s',
    run (createSale two_shirts_for_one) shop = (Success r, s')
    /\ Num (Sale.total (SaleResult.sale r)) = of_Z 1
    /\ sum_of_lines (sale_items s') = Num (binary64 (1999 # 50))
    /\ Num (Sale.total (SaleResult.sale r)) <> sum_of_lines (sale_items s').
Proof.
  eexists. eexists. split; [vm_compute; reflexivity |].
  split; [reflexivity |]. split; [reflexivity |].
  vm_compute. discriminate.
Qed.

(** C4 at work. *)
Lemma createSale_empty_cart_witness :
  SaleData.items empty_cart = []
  /\ products (snd (run (createSale empty_cart) shop)) = products shop
  /\ sale_items (snd (run (createSale empty_cart) shop)) = []
  /\ inventory_transactions (snd (run (createSale empty_cart) shop)) = []
  /\ fst (run (createSale empty_cart) shop)
     = Success (SaleResult.make (first_sale 0) [] 4)
  /\ sales (snd (run (createSale empty_cart) shop)) = [first_sale 0].
Proof.
  destruct (createSale_empty_cart shop empty_cart eq_refl)
    as (P & SI & L & H).
  destruct (H "cashier-1" 0%Q eq_refl eq_refl eq_refl eq_refl) as [R S].
  repeat split; assumption.
Defined.

(** An empty cart is not refused (C4): [createSale] does not fail, and it
    writes a sale record. *)
Lemma createSale_empty_cart_writes_a_sale :
  fst (run (createSale empty_cart) shop)
  = Success (SaleResult.make (first_sale 0) [] 4)
  /\ sales shop = []
  /\ sales (snd (run (createSale empty_cart) shop)) = [first_sale 0].
Proof. repeat split. Qed.

(** C5 at work: a search for [sh_rt] among the shirts, in which [_]
    stands for any character. *)
Lemma getProducts_selects_and_orders_witness :
  served shop
  /\ wildcard_free "sh_rt" = false
  /\ includes "sh_rt" (Product.name shirt) = false
  /\ exists data,
       run (getProducts (Filters.make (Some "Shirts") (Some "sh_rt") None)) shop
       = (Success data, after_request shop)
       /\ Permutation
            (filter (queried (Filters.make (Some "Shirts") (Some "sh_rt") None))
               (products shop)) data
       /\ Sorted by_name data
       /\ data = [shirt].
Proof.
  split; [reflexivity |]. split; [reflexivity |]. split; [reflexivity |].
  destruct (getProducts_selects_and_orders shop
              (Filters.make (Some "Shirts") (Some "sh_rt") None) eq_refl)
    as (data & R & P & S & _).
  exists data. split; [exact R |]. split; [exact P |]. split; [exact S |].
  vm_compute in R. now inversion R.
Defined.

(** The search does not look at barcodes (C5): the shirt is active and its
    barcode contains the search string, and a search for it returns
    nothing. *)
Lemma getProducts_search_ignores_barcode :
  In shirt (products shop)
  /\ Product.is_active shirt = true
  /\ includes "lim013" (Product.barcode shirt) = true
  /\ fst (run (getProducts (Filters.make None (Some "lim013") None)) shop)
     = Success [].
Proof.
  split; [simpl; auto |]. split; [reflexivity |]. split; [reflexivity |].
  vm_compute. reflexivity.
Qed.

(** C6 at work: a price of -5.50 and a stock of -3 are written; so is a
    stock of -3 alone. *)
Lemma updateProduct_no_validation_witness :
  (exists p',
     run (updateProduct 1 below_zero) shop
     = (Success (Some p'),
        with_products
          (map (fun a => if Nat.eqb (Product.id a) 1 then p' else a)
             (products shop))
          (after_request shop))
     /\ Product.id p' = 1%nat
     /\ Product.price p' = (-11 # 2)%Q
     /\ Product.stock_quantity p' = -3
     /\ Product.cost_price p' = Product.cost_price shirt)
  /\ (exists p',
        fst (run (updateProduct 1 (stock_patch (of_Z (-3)))) shop)
        = Success (Some p')
        /\ Product.price p' = Product.price shirt
        /\ Product.stock_quantity p' = -3).
Proof.
  split.
  - destruct (proj1 updateProduct_no_validation shop shirt below_zero
                eq_refl unique_ids_shop (or_introl eq_refl))
      as (p' & R & Hid & Hp & Hst & Hc & _).
    exists p'. split; [exact R |]. split; [exact Hid |].
    cbn [below_zero ProductPatch.price ProductPatch.set_price
         ProductPatch.stock_quantity ProductPatch.set_stock_quantity
         ProductPatch.cost_price ProductPatch.empty] in Hp, Hst, Hc.
    split; [| split; [apply of_Z_inj; now rewrite <- Hst | exact Hc]].
    vm_compute in Hp. now inversion Hp.
  - destruct (proj1 updateProduct_no_validation shop shirt
                (stock_patch (of_Z (-3)))
                eq_refl unique_ids_shop (or_introl eq_refl))
      as (p' & R & _ & Hp & Hst & _).
    exists p'. split; [exact (f_equal fst R) |].
    cbn [stock_patch ProductPatch.price ProductPatch.set_stock_quantity
         ProductPatch.stock_quantity ProductPatch.empty] in Hp, Hst.
    split; [exact Hp |]. apply of_Z_inj. now rewrite <- Hst.
Defined.

(** No range is checked (C6): an update that sets the stock to -3
    succeeds, and the stored stock is -3. *)
Lemma updateProduct_accepts_negative_stock :
  fst (run (updateProduct 1 (stock_patch (of_Z (-3)))) shop)
  = Success (Some (with_stock (-3) shirt))
  /\ stock_of 1
       (products (snd (run (updateProduct 1 (stock_patch (of_Z (-3)))) shop)))
     = Some (-3).
Proof. split; vm_compute; reflexivity. Qed.

(** C7 at work: ten hats are added while nobody is signed in, so that the
    ledger append fails; the product is created all the same. *)
Lemma createProduct_initial_stock_witness :
  served shop_signed_out
  /\ parseFloat (ProductData.price ten_hats) = Num (25 # 2)
  /\ exists p s',
       run (createProduct ten_hats) shop_signed_out = (Success p, s')
       /\ products s' = products shop_signed_out ++ [p]
       /\ Product.stock_quantity p = 10
       /\ inventory_transactions s' = [].
Proof.
  split; [reflexivity |]. split; [vm_compute; reflexivity |].
  destruct (createProduct_initial_stock shop_signed_out ten_hats (25 # 2)%Q)
    as (p & s' & R & P & S & G & L).
  - reflexivity.
  - vm_compute. reflexivity.
  - exists p, s'. split; [exact R |]. split; [exact P |].
    split; [| exact L].
    apply of_Z_inj. rewrite S. vm_compute. reflexivity.
Defined.

(** C9 at work: the store fails the stock update, nobody is signed in for
    the ledger append, and [restockProduct] reports the new stock. *)
Lemma restockProduct_reports_success_witness :
  fst (run (restockProduct 1 (Str "5") "")
         (with_outages [None; Some "network error"] shop_signed_out))
  = Success (of_Z 10)
  /\ products
       (snd (run (restockProduct 1 (Str "5") "")
               (with_outages [None; Some "network error"] shop_signed_out)))
     = products shop
  /\ inventory_transactions
       (snd (run (restockProduct 1 (Str "5") "")
               (with_outages [None; Some "network error"] shop_signed_out)))
     = [].
Proof.
  destruct (restockProduct_reports_success
              (with_outages [None; Some "network error"] shop_signed_out)
              shirt (Str "5") 5 "")
    as (R & P & L).
  - reflexivity.
  - exact unique_ids_shop.
  - simpl. auto.
  - vm_compute. reflexivity.
  - split; [exact R |].
    split; [exact (P "network error" eq_refl) | exact (L eq_refl)].
Defined.

(** C10 at work: the shirt is soft-deleted; [checkBarcodeExists] then
    finds its barcode free, so that the product can be listed again under
    it; from then on [getProductByBarcode] fails for that barcode. *)
Lemma getProductByBarcode_shared_barcode_witness :
  fst (run (checkBarcodeExists "LIM013" None) (snd (run (deleteProduct 1) shop)))
  = Success false
  /\ (2 <= List.length
             (filter (matches_all [eq_barcode "LIM013"])
                (products shop_relisted)))%nat
  /\ fst (run (getProductByBarcode "LIM013") shop_relisted)
     = Failure "JSON object requested, multiple (or no) rows returned"
  /\ fst (run (checkBarcodeExists "LIM013" None) shop_relisted)
     = Success true.
Proof.
  split; [vm_compute; reflexivity |].
  apply (getProductByBarcode_shared_barcode shop_relisted "LIM013"
           (Product.make 4 "Blue Shirt v2" "Shirts" (21 # 1) None 0 "M"
              "LIM013" false None true)
           (Product.make 1 "Blue Shirt" "Shirts" (1999 # 100) (Some (12 # 1))
              5 "M" "LIM013" false None false)).
  - reflexivity.
  - vm_compute. auto.
  - vm_compute. auto.
  - reflexivity.
  - reflexivity.
  - reflexivity.
  - reflexivity.
Defined.

(* ================================================================== *)
(** * More on requests and tables *)
(* ================================================================== *)

Lemma run_select (fs : list product_filter) (order_name : bool) (s : store) :
  served s ->
  serve (products_select fs order_name) s
  = (Data (if order_name
           then order_by_name (filter (matches_all fs) (products s))
           else filter (matches_all fs) (products s)),
     after_request s).
Proof.
  intro Hs. cbn [serve]. now rewrite store_request_served.
Qed.

Lemma same_tables_after_request (s : store) : same_tables s (after_request s).
Proof. repeat split. Qed.

Lemma matches_active (p : Product.t) :
  matches_all [eq_is_active true] p = Product.is_active p.
Proof.
  unfold matches_all. simpl. destruct (Product.is_active p); reflexivity.
Qed.

Lemma In_order_by_name (p : Product.t) (rows : list Product.t) :
  In p (order_by_name rows) <-> In p rows.
Proof.
  split; apply Permutation_in;
    [apply Permutation_sym |]; apply order_by_name_perm.
Qed.

(** What [getProducts] answers when the store serves it. *)
Lemma run_getProducts_selected (s : store) (filters : Filters.t) :
  served s ->
  (forall t, Filters.search filters = Some t -> wildcard_free t = true) ->
  run (getProducts filters) s
  = (Success (order_by_name (filter (selected filters) (products s))),
     after_request s).
Proof.
  intros Hs W.
  unfold getProducts, await. cbn [bind run].
  rewrite run_select by assumption. cbn [run].
  do 3 f_equal. apply filter_ext. intro p. unfold selected.
  destruct filters as [category search activeOnly].
  simpl in W. simpl.
  assert (forall q, matches_all
            (q ++ match activeOnly with
                  | Some false => []
                  | _ => [eq_is_active true]
                  end) p
          = (matches_all q p
             && match activeOnly with
                | Some false => true
                | _ => Product.is_active p
                end)%bool) as Hactive.
  { intro q. rewrite matches_all_app. f_equal.
    destruct activeOnly as [[|] |]; unfold matches_all; simpl;
      try reflexivity;
      destruct (Product.is_active p); reflexivity. }
  assert (forall q, matches_all
            (match search with
             | Some t =>
                 if nonempty t
                 then q ++ [ilike_name ("%" ++ t ++ "%")%string] else q
             | None => q
             end) p
          = (matches_all q p
             && match search with
                | Some t =>
                    if nonempty t then includes t (Product.name p)
                    else true
                | None => true
                end)%bool) as Hsearch.
  { intro q. destruct search as [t |]; [| now rewrite andb_true_r].
    destruct (nonempty t); [| now rewrite andb_true_r].
    rewrite matches_all_app. f_equal.
    unfold matches_all. cbn [forallb matches].
    rewrite ilike_includes by now apply W.
    apply andb_true_r. }
  destruct activeOnly as [[|] |];
    rewrite ?app_nil_r;
    try (rewrite (Hactive _));
    try rewrite Hsearch;
    (destruct category as [c |];
     [destruct (nonempty c && negb (String.eqb c "All"))%bool |]);
    unfold matches_all; simpl; rewrite ?andb_true_r; reflexivity.
Qed.

(** The products the till loads: the active ones, by name. *)
Lemma run_loadProducts (s : store) :
  served s ->
  run (getProducts (Filters.make None None (Some true))) s
  = (Success (order_by_name
                (filter (fun p => Product.is_active p) (products s))),
     after_request s).
Proof.
  intro Hs. rewrite run_getProducts_selected by (auto; discriminate).
  reflexivity.
Qed.

Lemma In_replace_row (i : id) (p' a : Product.t) (rows : list Product.t) :
  Product.id p' = i ->
  In a (replace_row i p' rows)
  <-> (In a rows /\ Product.id a <> i)
      \/ (a = p' /\ In i (map Product.id rows)).
Proof.
  intro Hid. unfold replace_row. rewrite in_map_iff. split.
  - intros (b & Hb & Hin). destruct (Nat.eqb_spec (Product.id b) i) as [E | E].
    + right. split; [congruence |]. rewrite <- E. now apply in_map.
    + left. subst a. auto.
  - intros [[Hin Hne] | [Ha Hin]].
    + exists a. split; [| assumption].
      destruct (Nat.eqb_spec (Product.id a) i); congruence.
    + apply in_map_iff in Hin. destruct Hin as (b & Hb & Hin).
      exists b. split; [| assumption]. rewrite Hb, Nat.eqb_refl. congruence.
Qed.

Lemma unique_ids_replace_row (i : id) (p' : Product.t) (rows : list Product.t) :
  Product.id p' = i -> unique_ids rows -> unique_ids (replace_row i p' rows).
Proof.
  intros Hid U. unfold unique_ids, replace_row in *.
  rewrite map_map.
  erewrite map_ext; [exact U |].
  intro a. simpl. destruct (Nat.eqb_spec (Product.id a) i); congruence.
Qed.

Lemma unique_ids_same (rows : list Product.t) (a b : Product.t) :
  unique_ids rows -> In a rows -> In b rows ->
  Product.id a = Product.id b -> a = b.
Proof.
  unfold unique_ids. induction rows as [| r rows IH]; simpl; [tauto |].
  intros N Ha Hb E. inversion N as [| ? ? Hno N']. subst.
  destruct Ha as [-> | Ha], Hb as [-> | Hb]; auto.
  - exfalso. apply Hno. rewrite E. now apply in_map.
  - exfalso. apply Hno. rewrite <- E. now apply in_map.
Qed.

(** What one [UPDATE] changed: nothing when it answers no row; otherwise
    every row it answers is in the table and is a matching row,
    patched. *)
Lemma update_rows_changed (fs : list product_filter) (u : ProductPatch.t)
    (rows table changed : list Product.t) :
  update_rows fs u rows = Some (table, changed) ->
  (changed = [] -> table = rows)
  /\ forall p', In p' changed ->
       In p' table
       /\ exists p, In p rows /\ matches_all fs p = true
                    /\ patch_product u p = Some p'.
Proof.
  revert table changed.
  induction rows as [| r rows IH]; simpl; intros table changed.
  - intros [= <- <-]. split; [reflexivity | intros p' []].
  - destruct (update_rows fs u rows) as [[table0 changed0] |]; [| discriminate].
    destruct (IH _ _ eq_refl) as [IH1 IH2].
    destruct (matches_all fs r) eqn:M.
    + destruct (patch_product u r) as [r' |] eqn:P; [| discriminate].
      intros [= <- <-]. split; [discriminate |].
      intros p' [<- | Hin].
      * split; [now left |]. exists r. auto.
      * destruct (IH2 p' Hin) as (Ht & p & Hp & Hm & Hpatch).
        split; [now right |]. exists p. auto.
    + intros [= <- <-]. split.
      * intro E. now rewrite IH1.
      * intros p' Hin. destruct (IH2 p' Hin) as (Ht & p & Hp & Hm & Hpatch).
        split; [now right |]. exists p. auto.
Qed.

(* ================================================================== *)
(** * Looking a product up *)
(* ================================================================== *)

(** X1.  When the store serves the request and [id] is a key of
    [products], [getProductById] answers a product exactly when that
    product is the row of the table with the identifier asked for, whether
    the product is active or not; when no row has the identifier it fails
    with the message of [.single()]. *)
Theorem getProductById_finds (s : store) (i : id) :
  served s -> unique_ids (products s) ->
  (forall p, fst (run (getProductById i) s) = Success p
             <-> In p (products s) /\ Product.id p = i)
  /\ (~ In i (map Product.id (products s)) ->
      run (getProductById i) s = (Failure not_single, after_request s)).
Proof.
  intros Hs U. split.
  - intro p. split.
    + rewrite run_getProductById, Hs. simpl.
      destruct (filter (matches_all [eq_id i]) (products s))
        as [| a [| b l]] eqn:F; simpl; try discriminate.
      intro H. inversion H. subst a.
      assert (In p (filter (matches_all [eq_id i]) (products s))) as Hin
        by (rewrite F; now left).
      apply filter_In in Hin. rewrite matches_eq_id, Nat.eqb_eq in Hin.
      exact Hin.
    + intros [Hin Hid]. subst i.
      now rewrite run_getProductById_found.
  - intro Hno. rewrite run_getProductById, Hs.
    now rewrite select_absent_id.
Qed.

(* ================================================================== *)
(** * Deleting a product *)
(* ================================================================== *)

Lemma patch_product_deactivate (p : Product.t) :
  patch_product (ProductPatch.set_is_active (Some false) ProductPatch.empty) p
  = Some (with_is_active false p).
Proof. destruct p. reflexivity. Qed.

Lemma run_deleteProduct (i : id) (s : store) :
  run (deleteProduct i) s =
  match hd None (outages s) with
  | Some message => (Failure message, after_request s)
  | None =>
      match update_rows [eq_id i]
              (ProductPatch.set_is_active (Some false) ProductPatch.empty)
              (products s) with
      | Some (table, changed) =>
          (Success (hd_error changed), with_products table (after_request s))
      | None => (Failure column_rejects, after_request s)
      end
  end.
Proof.
  unfold deleteProduct, await, after_request. cbn [bind run serve].
  unfold store_request, take_outage.
  destruct (outages s) as [| [m |] rest]; simpl; try reflexivity;
    destruct (update_rows _ _ _) as [[table changed] |]; reflexivity.
Qed.

Lemma run_deleteProduct_found (s : store) (p : Product.t) :
  served s -> unique_ids (products s) -> In p (products s) ->
  run (deleteProduct (Product.id p)) s
  = (Success (Some (with_is_active false p)),
     with_products
       (replace_row (Product.id p) (with_is_active false p) (products s))
       (after_request s)).
Proof.
  intros Hs U Hin. rewrite run_deleteProduct, Hs.
  rewrite (update_rows_by_key _ p (with_is_active false p));
    auto using patch_product_deactivate.
Qed.

(** X2.  [deleteProduct] is a soft delete.  When the store serves the
    request, the row of the product stays in [products] under its
    identifier, with [is_active] false and with the name, category, price,
    cost price, stock, size, barcode, sale flag and sale price it had (the
    update also stamps [updated_at], a column the tables here do not
    carry); no row is added or removed, and every other row is as it was;
    sales, sale lines and the ledger are not touched. *)
Theorem deleteProduct_soft_delete (s : store) (p : Product.t) :
  served s -> unique_ids (products s) -> In p (products s) ->
  let s' := snd (run (deleteProduct (Product.id p)) s) in
  exists p',
    fst (run (deleteProduct (Product.id p)) s) = Success (Some p')
    /\ In p' (products s')
    /\ Product.id p' = Product.id p
    /\ Product.is_active p' = false
    /\ Product.name p' = Product.name p
    /\ Product.category p' = Product.category p
    /\ Product.price p' = Product.price p
    /\ Product.cost_price p' = Product.cost_price p
    /\ Product.stock_quantity p' = Product.stock_quantity p
    /\ Product.size p' = Product.size p
    /\ Product.barcode p' = Product.barcode p
    /\ Product.is_on_sale p' = Product.is_on_sale p
    /\ Product.sale_price p' = Product.sale_price p
    /\ map Product.id (products s') = map Product.id (products s)
    /\ (forall a, In a (products s) -> Product.id a <> Product.id p ->
                  In a (products s'))
    /\ (forall a, In a (products s') -> Product.id a <> Product.id p ->
                  In a (products s))
    /\ sales s' = sales s
    /\ sale_items s' = sale_items s
    /\ inventory_transactions s' = inventory_transactions s.
Proof.
  intros Hs U Hin. cbv zeta. rewrite run_deleteProduct_found by assumption.
  exists (with_is_active false p). cbn [fst snd products with_products].
  split; [reflexivity |]. split.
  { apply In_replace_row; [reflexivity |]. right.
    split; [reflexivity | now apply in_map]. }
  do 11 (split; [reflexivity |]). split.
  { unfold replace_row. rewrite map_map. apply map_ext. intro a.
    destruct (Nat.eqb_spec (Product.id a) (Product.id p)) as [E | E];
      [now rewrite E | reflexivity]. }
  split.
  { intros a Ha Hne. apply In_replace_row; [reflexivity |]. now left. }
  split; [| repeat split].
  intros a Ha Hne. apply In_replace_row in Ha; [| reflexivity].
  destruct Ha as [[Ha _] | [-> _]]; [assumption | now destruct Hne].
Qed.

(** X3.  After [deleteProduct], on a store that fails nothing:
    [getProducts] with no filter lists the active products other than the
    deleted one, while [getProductById] still answers the deleted product,
    now inactive. *)
Theorem deleteProduct_then_reads (s : store) (p : Product.t) :
  outages s = [] -> unique_ids (products s) -> In p (products s) ->
  let s' := snd (run (deleteProduct (Product.id p)) s) in
  (exists data,
     fst (run (getProducts (Filters.make None None None)) s') = Success data
     /\ forall a, In a data
                  <-> In a (products s) /\ Product.is_active a = true
                      /\ Product.id a <> Product.id p)
  /\ fst (run (getProductById (Product.id p)) s')
     = Success (with_is_active false p).
Proof.
  intros O U Hin s'. subst s'.
  rewrite (run_deleteProduct_found s p) by auto using quiet_served.
  cbn [snd].
  set (s' := with_products _ _).
  assert (served s') as Hs'.
  { apply quiet_served. subst s'. simpl. now rewrite O. }
  assert (products s' = replace_row (Product.id p) (with_is_active false p)
                          (products s)) as P' by reflexivity.
  split.
  - rewrite run_getProducts_selected by (auto; discriminate).
    eexists. split; [reflexivity |]. intro a.
    rewrite In_order_by_name, filter_In, P', In_replace_row by reflexivity.
    unfold selected. simpl. split.
    + intros [[[Ha Hne] | [Ha _]] Hact]; [tauto |].
      subst a. discriminate.
    + intros (Ha & Hact & Hne). tauto.
  - assert (Product.id p = Product.id (with_is_active false p)) as E
      by reflexivity.
    rewrite E at 1. rewrite run_getProductById_found; auto.
    + rewrite P'. now apply unique_ids_replace_row.
    + rewrite P'. apply In_replace_row; [reflexivity |]. right.
      split; [reflexivity |]. now apply in_map.
Qed.

(** X4.  An identifier that no product has: [updateProduct] and
    [deleteProduct] report success with no data, and change nothing. *)
Theorem updateProduct_unknown_id (s : store) (i : id) (u : ProductPatch.t) :
  served s -> ~ In i (map Product.id (products s)) ->
  run (updateProduct i u) s = (Success None, after_request s)
  /\ run (deleteProduct i) s = (Success None, after_request s).
Proof.
  intros Hs Hno. rewrite run_updateProduct, run_deleteProduct, Hs.
  rewrite !update_rows_absent by assumption. split; reflexivity.
Qed.

(* ================================================================== *)
(** * Creating a product, continued *)
(* ================================================================== *)

Lemma run_createProduct_cases (productData : ProductData.t) (s : store) :
  run (createProduct productData) s =
  match hd None (outages s) with
  | Some message => (Failure message, after_request s)
  | None =>
      match insert_product (next_id s) (product_row productData) with
      | None => (Failure column_rejects, after_request s)
      | Some p =>
          let s1 :=
            with_next_id (S (next_id s))
              (with_products (products s ++ [p]) (after_request s)) in
          (Success p,
           if ngt0 (parseInt (ProductData.stock_quantity productData)) then
             snd (run (createInventoryTransaction
                         (TransactionData.make (Product.id p) "restock"
                            (parseInt (ProductData.stock_quantity productData))
                            "Initial stock" None)) s1)
           else s1)
      end
  end.
Proof.
  unfold createProduct, await, after_request. cbn [bind run serve].
  fold (product_row productData).
  unfold store_request, take_outage.
  destruct (outages s) as [| [m |] rest];
    cbn [hd tl next_id with_outages products]; try reflexivity;
    (destruct (insert_product (next_id s) _) as [p |]; [| reflexivity]);
    cbv beta iota zeta; rewrite run_then;
    (destruct (ngt0 _); [rewrite run_then |]); reflexivity.
Qed.

Lemma insert_product_Some (i : id) (row : NewProduct.t) (p : Product.t) :
  insert_product i row = Some p ->
  NewProduct.price row = Num (Product.price p)
  /\ to_int (NewProduct.stock_quantity row) = Some (Product.stock_quantity p)
  /\ Product.id p = i
  /\ Product.barcode p = NewProduct.barcode row
  /\ Product.is_active p = NewProduct.is_active row.
Proof.
  unfold insert_product.
  destruct (mandatory_number (NewProduct.price row)) as [q |] eqn:E1;
    [| discriminate].
  destruct (to_int (NewProduct.stock_quantity row)) as [z |] eqn:E2;
    [| discriminate].
  intro H. inversion H. simpl.
  apply mandatory_number_Some in E1. auto.
Qed.

(** What a successful [createProduct] went through. *)
Lemma createProduct_success (productData : ProductData.t) (s s' : store)
    (p : Product.t) :
  run (createProduct productData) s = (Success p, s') ->
  served s
  /\ insert_product (next_id s) (product_row productData) = Some p
  /\ products s' = products s ++ [p]
  /\ next_id s' = S (next_id s)
  /\ sales s' = sales s
  /\ (outages s = [] -> outages s' = []).
Proof.
  rewrite run_createProduct_cases.
  destruct (hd None (outages s)) as [m |] eqn:O; [discriminate |].
  destruct (insert_product _ _) as [p0 |] eqn:I; [| discriminate].
  cbv zeta. destruct (ngt0 _).
  - match goal with
    | |- context [run (createInventoryTransaction ?td) ?s1] =>
        pose proof (createInventoryTransaction_store td s1) as C;
        assert (next_id (snd (run (createInventoryTransaction td) s1))
                = next_id s1) as N;
        [| set (s2 := run (createInventoryTransaction td) s1) in * ]
    end.
    { rewrite run_createInventoryTransaction. simpl.
      destruct (auth s); try reflexivity.
      destruct (hd None (tl (outages s))); try reflexivity.
      destruct (insert_inventory_transaction _); reflexivity. }
    cbv zeta in C. destruct C as (P & S1 & _ & _ & Q & _).
    intros [= <- <-].
    rewrite P, S1, N. repeat split; auto.
    intro Oq. apply Q. simpl. now rewrite Oq.
  - intros [= <- <-]. repeat split; auto. intro Oq. simpl. now rewrite Oq.
Qed.

(** X5.  [createProduct] fails exactly when the store does not take the
    row of the product, and with the error of the store; a ledger entry
    for the initial stock that fails does not make it fail.  When it
    fails, no table has changed and no identifier was used up. *)
Theorem createProduct_failure (s : store) (productData : ProductData.t)
    (error : string) :
  (fst (run (createProduct productData) s) = Failure error
   <-> fst (serve (products_insert (product_row productData)) s) = Error error)
  /\ (fst (run (createProduct productData) s) = Failure error ->
      same_tables s (snd (run (createProduct productData) s))
      /\ next_id (snd (run (createProduct productData) s)) = next_id s).
Proof.
  rewrite run_createProduct_cases. cbn [serve].
  unfold store_request, take_outage.
  destruct (hd None (outages s)) as [m |] eqn:O.
  - simpl. split; [| intros _; repeat split].
    split; intros [= ->]; reflexivity.
  - cbn [next_id with_outages].
    destruct (insert_product _ _) as [p |] eqn:I; cbv zeta; simpl.
    + split; [split; discriminate | discriminate].
    + split; [| intros _; repeat split].
      split; intros [= ->]; reflexivity.
Qed.

Lemma fresh_unique_app (s : store) (p : Product.t) :
  fresh_ids s -> unique_ids (products s) -> Product.id p = next_id s ->
  unique_ids (products s ++ [p]).
Proof.
  intros F U Hid. unfold unique_ids in *. rewrite map_app. simpl.
  apply NoDup_app; [assumption | repeat constructor; intros [] | ].
  intros i Hi [E | []]. apply in_map_iff in Hi.
  destruct Hi as (a & Ha & Hin). apply F in Hin. lia.
Qed.

(** X6.  A product that [createProduct] has created is the one
    [getProductById] answers for its identifier, on a store that fails
    nothing and hands out fresh identifiers; identifiers stay fresh and
    unique. *)
Theorem createProduct_then_getProductById (s s' : store)
    (productData : ProductData.t) (p : Product.t) :
  outages s = [] -> unique_ids (products s) -> fresh_ids s ->
  run (createProduct productData) s = (Success p, s') ->
  fst (run (getProductById (Product.id p)) s') = Success p
  /\ fresh_ids s' /\ unique_ids (products s').
Proof.
  intros O U F H.
  destruct (createProduct_success _ _ _ _ H) as (_ & I & P & N & _ & O').
  apply insert_product_Some in I. destruct I as (_ & _ & Hid & _).
  assert (unique_ids (products s')) as U'
    by (rewrite P; now apply fresh_unique_app).
  split; [| split; [| assumption]].
  - rewrite run_getProductById_found; auto using quiet_served.
    rewrite P. apply in_or_app. right. now left.
  - intros a Ha. rewrite N. rewrite P in Ha.
    apply in_app_or in Ha. destruct Ha as [Ha | [<- | []]].
    + apply F in Ha. lia.
    + lia.
Qed.

(* ================================================================== *)
(** * Barcodes, continued *)
(* ================================================================== *)

Lemma matches_active_barcode (barcode : string) (p : Product.t) :
  matches_all [eq_barcode barcode; eq_is_active true] p = true
  <-> Product.barcode p = barcode /\ Product.is_active p = true.
Proof.
  unfold matches_all. simpl.
  rewrite andb_true_r, andb_true_iff, String.eqb_eq.
  destruct (Product.is_active p); simpl; tauto.
Qed.

Lemma filter_matches_barcode (barcode : string) (exclude : option id)
    (p : Product.t) :
  matches_all
    (match exclude with
     | Some i =>
         if Nat.eqb i 0 then [eq_barcode barcode; eq_is_active true]
         else [eq_barcode barcode; eq_is_active true] ++ [neq_id i]
     | None => [eq_barcode barcode; eq_is_active true]
     end) p = true
  <-> Product.barcode p = barcode /\ Product.is_active p = true
      /\ forall i, exclude = Some i -> i <> 0%nat -> Product.id p <> i.
Proof.
  destruct exclude as [i |]; [destruct (Nat.eqb_spec i 0) as [E | E] |].
  - rewrite matches_active_barcode. split; [| tauto].
    intros [Hb Ha]. repeat split; auto. intros j [= <-]. congruence.
  - rewrite matches_all_app, andb_true_iff, matches_active_barcode.
    unfold matches_all. simpl.
    rewrite andb_true_r, negb_true_iff, Nat.eqb_neq. split.
    + intros [[Hb Ha] Hne]. repeat split; auto. intros j [= <-]. auto.
    + intros (Hb & Ha & H). auto.
  - rewrite matches_active_barcode. split; [| tauto].
    intros [Hb Ha]. repeat split; auto. discriminate.
Qed.

(** X7.  When the store serves the request, [checkBarcodeExists] answers
    [true] exactly when an active product has the barcode, not counting
    the product to exclude when one is given; an identifier [0] to exclude
    excludes nothing.  It changes no table. *)
Theorem checkBarcodeExists_finds (s : store) (barcode : string)
    (excludeProductId : option id) :
  served s ->
  exists found,
    run (checkBarcodeExists barcode excludeProductId) s
    = (Success found, after_request s)
    /\ (found = true
        <-> exists p,
              In p (products s) /\ Product.barcode p = barcode
              /\ Product.is_active p = true
              /\ forall i, excludeProductId = Some i -> i <> 0%nat ->
                           Product.id p <> i).
Proof.
  intro Hs. unfold checkBarcodeExists, await. cbn [bind run].
  rewrite run_select by assumption. cbn [run].
  eexists. split; [reflexivity |].
  rewrite Nat.ltb_lt. split.
  - intro H.
    destruct (filter _ (products s)) as [| p l] eqn:F; [simpl in H; lia |].
    assert (In p (filter (matches_all
              (match excludeProductId with
               | Some i =>
                   if Nat.eqb i 0 then [eq_barcode barcode; eq_is_active true]
                   else [eq_barcode barcode; eq_is_active true] ++ [neq_id i]
               | None => [eq_barcode barcode; eq_is_active true]
               end)) (products s))) as Hin by (rewrite F; now left).
    apply filter_In in Hin. destruct Hin as [Hin M].
    apply filter_matches_barcode in M. exists p. tauto.
  - intros (p & Hin & M).
    assert (In p (filter (matches_all
              (match excludeProductId with
               | Some i =>
                   if Nat.eqb i 0 then [eq_barcode barcode; eq_is_active true]
                   else [eq_barcode barcode; eq_is_active true] ++ [neq_id i]
               | None => [eq_barcode barcode; eq_is_active true]
               end)) (products s))) as Hin'.
    { apply filter_In. split; [assumption |].
      now apply filter_matches_barcode. }
    destruct (filter _ (products s)); [destruct Hin' | simpl; lia].
Qed.

Lemma run_getProductByBarcode (barcode : string) (s : store) :
  served s ->
  run (getProductByBarcode barcode) s
  = (match single (Data (filter (matches_all [eq_barcode barcode])
                           (products s))) with
     | Error message => Failure message
     | Data data => Success data
     end, after_request s).
Proof.
  intro Hs. unfold getProductByBarcode, await. cbn [bind run].
  rewrite run_select by assumption. cbn [run].
  destruct (single _); reflexivity.
Qed.

(* ================================================================== *)
(** * The manager's dashboard *)
(* ================================================================== *)

Lemma patch_saved (nprice nstock : number) (p saved : Product.t) :
  (nstock = NaN \/ exists z, nstock = of_Z z) ->
  patch_product
    (numeric_fields
       (ProductPatch.set_price (Some (Number nprice))
          (ProductPatch.set_stock_quantity (Some (Number nstock))
             ProductPatch.empty))) p = Some saved ->
  Product.id saved = Product.id p
  /\ Num (Product.price saved) = nprice
  /\ of_Z (Product.stock_quantity saved) = nstock.
Proof.
  intros Hint Hpatch.
  destruct nprice as [| q].
  { exfalso. revert Hpatch. unfold patch_product, numeric_fields.
    cbn [ProductPatch.price ProductPatch.set_price
         ProductPatch.set_stock_quantity ProductPatch.empty
         ProductPatch.cost_price ProductPatch.stock_quantity
         ProductPatch.sale_price truthy_field coerce].
    change (truthy (Number NaN)) with false. cbv iota.
    cbn [ProductPatch.price ProductPatch.set_price
         ProductPatch.set_stock_quantity ProductPatch.empty
         ProductPatch.cost_price ProductPatch.stock_quantity
         ProductPatch.sale_price truthy_field coerce patch_number
         mandatory_number].
    destruct (defined_field _); discriminate. }
  destruct Hint as [-> | [z ->]].
  { exfalso. revert Hpatch. unfold patch_product, numeric_fields.
    cbn [ProductPatch.price ProductPatch.set_price
         ProductPatch.set_stock_quantity ProductPatch.empty
         ProductPatch.cost_price ProductPatch.stock_quantity
         ProductPatch.sale_price truthy_field coerce].
    destruct (truthy (Number (Num q)));
      cbn [ProductPatch.price ProductPatch.set_price
           ProductPatch.set_stock_quantity ProductPatch.empty
           ProductPatch.cost_price ProductPatch.stock_quantity
           ProductPatch.sale_price truthy_field coerce patch_number
           patch_nullable patch_integer mandatory_number];
      change (defined_field (Some (Number NaN))) with true; cbv iota;
      cbn [ProductPatch.price ProductPatch.set_price
           ProductPatch.set_stock_quantity ProductPatch.empty
           ProductPatch.cost_price ProductPatch.stock_quantity
           ProductPatch.sale_price truthy_field coerce patch_number
           patch_nullable patch_integer mandatory_number];
      rewrite ?parseFloat_Number;
      change (parseInt (Number NaN)) with NaN;
      change (to_int NaN) with (@None Z);
      cbn [mandatory_number]; discriminate. }
  destruct (patch_product_numeric
              (ProductPatch.set_price (Some (Number (Num q)))
                 (ProductPatch.set_stock_quantity (Some (Number (of_Z z)))
                    ProductPatch.empty))
              p (Number (Num q)) (Number (of_Z z)) q z)
    as (p' & Hp' & Hid & Hprice & Hstock);
    try reflexivity.
  - apply parseInt_of_Z.
  - rewrite Hpatch in Hp'. injection Hp' as <-.
    rewrite Hprice, Hstock. auto.
Qed.

(** X8.  [saveProductChanges] writes the price and the stock of a row in
    one update: all or nothing.  When it answers a saved product, that
    product is in the table under the identifier asked for, with the
    price and the stock the two inputs read as, and the ledger has no
    entry for the change of stock; when it fails, or answers no product,
    no table has changed. *)
Theorem saveProductChanges_all_or_nothing (s : store) (productId : id)
    (stockInput priceInput : string) :
  let s' := snd (run (AdminApp.saveProductChanges productId stockInput
                        priceInput) s) in
  match fst (run (AdminApp.saveProductChanges productId stockInput
                    priceInput) s) with
  | Success (Some saved) =>
      Product.id saved = productId
      /\ Num (Product.price saved) = parseFloat (Str priceInput)
      /\ of_Z (Product.stock_quantity saved) = parseInt (Str stockInput)
      /\ In saved (products s')
      /\ inventory_transactions s' = inventory_transactions s
  | Success None | Failure _ => same_tables s s'
  end.
Proof.
  cbv zeta. unfold AdminApp.saveProductChanges. rewrite run_updateProduct.
  destruct (hd None (outages s)) as [m |]; [repeat split |].
  destruct (update_rows _ _ _) as [[table changed] |] eqn:U;
    [| repeat split].
  cbn [fst snd].
  destruct (update_rows_changed _ _ _ _ _ U) as [Hnil Hin].
  destruct changed as [| saved changed]; simpl.
  - rewrite (Hnil eq_refl). repeat split.
  - destruct (Hin saved (or_introl eq_refl)) as (Ht & p & Hp & Hm & Hpatch).
    rewrite matches_eq_id in Hm. apply Nat.eqb_eq in Hm.
    apply patch_saved in Hpatch; [| apply parseInt_integer].
    destruct Hpatch as (Hid & Hprice & Hstock).
    repeat split; auto. congruence.
Qed.

(* ================================================================== *)
(** * The ledger *)
(* ================================================================== *)

Lemma insert_inventory_transaction_Some (rows : list Product.t)
    (row : NewInventoryTransaction.t) (r : InventoryTransaction.t) :
  insert_inventory_transaction rows row = Some r ->
  r = InventoryTransaction.make (NewInventoryTransaction.product_id row)
        (NewInventoryTransaction.type row) (InventoryTransaction.quantity r)
        (NewInventoryTransaction.user_id row)
        (NewInventoryTransaction.notes row)
  /\ to_int (NewInventoryTransaction.quantity row)
     = Some (InventoryTransaction.quantity r)
  /\ has_product (NewInventoryTransaction.product_id row) rows = true.
Proof.
  unfold insert_inventory_transaction.
  destruct (has_product _ _); [| discriminate].
  destruct (to_int _) as [z |]; [| discriminate].
  intros [= <-]. repeat split; reflexivity.
Qed.

(** X9.  What [createInventoryTransaction] does.  When it succeeds, the
    ledger has grown by the one entry it answers: for the product, the
    type and the notes it was given, with the quantity cut to a whole
    number, and attributed to the user of the session, whatever [user_id]
    the caller passed; no other table has changed.  When it fails, no
    table has changed; with nobody signed in it fails with
    ["User not authenticated"]. *)
Theorem createInventoryTransaction_outcome (s : store)
    (transactionData : TransactionData.t) :
  let s' := snd (run (createInventoryTransaction transactionData) s) in
  match fst (run (createInventoryTransaction transactionData) s) with
  | Success entry =>
      exists user,
        auth s = Session user
        /\ entry
           = InventoryTransaction.make
               (TransactionData.product_id transactionData)
               (TransactionData.type transactionData)
               (InventoryTransaction.quantity entry) user
               (TransactionData.notes transactionData)
        /\ of_Z (InventoryTransaction.quantity entry)
           = parseInt (Number (TransactionData.quantity transactionData))
        /\ inventory_transactions s' = inventory_transactions s ++ [entry]
        /\ products s' = products s
        /\ sales s' = sales s
        /\ sale_items s' = sale_items s
  | Failure error =>
      same_tables s s'
      /\ (auth s = NoSession -> error = "User not authenticated")
  end.
Proof.
  cbv zeta. rewrite run_createInventoryTransaction.
  destruct (auth s) as [m | | user]; simpl.
  - split; [repeat split | discriminate].
  - split; [repeat split | reflexivity].
  - destruct (hd None (outages s)) as [m |]; simpl.
    + split; [repeat split | discriminate].
    + destruct (insert_inventory_transaction _) as [r |] eqn:I; simpl.
      * apply insert_inventory_transaction_Some in I.
        destruct I as [Hr Hq]. simpl in Hr, Hq.
        exists user. split; [reflexivity |]. split; [assumption |].
        split; [| repeat split].
        symmetry. now apply to_int_parseInt.
      * split; [repeat split | discriminate].
Qed.

(* ================================================================== *)
(** * Sales that fail *)
(* ================================================================== *)

(** X10.  A [createSale] that fails has changed no stock, no sale line and
    no ledger entry; when nobody is signed in it has not reached the
    store at all. *)
Theorem createSale_failure (s : store) (saleData : SaleData.t)
    (error : string) :
  fst (run (createSale saleData) s) = Failure error ->
  let s' := snd (run (createSale saleData) s) in
  products s' = products s
  /\ sale_items s' = sale_items s
  /\ inventory_transactions s' = inventory_transactions s
  /\ ((forall user, auth s <> Session user) ->
      s' = s
      /\ (auth s = NoSession -> error = "User not authenticated")).
Proof.
  cbv zeta. rewrite run_createSale.
  destruct (auth s) as [m | | user].
  - intros [= <-]. repeat split. discriminate.
  - intros [= <-]. repeat split.
  - destruct (hd None (outages s)) as [m |].
    { intros _. do 3 (split; [reflexivity |]). intro H. now destruct (H user). }
    destruct (insert_sale _ _) as [sale |].
    2:{ intros _. do 3 (split; [reflexivity |]). intro H.
        now destruct (H user). }
    cbv zeta. destruct (hd None _) as [m |].
    { intros _. do 3 (split; [reflexivity |]). intro H. now destruct (H user). }
    destruct (insert_sale_items _ _ _) as [rows |].
    + discriminate.
    + intros _. do 3 (split; [reflexivity |]). intro H. now destruct (H user).
Qed.

(** X11.  [createSale] does not take back the sale it has recorded.  With
    a cashier signed in, a first request that the store serves and a total
    that is a number, a [createSale] that fails has failed on the sale
    lines: the sale row stays in [sales], with no line, no change of
    stock and no ledger entry. *)
Theorem createSale_no_rollback (s : store) (saleData : SaleData.t)
    (user error : string) (total : Q) :
  auth s = Session user ->
  served s ->
  SaleData.total saleData = Num total ->
  fst (run (createSale saleData) s) = Failure error ->
  let s' := snd (run (createSale saleData) s) in
  sales s'
  = sales s ++ [Sale.make (next_id s) user total
                  (SaleData.payment_method saleData)]
  /\ sale_items s' = sale_items s
  /\ products s' = products s
  /\ inventory_transactions s' = inventory_transactions s
  /\ (hd None (tl (outages s)) = Some error
      \/ (error = column_rejects
          /\ insert_sale_items
               (sales s ++ [Sale.make (next_id s) user total
                              (SaleData.payment_method saleData)])
               (products s)
               (map (saleItem (next_id s)) (SaleData.items saleData)) = None)).
Proof.
  intros A Hs T. cbv zeta.
  rewrite run_createSale, A, Hs, T, parseFloat_Number.
  cbn [insert_sale mandatory_number NewSale.total NewSale.cashier_id
       NewSale.payment_method Sale.id].
  cbv zeta.
  cbn [outages sales products with_next_id with_sales after_request
       with_outages].
  destruct (hd None (tl (outages s))) as [m |].
  - intros [= <-]. repeat split. now left.
  - destruct (insert_sale_items _ _ _) as [rows |] eqn:I.
    + discriminate.
    + intros [= <-]. repeat split. right. split; reflexivity.
Qed.

(** X12.  Whatever the store fails and however [createSale] ends, a
    product that is not in the cart keeps its stock and gets no ledger
    entry. *)
Theorem createSale_leaves_other_products (s : store) (saleData : SaleData.t)
    (pid : id) :
  ~ In pid (map CartItem.id (SaleData.items saleData)) ->
  let s' := snd (run (createSale saleData) s) in
  stock_of pid (products s') = stock_of pid (products s)
  /\ entries_of pid (inventory_transactions s')
     = entries_of pid (inventory_transactions s).
Proof.
  intros Hno. cbv zeta. rewrite run_createSale.
  destruct (auth s) as [m | | user]; try (split; reflexivity).
  destruct (hd None (outages s)) as [m |]; [split; reflexivity |].
  destruct (insert_sale _ _) as [sale |]; [| split; reflexivity].
  cbv zeta. destruct (hd None _) as [m |]; [split; reflexivity |].
  destruct (insert_sale_items _ _ _) as [rows |]; [| split; reflexivity].
  cbn [snd].
  match goal with
  | |- context [run (updateStocks ?i ?u ?l) ?s0] =>
      destruct (updateStocks_leaves i u l pid s0 Hno)
        as (_ & _ & _ & _ & _ & St & added & Led & E)
  end.
  split.
  - rewrite St. reflexivity.
  - rewrite Led, entries_of_app, E, app_nil_r. reflexivity.
Qed.

(* ================================================================== *)
(** * Restocking, continued *)
(* ================================================================== *)

(** X13.  [restockProduct] fails exactly when its lookup of the product
    fails, whatever the reason (no such product, or a request the store
    failed), and always with ["Product not found"]; no table has changed
    then. *)
Theorem restockProduct_failure (s : store) (productId : id) (quantity : value)
    (notes : string) :
  ((exists message, fst (run (getProductById productId) s) = Failure message)
   <-> fst (run (restockProduct productId quantity notes) s)
       = Failure "Product not found")
  /\ forall error,
       fst (run (restockProduct productId quantity notes) s) = Failure error ->
       error = "Product not found"
       /\ same_tables s (snd (run (restockProduct productId quantity notes) s)).
Proof.
  unfold restockProduct. rewrite run_bind.
  pose proof (getProductById_store productId s) as St.
  destruct (run (getProductById productId) s) as [[p | e] s1] eqn:R.
  - rewrite run_then, run_then. simpl. split.
    + split; [intros [m [=]] | discriminate].
    + discriminate.
  - simpl in St. subst s1. simpl. split.
    + split; [reflexivity | intros _; now exists e].
    + intros error [= <-]. split; [reflexivity | repeat split].
Qed.

(** X14.  What a restock does when nothing fails.  On a store that fails
    nothing, with a user signed in, [restockProduct] on an existing
    product with a quantity that reads as the whole number [z] (of any
    sign: the quantity is not checked) sets the stock of the product to
    its stock plus [z], leaves the stock of every other product as it was,
    and appends to the ledger one entry for the product, of type
    ["restock"], with quantity [z], by that user, with the notes given or,
    when none are given, [Restocked <quantity> units]. *)
Theorem restockProduct_restocks (s : store) (p : Product.t) (quantity : value)
    (z : Z) (notes user : string) :
  outages s = [] -> auth s = Session user ->
  unique_ids (products s) -> In p (products s) ->
  parseInt quantity = of_Z z ->
  let s' := snd (run (restockProduct (Product.id p) quantity notes) s) in
  stock_of (Product.id p) (products s') = Some (Product.stock_quantity p + z)
  /\ (forall j, j <> Product.id p ->
                stock_of j (products s') = stock_of j (products s))
  /\ inventory_transactions s'
     = inventory_transactions s
       ++ [InventoryTransaction.make (Product.id p) "restock" z user
             (if nonempty notes then notes
              else ("Restocked " ++ to_string quantity ++ " units")%string)]
  /\ sales s' = sales s
  /\ sale_items s' = sale_items s.
Proof.
  intros O A U Hin Hq. cbv zeta.
  pose proof (quiet_after_request s O) as O1.
  unfold restockProduct. run_bind.
  rewrite run_getProductById_found; auto using quiet_served.
  rewrite run_then, run_then.
  rewrite run_updateProduct, Hq, nadd_of_Z.
  fold (stock_patch (of_Z (Product.stock_quantity p + z))).
  rewrite numeric_fields_stock, parseInt_of_Z.
  rewrite O1. cbn [hd].
  destruct (update_rows_stock (Product.id p)
              (Product.stock_quantity p + z) (products (after_request s)))
    as [changed E].
  rewrite E. cbv beta iota. cbn [snd].
  rewrite run_createInventoryTransaction.
  simpl. rewrite A, O. simpl.
  rewrite insert_inventory_transaction_integer
    by (apply has_product_In; rewrite map_map; apply in_map_iff;
        exists p; split; [now rewrite Nat.eqb_refl | assumption]).
  simpl.
  split; [| split; [| repeat split]].
  - apply stock_of_written. now apply in_map.
  - intros j Hj.
    now apply (proj2 (update_rows_frame _ _ _ _ _ E)).
Qed.

(* ================================================================== *)
(** * Categories *)
(* ================================================================== *)

Lemma In_fold_set_add (c : string) (values set : list string) :
  In c (fold_left set_add values set) <-> In c set \/ In c values.
Proof.
  revert set. induction values as [| v values IH]; intro set; simpl.
  - tauto.
  - rewrite IH. unfold set_add.
    destruct (existsb (String.eqb v) set) eqn:E.
    + apply existsb_exists in E. destruct E as (x & Hx & E).
      apply String.eqb_eq in E. subst x. intuition (subst; auto).
    + rewrite in_app_iff. simpl. intuition.
Qed.

Lemma NoDup_fold_set_add (values set : list string) :
  NoDup set -> NoDup (fold_left set_add values set).
Proof.
  revert set. induction values as [| v values IH]; intros set N; simpl.
  - assumption.
  - apply IH. unfold set_add.
    destruct (existsb (String.eqb v) set) eqn:E; [assumption |].
    apply NoDup_app; [assumption | repeat constructor; intros [] |].
    intros x Hx [<- | []].
    assert (existsb (String.eqb v) set = true) as E'.
    { apply existsb_exists. exists v. split; [assumption |].
      apply String.eqb_refl. }
    congruence.
Qed.

Lemma run_getCategories (s : store) :
  served s ->
  run getCategories s
  = (Success (new_Set (map Product.category
                         (filter (fun p => Product.is_active p)
                            (products s)))),
     after_request s).
Proof.
  intro Hs. unfold getCategories, await. cbn [bind run].
  rewrite run_select by assumption. cbn [run].
  rewrite (filter_ext _ _ matches_active). reflexivity.
Qed.

Lemma In_categories (c : string) (rows : list Product.t) :
  In c (new_Set (map Product.category
                   (filter (fun p => Product.is_active p) rows)))
  <-> exists p, In p rows /\ Product.is_active p = true
                /\ Product.category p = c.
Proof.
  unfold new_Set. rewrite In_fold_set_add, in_map_iff. simpl. split.
  - intros [[] | (p & Hc & Hin)]. apply filter_In in Hin.
    exists p. tauto.
  - intros (p & Hin & Ha & Hc). right. exists p. split; [assumption |].
    apply filter_In. auto.
Qed.

(** X15.  When the store serves the request, [getCategories] answers the
    categories of the active products, each once: a category is listed
    exactly when an active product has it. *)
Theorem getCategories_distinct (s : store) :
  served s ->
  exists categories,
    run getCategories s = (Success categories, after_request s)
    /\ NoDup categories
    /\ forall c, In c categories
                 <-> exists p, In p (products s)
                               /\ Product.is_active p = true
                               /\ Product.category p = c.
Proof.
  intro Hs. rewrite run_getCategories by assumption.
  eexists. split; [reflexivity |]. split.
  - apply NoDup_fold_set_add. constructor.
  - intro c. exact (In_categories c (products s)).
Qed.

(* ================================================================== *)
(** * The cart *)
(* ================================================================== *)

Lemma find_by_id (p : Product.t) (rows : list Product.t) :
  unique_ids rows -> In p rows ->
  find (fun a => Nat.eqb (Product.id a) (Product.id p)) rows = Some p.
Proof.
  intros U Hin.
  destruct (find _ rows) as [a |] eqn:F.
  - apply find_some in F. destruct F as [Ha E]. apply Nat.eqb_eq in E.
    f_equal. now apply (unique_ids_same rows).
  - apply (find_none _ _ F) in Hin. simpl in Hin.
    rewrite Nat.eqb_refl in Hin. discriminate.
Qed.

Lemma cart_assign_ids (i : id) (f : CartEntry.t -> CartEntry.t)
    (cart : list CartEntry.t) :
  (forall item, CartEntry.id (f item) = CartEntry.id item) ->
  map CartEntry.id (cart_assign i f cart) = map CartEntry.id cart.
Proof.
  intro Hf. induction cart as [| item rest IH]; simpl; [reflexivity |].
  destruct (Nat.eqb (CartEntry.id item) i); simpl.
  - now rewrite Hf.
  - now rewrite IH.
Qed.

Lemma cart_find_None (i : id) (cart : list CartEntry.t) :
  cart_find i cart = None -> ~ In i (map CartEntry.id cart).
Proof.
  unfold cart_find. intros F Hin. apply in_map_iff in Hin.
  destruct Hin as (item & Hid & Hin).
  apply (find_none _ _ F) in Hin. simpl in Hin.
  rewrite Hid, Nat.eqb_refl in Hin. discriminate.
Qed.

Lemma cart_find_Some (i : id) (cart : list CartEntry.t) (found : CartEntry.t) :
  cart_find i cart = Some found -> In found cart /\ CartEntry.id found = i.
Proof.
  unfold cart_find. intro F. apply find_some in F.
  destruct F as [Hin E]. now apply Nat.eqb_eq in E.
Qed.

(** What [cart_assign] does to the entries: the one [cart_find] answers
    is changed, the others stay. *)
Lemma In_cart_assign (i : id) (f : CartEntry.t -> CartEntry.t)
    (cart : list CartEntry.t) (found item : CartEntry.t) :
  cart_find i cart = Some found ->
  In item (cart_assign i f cart) -> item = f found \/ In item cart.
Proof.
  unfold cart_find. induction cart as [| a rest IH]; simpl; [discriminate |].
  destruct (Nat.eqb (CartEntry.id a) i).
  - intros [= <-] [<- | Hin]; auto.
  - intros F [<- | Hin]; auto. destruct (IH F Hin); auto.
Qed.

Lemma NoDup_filter_map {A B : Type} (f : A -> B) (g : A -> bool) (l : list A) :
  NoDup (map f l) -> NoDup (map f (filter g l)).
Proof.
  induction l as [| a l IH]; simpl; [auto |].
  intro N. inversion N as [| ? ? Hno N']. subst.
  destruct (g a); simpl; auto.
  constructor; auto. intro Hin. apply Hno.
  apply in_map_iff in Hin. destruct Hin as (b & E & Hb).
  apply filter_In in Hb. apply in_map_iff. exists b. tauto.
Qed.

(** No action on the cart changes the products the till lists. *)
Lemma act_products (this : PosApp.t) (a : cart_action) :
  PosApp.products (act this a) = PosApp.products this.
Proof.
  destruct a as [i | i q | i |]; simpl; try reflexivity.
  - unfold addToCart.
    destruct (find _ _) as [p |]; [| reflexivity].
    destruct (_ =? 0); [reflexivity |].
    destruct (cart_find _ _) as [e |]; [| reflexivity].
    destruct (_ <? _); reflexivity.
  - unfold updateCartItemQuantity.
    destruct (q <=? 0); [reflexivity |].
    destruct (cart_find _ _) as [e |]; [| reflexivity].
    destruct (_ <=? _); reflexivity.
Qed.

Lemma acts_products (actions : list cart_action) (this : PosApp.t) :
  PosApp.products (acts actions this) = PosApp.products this.
Proof.
  revert this. induction actions as [| a actions IH]; intro this; simpl.
  - reflexivity.
  - unfold acts in IH. rewrite IH. apply act_products.
Qed.

Lemma act_unique (this : PosApp.t) (a : cart_action) :
  NoDup (map CartEntry.id (PosApp.cart this)) ->
  NoDup (map CartEntry.id (PosApp.cart (act this a))).
Proof.
  intro N. destruct a as [i | i q | i |]; simpl.
  - unfold addToCart.
    destruct (find _ _) as [p |] eqn:Fp; [| assumption].
    destruct (_ =? 0); [assumption |].
    destruct (cart_find _ _) as [e |] eqn:Fe.
    + destruct (_ <? _); [| assumption]. simpl.
      now rewrite cart_assign_ids.
    + simpl. rewrite map_app. simpl.
      apply NoDup_app; [assumption | repeat constructor; intros [] |].
      intros x Hx [<- | []].
      apply find_some in Fp. destruct Fp as [_ E]. apply Nat.eqb_eq in E.
      rewrite E in Hx. now apply cart_find_None in Fe.
  - unfold updateCartItemQuantity.
    destruct (q <=? 0); [simpl; now apply NoDup_filter_map |].
    destruct (cart_find _ _) as [e |]; [| assumption].
    destruct (_ <=? _); [| assumption]. simpl.
    now rewrite cart_assign_ids.
  - now apply NoDup_filter_map.
  - constructor.
Qed.


Lemma cart_entries_unique (listing : list Product.t)
    (actions : list cart_action) :
  NoDup (map CartEntry.id (PosApp.cart (acts actions (opened listing)))).
Proof.
  unfold acts.
  assert (forall this,
            NoDup (map CartEntry.id (PosApp.cart this)) ->
            NoDup (map CartEntry.id (PosApp.cart (fold_left act actions this))))
    as G.
  { induction actions as [| a actions IH]; intros this N; simpl; auto.
    apply IH. now apply act_unique. }
  apply G. constructor.
Qed.


(** An entry of the cart and the product it was made from: the first
    product the till lists under its identifier, with a stock other than
    zero, which is the [maxQuantity] of the entry; the entry holds at
    least one unit, and no more than that stock unless it holds exactly
    one. *)
Lemma act_bounded (this : PosApp.t) (a : cart_action) :
  Forall (fun item =>
            exists product,
              listed (CartEntry.id item) this = Some product
              /\ CartEntry.maxQuantity item = Product.stock_quantity product
              /\ Product.stock_quantity product <> 0
              /\ 1 <= CartEntry.quantity item
              /\ (CartEntry.quantity item <= Product.stock_quantity product
                  \/ CartEntry.quantity item = 1))
    (PosApp.cart this) ->
  Forall (fun item =>
            exists product,
              listed (CartEntry.id item) (act this a) = Some product
              /\ CartEntry.maxQuantity item = Product.stock_quantity product
              /\ Product.stock_quantity product <> 0
              /\ 1 <= CartEntry.quantity item
              /\ (CartEntry.quantity item <= Product.stock_quantity product
                  \/ CartEntry.quantity item = 1))
    (PosApp.cart (act this a)).
Proof.
  rewrite !Forall_forall. intros H item. unfold listed in *.
  rewrite act_products.
  destruct a as [i | i q | i |]; simpl.
  - unfold addToCart.
    destruct (find _ _) as [p |] eqn:Fp; [| apply H].
    destruct (Product.stock_quantity p =? 0) eqn:Z0; [apply H |].
    destruct (cart_find _ _) as [e |] eqn:Fe.
    + destruct (CartEntry.quantity e <? Product.stock_quantity p) eqn:Lt;
        [| apply H].
      simpl. intro Hin.
      destruct (In_cart_assign _ _ _ _ _ Fe Hin) as [-> | Hin']; auto.
      apply cart_find_Some in Fe. destruct Fe as [He Hid].
      destruct (H e He) as (p' & L & Hm & Hz & Hq & Hb).
      rewrite Hid, Fp in L. injection L as <-.
      exists p. simpl. rewrite Hid.
      apply Z.ltb_lt in Lt. repeat split; auto; lia.
    + simpl. intro Hin. apply in_app_or in Hin.
      destruct Hin as [Hin | [<- | []]]; auto.
      exists p. simpl.
      pose proof (find_some _ _ Fp) as [Hp E]. apply Nat.eqb_eq in E.
      rewrite E, Fp. apply Z.eqb_neq in Z0.
      repeat split; auto; lia.
  - unfold updateCartItemQuantity.
    destruct (q <=? 0) eqn:Q.
    + simpl. intro Hin. apply filter_In in Hin. now apply H.
    + destruct (cart_find _ _) as [e |] eqn:Fe; [| apply H].
      destruct (q <=? CartEntry.maxQuantity e) eqn:Le; [| apply H].
      simpl. intro Hin.
      destruct (In_cart_assign _ _ _ _ _ Fe Hin) as [-> | Hin']; auto.
      apply cart_find_Some in Fe. destruct Fe as [He Hid].
      destruct (H e He) as (p' & L & Hm & Hz & Hq & Hb).
      exists p'. simpl. apply Z.leb_gt in Q. apply Z.leb_le in Le.
      repeat split; auto; lia.
  - intro Hin. apply filter_In in Hin. now apply H.
  - intros [].
Qed.

Lemma cart_entries_bounded (listing : list Product.t)
    (actions : list cart_action) :
  Forall (fun item =>
            exists product,
              find (fun p => Nat.eqb (Product.id p) (CartEntry.id item))
                listing = Some product
              /\ CartEntry.maxQuantity item = Product.stock_quantity product
              /\ Product.stock_quantity product <> 0
              /\ 1 <= CartEntry.quantity item
              /\ (CartEntry.quantity item <= Product.stock_quantity product
                  \/ CartEntry.quantity item = 1))
    (PosApp.cart (acts actions (opened listing))).
Proof.
  assert (forall this,
            Forall (fun item =>
                      exists product,
                        listed (CartEntry.id item) this = Some product
                        /\ CartEntry.maxQuantity item
                           = Product.stock_quantity product
                        /\ Product.stock_quantity product <> 0
                        /\ 1 <= CartEntry.quantity item
                        /\ (CartEntry.quantity item
                            <= Product.stock_quantity product
                            \/ CartEntry.quantity item = 1))
              (PosApp.cart this) ->
            Forall (fun item =>
                      exists product,
                        listed (CartEntry.id item) (acts actions this)
                        = Some product
                        /\ CartEntry.maxQuantity item
                           = Product.stock_quantity product
                        /\ Product.stock_quantity product <> 0
                        /\ 1 <= CartEntry.quantity item
                        /\ (CartEntry.quantity item
                            <= Product.stock_quantity product
                            \/ CartEntry.quantity item = 1))
              (PosApp.cart (acts actions this))) as G.
  { unfold acts.
    induction actions as [| a actions IH]; intros this0 N; simpl; auto.
    apply IH. now apply act_bounded. }
  specialize (G (opened listing) (Forall_nil _)).
  unfold listed in G. rewrite acts_products in G. exact G.
Qed.

(** X16.  Whatever the cashier does to the cart of a till ([addToCart],
    [updateCartItemQuantity] with the whole numbers the buttons of the
    cart pass, [removeFromCart], [clearCart], in any order and for any
    identifiers), and whatever products the till lists: no two entries of
    the cart are for the same product; every entry is for the first
    product listed under its identifier, whose stock is not zero and is
    the [maxQuantity] of the entry; and every entry holds at least one
    unit, and no more than that stock unless it holds exactly one (a
    product listed with a stock below zero can be put in the cart, once).
    *)
Theorem cart_entries_are_distinct_and_positive
    (listing : list Product.t) (actions : list cart_action) :
  let this := acts actions (opened listing) in
  NoDup (map CartEntry.id (PosApp.cart this))
  /\ Forall (fun item =>
               exists product,
                 find (fun p => Nat.eqb (Product.id p) (CartEntry.id item))
                   listing = Some product
                 /\ CartEntry.maxQuantity item = Product.stock_quantity product
                 /\ Product.stock_quantity product <> 0
                 /\ 1 <= CartEntry.quantity item
                 /\ (CartEntry.quantity item <= Product.stock_quantity product
                     \/ CartEntry.quantity item = 1))
       (PosApp.cart this).
Proof.
  split; [apply cart_entries_unique | apply cart_entries_bounded].
Qed.

Lemma covered_act (this : PosApp.t) (a : cart_action) (item : CartEntry.t) :
  covered this item -> covered (act this a) item.
Proof.
  unfold covered, listed. now rewrite act_products.
Qed.

Lemma act_covered (this : PosApp.t) (a : cart_action) :
  (forall p, In p (PosApp.products this) -> 0 <= Product.stock_quantity p) ->
  Forall (covered this) (PosApp.cart this) ->
  Forall (covered (act this a)) (PosApp.cart (act this a)).
Proof.
  rewrite !Forall_forall. intros Hstock H item Hin.
  apply covered_act. revert Hin.
  destruct a as [i | i q | i |]; simpl.
  - unfold addToCart.
    destruct (find _ _) as [p |] eqn:Fp; [| apply H].
    destruct (Product.stock_quantity p =? 0) eqn:Z0; [apply H |].
    destruct (cart_find _ _) as [e |] eqn:Fe.
    + destruct (CartEntry.quantity e <? Product.stock_quantity p) eqn:Lt;
        [| apply H].
      simpl. intro Hin.
      destruct (In_cart_assign _ _ _ _ _ Fe Hin) as [-> | Hin']; auto.
      apply cart_find_Some in Fe. destruct Fe as [He Hid].
      destruct (H e He) as (p' & L & Hn & Hp & Hm & Hq).
      unfold listed in L. rewrite Hid, Fp in L. injection L as <-.
      exists p. unfold listed. simpl. rewrite Hid.
      apply Z.ltb_lt in Lt. repeat split; auto; lia.
    + simpl. intro Hin. apply in_app_or in Hin.
      destruct Hin as [Hin | [<- | []]]; auto.
      exists p. unfold listed. simpl.
      pose proof (find_some _ _ Fp) as [Hp E]. apply Nat.eqb_eq in E.
      rewrite E, Fp. apply Hstock in Hp. apply Z.eqb_neq in Z0.
      repeat split; auto; lia.
  - unfold updateCartItemQuantity.
    destruct (q <=? 0) eqn:Q.
    + simpl. intro Hin. apply filter_In in Hin. now apply H.
    + destruct (cart_find _ _) as [e |] eqn:Fe; [| apply H].
      destruct (q <=? CartEntry.maxQuantity e) eqn:Le; [| apply H].
      simpl. intro Hin.
      destruct (In_cart_assign _ _ _ _ _ Fe Hin) as [-> | Hin']; auto.
      apply cart_find_Some in Fe. destruct Fe as [He Hid].
      destruct (H e He) as (p' & L & Hn & Hp & Hm & Hq).
      exists p'. simpl. apply Z.leb_gt in Q. apply Z.leb_le in Le.
      repeat split; auto; lia.
  - intro Hin. apply filter_In in Hin. now apply H.
  - intros [].
Qed.

Lemma acts_covered (actions : list cart_action) (this : PosApp.t) :
  (forall p, In p (PosApp.products this) -> 0 <= Product.stock_quantity p) ->
  Forall (covered this) (PosApp.cart this) ->
  Forall (covered (acts actions this)) (PosApp.cart (acts actions this)).
Proof.
  revert this. unfold acts.
  induction actions as [| a actions IH]; intros this Hstock H; simpl.
  - assumption.
  - apply IH.
    + now rewrite act_products.
    + now apply act_covered.
Qed.

(** An entry of the cart of a till whose products all have a stock of
    zero or more: the product it was made from, and its quantity. *)
Lemma cart_entry_covered (listing : list Product.t)
    (actions : list cart_action) (item : CartEntry.t) :
  (forall p, In p listing -> 0 <= Product.stock_quantity p) ->
  In item (PosApp.cart (acts actions (opened listing))) ->
  exists product,
    In product listing
    /\ Product.id product = CartEntry.id item
    /\ CartEntry.maxQuantity item = Product.stock_quantity product
    /\ 1 <= CartEntry.quantity item <= Product.stock_quantity product.
Proof.
  intros Hstock Hin.
  pose proof (acts_covered actions (opened listing) Hstock (Forall_nil _)) as C.
  rewrite Forall_forall in C. destruct (C item Hin) as (p & L & _ & _ & Hm & Hq).
  unfold listed in L. rewrite acts_products in L. simpl in L.
  apply find_some in L. destruct L as [Hp E]. apply Nat.eqb_eq in E.
  exists p. auto.
Qed.

(** X17.  The cart stays within the stock exactly when no listed product
    has a stock below zero.  For a till that lists each product once: if
    every listed product has a stock of zero or more, then after any run
    of actions every entry of the cart is for a listed product, with
    [maxQuantity] the stock of that product and a quantity from 1 up to
    that stock; and if a listed product has a stock below zero, some run
    of actions puts an entry in the cart that breaks this ([addToCart]
    turns away a stock of exactly zero only). *)
Theorem cart_stays_within_stock (listing : list Product.t) :
  unique_ids listing ->
  ((forall p, In p listing -> 0 <= Product.stock_quantity p)
   <-> forall actions item,
         In item (PosApp.cart (acts actions (opened listing))) ->
         exists product,
           In product listing
           /\ Product.id product = CartEntry.id item
           /\ CartEntry.maxQuantity item = Product.stock_quantity product
           /\ 1 <= CartEntry.quantity item <= Product.stock_quantity product).
Proof.
  intro U. split.
  - intros Hstock actions item. now apply cart_entry_covered.
  - intros H p Hp.
    destruct (Z.eqb_spec (Product.stock_quantity p) 0) as [E | E]; [lia |].
    specialize (H [AddToCart (Product.id p)]).
    unfold acts, opened in H. simpl in H. unfold addToCart in H. simpl in H.
    rewrite (find_by_id p listing U Hp) in H.
    destruct (Z.eqb_spec (Product.stock_quantity p) 0) as [E' | _]; [lia |].
    simpl in H.
    destruct (H _ (or_introl eq_refl)) as (product & Hin & Hid & _ & Hq).
    simpl in Hid, Hq.
    assert (product = p) as -> by now apply (unique_ids_same listing).
    lia.
Qed.

(* ================================================================== *)
(** * A sale rung up at the till *)
(* ================================================================== *)



Lemma total_of_cart (cart : list CartEntry.t) (start : number) :
  fold_left
    (fun sum item =>
       nadd sum (nmul (CartItem.price item) (CartItem.quantity item)))
    (map cartItem cart) start
  = fold_left
      (fun sum item =>
         nadd sum (nmul (CartEntry.price item)
                     (of_Z (CartEntry.quantity item))))
      cart start.
Proof.
  revert start. induction cart as [| item cart IH]; intro start; simpl; auto.
Qed.

Lemma total_is_a_number (cart : list CartEntry.t) (start : Q) :
  Forall (fun item => 1 <= CartEntry.quantity item
                      /\ exists q, CartEntry.price item = Num q) cart ->
  exists total,
    fold_left
      (fun sum item =>
         nadd sum (nmul (CartEntry.price item)
                     (of_Z (CartEntry.quantity item))))
      cart (Num start) = Num total.
Proof.
  revert start. induction cart as [| item cart IH]; intros start H; simpl.
  - now exists start.
  - inversion H as [| ? ? [_ [q Hq]] H']. subst. rewrite Hq.
    unfold of_Z, nmul, nadd. apply IH. assumption.
Qed.

Lemma insert_sale_items_cart (sale_rows : list Sale.t)
    (product_rows : list Product.t) (saleId : id) (cart : list CartEntry.t) :
  has_sale saleId sale_rows = true ->
  Forall (fun item => has_product (CartEntry.id item) product_rows = true)
    cart ->
  Forall (fun item => 1 <= CartEntry.quantity item
                      /\ exists q, CartEntry.price item = Num q) cart ->
  exists lines,
    insert_sale_items sale_rows product_rows
      (map (saleItem saleId) (map cartItem cart)) = Some lines
    /\ List.length lines = List.length cart.
Proof.
  intros Hsale.
  induction cart as [| item cart IH]; intros R H; simpl.
  - now exists [].
  - inversion H as [| ? ? [_ [q Hq]] H']. subst.
    inversion R as [| ? ? Hproduct R']. subst.
    destruct (IH R' H') as (lines & -> & L).
    unfold insert_sale_item, saleItem, cartItem. simpl.
    rewrite Hsale, Hproduct.
    rewrite Hq, parseInt_of_Z, to_int_of_Z, parseFloat_Number. simpl.
    unfold of_Z, nmul. simpl.
    eexists. split; [reflexivity |]. simpl. now rewrite L.
Qed.


Lemma run_createSale_quiet (saleData : SaleData.t) (s : store)
    (user : string) (total : Q) (rows : list SaleItem.t) :
  auth s = Session user -> outages s = [] ->
  SaleData.total saleData = Num total ->
  insert_sale_items
    (sales s ++ [Sale.make (next_id s) user total
                   (SaleData.payment_method saleData)])
    (products s)
    (map (saleItem (next_id s)) (SaleData.items saleData)) = Some rows ->
  let sale :=
    Sale.make (next_id s) user total (SaleData.payment_method saleData) in
  run (createSale saleData) s
  = (Success (SaleResult.make sale
                (map (saleItem (next_id s)) (SaleData.items saleData))
                (next_id s)),
     snd (run (updateStocks (next_id s) user (SaleData.items saleData))
            (with_sale_items (sale_items s ++ rows)
               (after_request
                  (with_next_id (S (next_id s))
                     (with_sales (sales s ++ [sale]) (after_request s))))))).
Proof.
  intros A O T I. cbv zeta.
  rewrite run_createSale, A, O, T, parseFloat_Number.
  cbn [hd insert_sale mandatory_number NewSale.total NewSale.cashier_id
       NewSale.payment_method Sale.id].
  cbv zeta.
  cbn [outages sales products with_next_id with_sales after_request
       with_outages].
  rewrite O. cbn [tl hd]. rewrite I. reflexivity.
Qed.

(** The sale just inserted is there for its lines to refer to. *)
Lemma has_sale_last (rows : list Sale.t) (sale : Sale.t) :
  has_sale (Sale.id sale) (rows ++ [sale]) = true.
Proof.
  unfold has_sale. rewrite existsb_app. simpl.
  now rewrite Nat.eqb_refl, orb_true_r.
Qed.





(* ================================================================== *)
(** * What the till shows *)
(* ================================================================== *)

(** X20.  Searching at the till hides nothing that the search of
    [getProducts] finds.  When the store serves both requests, for a
    category and a search string without [ILIKE] wildcards, every product
    that [getProducts] answers for that category and that search is among
    the products [filterProducts] shows from the loaded list. *)
Theorem filterProducts_finds_what_getProducts_finds (s : store)
    (category search : string) (cart : list CartEntry.t)
    (loaded found : list Product.t) :
  served s -> wildcard_free search = true -> nonempty category = true ->
  fst (run (getProducts (Filters.make None None (Some true))) s)
  = Success loaded ->
  fst (run (getProducts
              (Filters.make (Some category) (Some search) (Some true))) s)
  = Success found ->
  incl found (filterProducts (PosApp.make loaded cart category search)).
Proof.
  intros Hs W Hc.
  rewrite run_loadProducts by assumption.
  rewrite run_getProducts_selected; auto.
  2:{ simpl. now intros t [= <-]. }
  simpl. intros [= <-] [= <-] p Hin.
  apply In_order_by_name, filter_In in Hin. destruct Hin as [Hin Hsel].
  unfold selected in Hsel. simpl in Hsel. rewrite Hc in Hsel. simpl in Hsel.
  apply andb_true_iff in Hsel. destruct Hsel as [Hsel Hact].
  apply andb_true_iff in Hsel. destruct Hsel as [Hcat Hsearch].
  assert (In p (order_by_name
                  (filter (fun p => Product.is_active p) (products s))))
    as Hloaded.
  { apply In_order_by_name, filter_In. auto. }
  unfold filterProducts. simpl.
  destruct (String.eqb category "All") eqn:All; simpl in *.
  - destruct (nonempty search); [| assumption].
    apply filter_In. split; [assumption |]. now rewrite Hsearch.
  - assert (In p (filter (fun product =>
                            String.eqb (Product.category product) category)
                    (order_by_name
                       (filter (fun p => Product.is_active p) (products s)))))
      as Hcategory
      by (apply filter_In; auto).
    destruct (nonempty search); [| assumption].
    apply filter_In. split; [assumption |]. now rewrite Hsearch.
Qed.

(** X21.  The category buttons of the till, and what they lead to.  When
    the store serves the requests, the buttons [loadCategories] makes are
    ["All"] and then the categories of the active products, each once: a
    category has a button exactly when an active product has it.  With no
    search string, the button of a category shows the active products of
    that category (all active products, for a category named ["All"]),
    and no other product; there is at least one. *)
Theorem category_buttons_list_products (s : store) (cart : list CartEntry.t) :
  served s ->
  exists categories loaded,
    fst (run loadCategories s) = Some ("All" :: categories)
    /\ fst (run (getProducts (Filters.make None None (Some true))) s)
       = Success loaded
    /\ NoDup categories
    /\ (forall c, In c categories
                  <-> exists p, In p (products s)
                                /\ Product.is_active p = true
                                /\ Product.category p = c)
    /\ forall c, In c categories ->
         (exists p, In p (filterProducts (PosApp.make loaded cart c "")))
         /\ forall p,
              In p (filterProducts (PosApp.make loaded cart c ""))
              <-> In p (products s)
                  /\ Product.is_active p = true
                  /\ (c = "All" \/ Product.category p = c).
Proof.
  intro Hs. unfold loadCategories. rewrite run_bind.
  rewrite run_loadProducts, run_getCategories by assumption.
  do 2 eexists. split; [reflexivity |]. split; [reflexivity |].
  split; [apply NoDup_fold_set_add; constructor |].
  split; [intro c; exact (In_categories c (products s)) |].
  intros c Hc.
  assert (forall p,
            In p (filterProducts
                    (PosApp.make
                       (order_by_name
                          (filter (fun p => Product.is_active p) (products s)))
                       cart c ""))
            <-> In p (products s)
                /\ Product.is_active p = true
                /\ (c = "All" \/ Product.category p = c)) as Shown.
  { intro p. unfold filterProducts. simpl.
    destruct (String.eqb_spec c "All") as [E | E]; simpl.
    - rewrite In_order_by_name, filter_In. tauto.
    - rewrite filter_In, In_order_by_name, filter_In, String.eqb_eq.
      intuition congruence. }
  split; [| exact Shown].
  apply In_categories in Hc. destruct Hc as (p & Hin & Hact & Hcat).
  exists p. apply Shown. auto.
Qed.

(* ================================================================== *)
(** * Stock classes *)
(* ================================================================== *)

Lemma updateInventoryStats_Some (rows : list Product.t)
    (stats : InventoryStats.t) :
  updateInventoryStats rows = Some stats ->
  stats
  = InventoryStats.make
      (fold_left (fun sum product => sum + Product.stock_quantity product)
         rows 0)
      (List.length (filter (fun p => 10 <? Product.stock_quantity p) rows))
      (List.length
         (filter
            (fun p =>
               ((0 <? Product.stock_quantity p)
                && (Product.stock_quantity p <=? 10))%bool)
            rows))
      (List.length (filter (fun p => Product.stock_quantity p =? 0) rows)).
Proof.
  unfold updateInventoryStats. destruct rows; [discriminate |].
  intro H. injection H as <-. reflexivity.
Qed.

Lemma stock_classes (rows : list Product.t) :
  (List.length (filter (fun p => (10 <? Product.stock_quantity p)%Z) rows)
   + List.length
       (filter (fun p => ((0 <? Product.stock_quantity p)%Z
                          && (Product.stock_quantity p <=? 10)%Z)%bool) rows)
   + List.length (filter (fun p => (Product.stock_quantity p =? 0)%Z) rows)
   + List.length (filter (fun p => (Product.stock_quantity p <? 0)%Z) rows)
   = List.length rows)%nat.
Proof.
  induction rows as [| p rows IH]; simpl; [reflexivity |].
  destruct (Z.ltb_spec 10 (Product.stock_quantity p)),
           (Z.ltb_spec 0 (Product.stock_quantity p)),
           (Z.leb_spec (Product.stock_quantity p) 10),
           (Z.eqb_spec (Product.stock_quantity p) 0),
           (Z.ltb_spec (Product.stock_quantity p) 0);
    simpl; lia.
Qed.

(** X22.  The three tiles of the inventory tab of the till (in stock, low
    stock, out of stock) count every product once, except the products
    whose stock is below zero, which no tile counts: the three figures and
    the number of such products add up to the number of products; they
    add up to the number of products when no stock is below zero. *)
Theorem updateInventoryStats_classes (rows : list Product.t)
    (stats : InventoryStats.t) :
  updateInventoryStats rows = Some stats ->
  (InventoryStats.inStockCount stats + InventoryStats.lowStockCount stats
   + InventoryStats.outOfStockCount stats
   + List.length (filter (fun p => (Product.stock_quantity p <? 0)%Z) rows)
   = List.length rows)%nat
  /\ ((forall p, In p rows -> 0 <= Product.stock_quantity p) ->
      (InventoryStats.inStockCount stats + InventoryStats.lowStockCount stats
       + InventoryStats.outOfStockCount stats
       = List.length rows)%nat).
Proof.
  intro Hstats. apply updateInventoryStats_Some in Hstats. subst stats.
  cbn [InventoryStats.inStockCount InventoryStats.lowStockCount
       InventoryStats.outOfStockCount].
  pose proof (stock_classes rows) as C. split; [exact C |].
  intro H.
  assert (filter (fun p => Product.stock_quantity p <? 0) rows = []) as E.
  { clear C. induction rows as [| p l IH]; [reflexivity |]. simpl.
    destruct (Z.ltb_spec (Product.stock_quantity p) 0) as [Hn | Hn].
    - assert (0 <= Product.stock_quantity p) by (apply H; now left). lia.
    - apply IH. intros q Hq. apply H. now right. }
  rewrite E in C. change (List.length (@nil Product.t)) with 0%nat in C.
  now rewrite Nat.add_0_r in C.
Qed.

(** X23.  The inventory list of the till and the one of the dashboard
    give a product the same badge exactly when its stock is zero or more.
    A product with a stock below zero is badged ["Low Stock"] at the till
    and ["Out of Stock"] on the dashboard, and the till lists it under
    none of its filters ["low"], ["out"] and ["in-stock"]. *)
Theorem badges_agree_unless_stock_is_negative (product : Product.t) :
  (badgeText product = AdminApp.badgeText product
   <-> 0 <= Product.stock_quantity product)
  /\ (Product.stock_quantity product < 0 ->
      badgeText product = "Low Stock"
      /\ AdminApp.badgeText product = "Out of Stock"
      /\ forall which rows,
           In product (renderInventoryItems which rows) ->
           which <> "low" /\ which <> "out" /\ which <> "in-stock").
Proof.
  unfold badgeText, AdminApp.badgeText.
  destruct (Z.eqb_spec (Product.stock_quantity product) 0) as [E0 | E0];
    destruct (Z.leb_spec (Product.stock_quantity product) 10) as [L10 | L10];
    destruct (Z.ltb_spec 10 (Product.stock_quantity product)) as [G10 | G10];
    destruct (Z.ltb_spec 0 (Product.stock_quantity product)) as [G0 | G0];
    try lia;
    (split;
     [split; [intro H; try discriminate; lia | intro H; try reflexivity; lia]
     |]);
    intro Hneg; try lia.
  split; [reflexivity |]. split; [reflexivity |].
  intros which rows Hin. unfold renderInventoryItems in Hin.
  repeat split; intros ->; simpl in Hin; apply filter_In in Hin;
    destruct Hin as [_ Hin];
    rewrite ?andb_true_iff, ?Z.ltb_lt, ?Z.leb_le, ?Z.eqb_eq in Hin; lia.
Qed.

Lemma length_filter_perm {A : Type} (f : A -> bool) (l l' : list A) :
  Permutation l l' -> List.length (filter f l) = List.length (filter f l').
Proof.
  induction 1 as [| a l l' _ IH | a b l | l l' l'' _ IH1 _ IH2]; simpl.
  - reflexivity.
  - destruct (f a); simpl; congruence.
  - destruct (f a), (f b); reflexivity.
  - congruence.
Qed.

Lemma total_stock_from (rows : list Product.t) (start : Z) :
  fold_left (fun sum p => sum + Product.stock_quantity p) rows start
  = start + fold_left (fun sum p => sum + Product.stock_quantity p) rows 0.
Proof.
  revert start. induction rows as [| p rows IH]; intro start; simpl.
  - lia.
  - rewrite IH, (IH (Product.stock_quantity p)). lia.
Qed.

Lemma total_stock_perm (l l' : list Product.t) :
  Permutation l l' ->
  fold_left (fun sum p => sum + Product.stock_quantity p) l 0
  = fold_left (fun sum p => sum + Product.stock_quantity p) l' 0.
Proof.
  induction 1 as [| a l l' _ IH | a b l | l l' l'' _ IH1 _ IH2]; simpl.
  - reflexivity.
  - rewrite total_stock_from, (total_stock_from l'), IH. reflexivity.
  - rewrite total_stock_from, (total_stock_from l (_ + _)). lia.
  - congruence.
Qed.

Lemma run_getInventorySummary (s : store) :
  served s ->
  run getInventorySummary s
  = (Success (inventorySummary
                (filter (fun p => Product.is_active p) (products s))),
     after_request s).
Proof.
  intro Hs. unfold getInventorySummary, await. cbn [bind run].
  rewrite run_select by assumption. cbn [run].
  rewrite (filter_ext _ _ matches_active). reflexivity.
Qed.

(** X24.  The summary of [getInventorySummary] against the tiles of the
    till, over the same store.  Both count the active products; the units
    in stock and the out-of-stock count agree; the low-stock counts do
    not: the summary counts as low every product under 10 units, those
    with none included, the till those with 1 to 10 units.  So the low
    count of the summary, plus the products with exactly 10 units, is the
    low count of the till plus its out-of-stock count plus the products
    with a stock below zero. *)
Theorem stock_counts_of_the_summary_and_of_the_till (s : store) :
  served s ->
  exists summary loaded,
    fst (run getInventorySummary s) = Success summary
    /\ fst (run (getProducts (Filters.make None None (Some true))) s)
       = Success loaded
    /\ forall stats, updateInventoryStats loaded = Some stats ->
         InventorySummary.totalInventory summary
         = InventoryStats.totalInventory stats
         /\ InventorySummary.outOfStockCount summary
            = InventoryStats.outOfStockCount stats
         /\ (InventorySummary.lowStockCount summary
             + List.length
                 (filter (fun p => (Product.stock_quantity p =? 10)%Z) loaded)
             = InventoryStats.lowStockCount stats
               + InventoryStats.outOfStockCount stats
               + List.length
                   (filter (fun p => (Product.stock_quantity p <? 0)%Z) loaded))%nat.
Proof.
  intro Hs.
  rewrite run_getInventorySummary, run_loadProducts by assumption.
  do 2 eexists. split; [reflexivity |]. split; [reflexivity |].
  set (active := filter (fun p => Product.is_active p) (products s)).
  pose proof (order_by_name_perm active) as Perm.
  destruct (inventorySummary_counts active) as (Low & Out & Total).
  rewrite Low, Out, Total.
  intros stats Hstats. apply updateInventoryStats_Some in Hstats.
  subst stats.
  cbn [InventoryStats.totalInventory InventoryStats.lowStockCount
       InventoryStats.outOfStockCount].
  rewrite (total_stock_perm _ _ Perm).
  rewrite !(length_filter_perm _ _ _ Perm).
  split; [reflexivity |]. split; [reflexivity |].
  generalize (order_by_name active). intro l.
  induction l as [| p l IH]; simpl; [reflexivity |].
  destruct (Z.ltb_spec (Product.stock_quantity p) 10),
           (Z.ltb_spec 0 (Product.stock_quantity p)),
           (Z.leb_spec (Product.stock_quantity p) 10),
           (Z.eqb_spec (Product.stock_quantity p) 0),
           (Z.eqb_spec (Product.stock_quantity p) 10),
           (Z.ltb_spec (Product.stock_quantity p) 0);
    simpl; lia.
Qed.

(* ================================================================== *)
(** * Looking a product up by its barcode *)
(* ================================================================== *)

Lemma filter_single {A : Type} (f : A -> bool) (l : list A) (a : A) :
  NoDup l ->
  (filter f l = [a]
   <-> In a l /\ f a = true /\ forall b, In b l -> f b = true -> b = a).
Proof.
  intro N. split.
  - intro F.
    assert (forall b, In b (filter f l) <-> b = a) as H.
    { intro b. rewrite F. simpl. intuition. }
    assert (In a (filter f l)) as Ha by now apply H.
    apply filter_In in Ha. destruct Ha as [Ha Hf].
    split; [assumption |]. split; [assumption |].
    intros b Hb Hfb. apply H. apply filter_In. auto.
  - intros (Ha & Hf & Honly).
    induction l as [| x l IH]; [destruct Ha |].
    inversion N as [| ? ? Hx N']. subst. simpl.
    destruct (f x) eqn:Fx.
    + assert (x = a) as -> by (apply Honly; [now left | assumption]).
      f_equal.
      destruct (filter f l) as [| y rest] eqn:F; [reflexivity |].
      assert (In y (filter f l)) as Hy by (rewrite F; now left).
      apply filter_In in Hy. destruct Hy as [Hy Hfy].
      assert (y = a) as -> by (apply Honly; [now right | assumption]).
      contradiction.
    + destruct Ha as [-> | Ha]; [congruence |].
      apply IH; auto. intros b Hb. apply Honly. now right.
Qed.

Lemma unique_ids_NoDup (rows : list Product.t) :
  unique_ids rows -> NoDup rows.
Proof.
  unfold unique_ids. induction rows as [| r rows IH]; intro N.
  - constructor.
  - inversion N as [| ? ? Hno N']. subst. constructor; auto.
    intro Hin. apply Hno. now apply in_map.
Qed.

(** X25.  When the store serves the request and [id] is a key of
    [products], [getProductByBarcode] answers a product exactly when it is
    the only row with that barcode; whether the row is active plays no
    part, so a product that was deleted is still found by its barcode. *)
Theorem getProductByBarcode_finds (s : store) (barcode : string)
    (p : Product.t) :
  served s -> unique_ids (products s) ->
  (fst (run (getProductByBarcode barcode) s) = Success p
   <-> In p (products s) /\ Product.barcode p = barcode
       /\ forall q, In q (products s) -> Product.barcode q = barcode -> q = p).
Proof.
  intros Hs U. rewrite run_getProductByBarcode by assumption. cbn [fst].
  assert (forall q, matches_all [eq_barcode barcode] q = true
                    <-> Product.barcode q = barcode) as M.
  { intro q. unfold matches_all. simpl.
    now rewrite andb_true_r, String.eqb_eq. }
  pose proof (filter_single (matches_all [eq_barcode barcode]) (products s) p
                (unique_ids_NoDup _ U)) as F.
  rewrite M in F.
  assert ((forall b, In b (products s) ->
                     matches_all [eq_barcode barcode] b = true -> b = p)
          <-> (forall q, In q (products s) ->
                         Product.barcode q = barcode -> q = p)) as Q.
  { split; intros H q Hq Hb; apply H; auto; now apply M. }
  rewrite Q in F. rewrite <- F.
  destruct (filter _ (products s)) as [| a [| b l]]; simpl;
    split; try discriminate; intros [= ->]; reflexivity.
Qed.

(* ================================================================== *)
(** * Selling a product that is not there *)
(* ================================================================== *)

(** The store refuses the lines of a cart in which an entry is for a
    product that is not there. *)
Lemma insert_sale_items_unknown (sale_rows : list Sale.t)
    (product_rows : list Product.t) (saleId : id) (items : list CartItem.t)
    (item : CartItem.t) :
  In item items ->
  ~ In (CartItem.id item) (map Product.id product_rows) ->
  insert_sale_items sale_rows product_rows (map (saleItem saleId) items)
  = None.
Proof.
  intros Hin Hno.
  assert (has_product (CartItem.id item) product_rows = false) as F.
  { destruct (has_product _ _) eqn:E; [| reflexivity].
    apply has_product_In in E. contradiction. }
  induction items as [| a items IH]; [destruct Hin |].
  cbn [map insert_sale_items].
  destruct Hin as [-> | Hin].
  - unfold insert_sale_item at 1. cbn [saleItem NewSaleItem.product_id].
    now rewrite F, andb_false_r.
  - rewrite (IH Hin). now destruct (insert_sale_item _ _ _).
Qed.

(** X26.  [createSale] does not check that the products of the cart
    exist; it is the store that refuses the lines, once the sale is
    recorded.  With a cashier signed in, a total that is a number and a
    store that serves the first two requests, a cart with an entry for a
    product that no row of [products] has makes [createSale] fail on the
    sale lines, with the refusal of the store: the sale row stays in
    [sales] with no line, and no stock and no ledger entry has changed. *)
Theorem createSale_unknown_product (s : store) (saleData : SaleData.t)
    (item : CartItem.t) (user : string) (total : Q) :
  auth s = Session user ->
  served s -> hd None (tl (outages s)) = None ->
  SaleData.total saleData = Num total ->
  In item (SaleData.items saleData) ->
  ~ In (CartItem.id item) (map Product.id (products s)) ->
  let s' := snd (run (createSale saleData) s) in
  fst (run (createSale saleData) s) = Failure column_rejects
  /\ sales s'
     = sales s ++ [Sale.make (next_id s) user total
                     (SaleData.payment_method saleData)]
  /\ sale_items s' = sale_items s
  /\ products s' = products s
  /\ inventory_transactions s' = inventory_transactions s.
Proof.
  intros A Hs Hs2 T Hin Hno. cbv zeta.
  rewrite run_createSale, A, Hs, T, parseFloat_Number.
  cbn [insert_sale mandatory_number NewSale.total NewSale.cashier_id
       NewSale.payment_method Sale.id].
  cbv zeta.
  cbn [outages sales products with_next_id with_sales after_request
       with_outages].
  rewrite Hs2.
  rewrite (insert_sale_items_unknown _ _ _ _ item Hin Hno).
  repeat split.
Qed.

(* ================================================================== *)
(** * Selling a product that was deleted *)
(* ================================================================== *)

(** X27.  Deleting a product takes it off the tills that load their
    products afterwards, but [createSale] does not look at [is_active].
    On a store that fails nothing, with a cashier signed in, once a
    product is deleted: [addToCart] does nothing for it at a till that has
    loaded its products since; yet a till that still holds it in its cart
    gets a success from [createSale], and the stock of the deleted product
    goes down by the quantity sold. *)
Theorem deleted_product_can_still_be_sold (s : store) (p : Product.t)
    (item : CartEntry.t) (user paymentMethod : string) (this : PosApp.t) :
  outages s = [] -> auth s = Session user ->
  unique_ids (products s) -> In p (products s) ->
  PosApp.cart this = [item] ->
  CartEntry.id item = Product.id p ->
  (exists q, CartEntry.price item = Num q) ->
  1 <= CartEntry.quantity item ->
  let s1 := snd (run (deleteProduct (Product.id p)) s) in
  let s2 := snd (run (processPayment_createSale paymentMethod this) s1) in
  (forall loaded till,
     fst (run (getProducts (Filters.make None None (Some true))) s1)
     = Success loaded ->
     PosApp.products till = loaded ->
     addToCart (Product.id p) till = till)
  /\ (exists r,
        fst (run (processPayment_createSale paymentMethod this) s1) = Success r)
  /\ stock_of (Product.id p) (products s2)
     = Some (Product.stock_quantity p - CartEntry.quantity item)
  /\ exists sold,
       In sold (products s2) /\ Product.id sold = Product.id p
       /\ Product.is_active sold = false.
Proof.
  intros O A U Hin Hcart Hid Hprice Hq. cbv zeta.
  rewrite (run_deleteProduct_found s p) by auto using quiet_served.
  cbn [snd]. set (s1 := with_products _ _).
  assert (outages s1 = []) as O1 by (subst s1; simpl; now rewrite O).
  assert (auth s1 = Session user) as A1 by (subst s1; simpl; assumption).
  assert (products s1 = replace_row (Product.id p) (with_is_active false p)
                          (products s)) as P1 by reflexivity.
  assert (unique_ids (products s1)) as U1
    by (rewrite P1; now apply unique_ids_replace_row).
  assert (In (with_is_active false p) (products s1)) as Hin1.
  { rewrite P1. apply In_replace_row; [reflexivity |]. right.
    split; [reflexivity |]. now apply in_map. }
  clearbody s1.
  split.
  - intros loaded till. rewrite run_loadProducts by auto using quiet_served.
    cbn [fst]. intros [= <-] Hp. unfold addToCart. rewrite Hp.
    destruct (find _ _) as [a |] eqn:F; [exfalso | reflexivity].
    apply find_some in F. destruct F as [Ha E]. apply Nat.eqb_eq in E.
    apply In_order_by_name, filter_In in Ha. destruct Ha as [Ha Hact].
    assert (a = with_is_active false p) as ->
      by (apply (unique_ids_same (products s1)); auto).
    discriminate.
  - unfold processPayment_createSale. rewrite Hcart.
    assert (Forall (fun item => 1 <= CartEntry.quantity item
                                /\ exists q, CartEntry.price item = Num q)
              [item]) as F by (constructor; [split; assumption | constructor]).
    destruct (total_is_a_number [item] (inject_Z 0) F) as [total T].
    assert (Forall (fun item => has_product (CartEntry.id item) (products s1)
                                = true) [item]) as R.
    { constructor; [| constructor]. apply has_product_In. rewrite Hid.
      change (Product.id p) with (Product.id (with_is_active false p)).
      now apply in_map. }
    destruct (insert_sale_items_cart
                (sales s1 ++ [Sale.make (next_id s1) user total paymentMethod])
                (products s1) (next_id s1) [item]
                (has_sale_last (sales s1)
                   (Sale.make (next_id s1) user total paymentMethod)) R F)
      as (lines & I & L).
    set (saleData := processPayment_saleData _ _).
    assert (SaleData.total saleData = Num total) as T'.
    { subst saleData. unfold processPayment_saleData. cbn [SaleData.total].
      rewrite total_of_cart. exact T. }
    rewrite (run_createSale_quiet saleData s1 user total lines A1 O1 T' I).
    cbv zeta. cbn [fst snd]. split; [eexists; reflexivity |].
    set (s2 := with_sale_items _ _).
    assert (outages s2 = []) as O2 by (subst s2; simpl; now rewrite O1).
    assert (auth s2 = Session user) as A2 by (subst s2; simpl; assumption).
    assert (products s2 = products s1) as P2 by reflexivity.
    clearbody s2.
    change (SaleData.items saleData) with [cartItem item].
    rewrite run_updateStocks_cons.
    rewrite (run_updateStock_sells (next_id s1) user (cartItem item)
               (with_is_active false p) (CartEntry.quantity item) s2);
      auto; try (now rewrite P2).
    cbn [snd updateStocks run products with_inventory_transactions
         after_request with_outages with_products].
    rewrite P2. split.
    + apply stock_of_written. change (Product.id (with_is_active false p))
        with (Product.id p).
      rewrite P1. unfold replace_row. rewrite map_map.
      apply in_map_iff. exists p. split; [| assumption].
      now rewrite Nat.eqb_refl.
    + exists (with_stock (Product.stock_quantity p - CartEntry.quantity item)
                (with_is_active false p)).
      split; [| split; reflexivity].
      apply in_map_iff. exists (with_is_active false p).
      split; [| assumption]. simpl. now rewrite Nat.eqb_refl.
Qed.

(* ================================================================== *)
(** * The further statements at work *)
(* ================================================================== *)

Lemma fresh_ids_shop : fresh_ids shop.
Proof.
  intros p [<- | [<- | [<- | []]]]; simpl; lia.
Defined.

Lemma stocks_of_shop (p : Product.t) :
  In p (products shop) ->
  In p (products shop) /\ 0 <= Product.stock_quantity p.
Proof.
  intro H. split; [exact H |].
  destruct H as [<- | [<- | [<- | []]]]; simpl; lia.
Defined.

(** X1 at work: the jeans are found under their identifier. *)
Lemma getProductById_finds_witness :
  served shop
  /\ fst (run (getProductById 2) shop) = Success jeans.
Proof.
  split; [reflexivity |].
  destruct (getProductById_finds shop 2) as [H _];
    [reflexivity | exact unique_ids_shop |].
  apply H. simpl. auto.
Defined.

(** X2 at work: the shirt is deleted, and stays in the table. *)
Lemma deleteProduct_soft_delete_witness :
  exists p',
    fst (run (deleteProduct 1) shop) = Success (Some p')
    /\ products (snd (run (deleteProduct 1) shop)) = [p'; jeans; belt]
    /\ Product.is_active p' = false
    /\ Product.name p' = "Blue Shirt"
    /\ Product.stock_quantity p' = 5
    /\ Product.barcode p' = "LIM013".
Proof.
  destruct (deleteProduct_soft_delete shop shirt eq_refl unique_ids_shop
              (or_introl eq_refl))
    as (p' & R & _ & _ & A & N & _ & _ & _ & St & _ & B & _).
  exists p'. split; [exact R |].
  split; [| repeat split; assumption].
  vm_compute in R. injection R as <-. reflexivity.
Defined.

(** X3 at work: once the shirt is deleted the list has the jeans and the
    belt, and the shirt is still found under its identifier. *)
Lemma deleteProduct_then_reads_witness :
  (exists data,
     fst (run (getProducts (Filters.make None None None))
            (snd (run (deleteProduct 1) shop))) = Success data
     /\ forall a, In a data
                  <-> In a (products shop) /\ Product.is_active a = true
                      /\ Product.id a <> 1%nat)
  /\ fst (run (getProductById 1) (snd (run (deleteProduct 1) shop)))
     = Success (with_is_active false shirt).
Proof.
  apply (deleteProduct_then_reads shop shirt).
  - reflexivity.
  - exact unique_ids_shop.
  - simpl. auto.
Defined.

(** X4 at work: the shop has no product 9. *)
Lemma updateProduct_unknown_id_witness :
  run (updateProduct 9 below_zero) shop = (Success None, after_request shop)
  /\ run (deleteProduct 9) shop = (Success None, after_request shop).
Proof.
  apply (updateProduct_unknown_id shop 9 below_zero).
  - reflexivity.
  - simpl. intuition discriminate.
Defined.

(** X5 at work: a hat without a price is refused, and the shop is as it
    was. *)
Lemma createProduct_failure_witness :
  fst (run (createProduct no_price) shop) = Failure column_rejects
  /\ same_tables shop (snd (run (createProduct no_price) shop))
  /\ next_id (snd (run (createProduct no_price) shop)) = next_id shop.
Proof.
  split; [reflexivity |].
  apply (proj2 (createProduct_failure shop no_price column_rejects)).
  reflexivity.
Defined.

(** X6 at work: ten hats are created, and found again. *)
Lemma createProduct_then_getProductById_witness :
  run (createProduct ten_hats) shop
  = (Success hat, snd (run (createProduct ten_hats) shop))
  /\ fst (run (getProductById 4) (snd (run (createProduct ten_hats) shop)))
     = Success hat.
Proof.
  assert (run (createProduct ten_hats) shop
          = (Success hat, snd (run (createProduct ten_hats) shop))) as H
    by (vm_compute; reflexivity).
  split; [exact H |].
  apply (createProduct_then_getProductById shop _ ten_hats hat
           eq_refl unique_ids_shop fresh_ids_shop H).
Defined.

(** X7 at work: the barcode of the shirt is taken, except for the shirt
    itself. *)
Lemma checkBarcodeExists_finds_witness :
  served shop
  /\ (exists found,
        run (checkBarcodeExists "LIM013" (Some 1%nat)) shop
        = (Success found, after_request shop)
        /\ (found = true
            <-> exists p,
                  In p (products shop) /\ Product.barcode p = "LIM013"
                  /\ Product.is_active p = true
                  /\ forall i, Some 1%nat = Some i -> i <> 0%nat ->
                               Product.id p <> i)).
Proof.
  split; [reflexivity |].
  apply (checkBarcodeExists_finds shop "LIM013" (Some 1%nat)).
  reflexivity.
Defined.

(** X9 at work: with nobody signed in, nothing is written to the
    ledger. *)
Lemma createInventoryTransaction_outcome_witness :
  fst (run (createInventoryTransaction
              (TransactionData.make 1 "restock" (of_Z 5) "" (Some "manager-1")))
         shop_signed_out)
  = Failure "User not authenticated"
  /\ same_tables shop_signed_out
       (snd (run (createInventoryTransaction
                    (TransactionData.make 1 "restock" (of_Z 5) ""
                       (Some "manager-1")))
               shop_signed_out)).
Proof.
  split; [reflexivity |].
  exact (proj1 (createInventoryTransaction_outcome shop_signed_out
                  (TransactionData.make 1 "restock" (of_Z 5) ""
                     (Some "manager-1")))).
Defined.

(** X10 at work: nobody is signed in. *)
Lemma createSale_failure_witness :
  fst (run (createSale two_shirts) shop_signed_out)
  = Failure "User not authenticated"
  /\ products (snd (run (createSale two_shirts) shop_signed_out))
     = products shop_signed_out
  /\ snd (run (createSale two_shirts) shop_signed_out) = shop_signed_out.
Proof.
  split; [reflexivity |].
  destruct (createSale_failure shop_signed_out two_shirts
              "User not authenticated" eq_refl) as (P & _ & _ & H).
  split; [exact P |].
  apply H. discriminate.
Defined.

(** X11 at work: the store fails the insert of the lines. *)
Lemma createSale_no_rollback_witness :
  fst (run (createSale two_shirts) shop_cut_off) = Failure "network error"
  /\ sales (snd (run (createSale two_shirts) shop_cut_off))
     = [first_sale (binary64 (1999 # 50))]
  /\ sale_items (snd (run (createSale two_shirts) shop_cut_off)) = []
  /\ products (snd (run (createSale two_shirts) shop_cut_off))
     = products shop.
Proof.
  split; [vm_compute; reflexivity |].
  destruct (createSale_no_rollback shop_cut_off two_shirts "cashier-1"
              "network error" (binary64 (1999 # 50)))
    as (S & L & P & _).
  - reflexivity.
  - reflexivity.
  - vm_compute. reflexivity.
  - vm_compute. reflexivity.
  - split; [exact S |]. split; [exact L | exact P].
Defined.

(** X12 at work: two shirts are sold; the belt is left alone. *)
Lemma createSale_leaves_other_products_witness :
  stock_of 3 (products (snd (run (createSale two_shirts) shop))) = Some 20
  /\ entries_of 3
       (inventory_transactions (snd (run (createSale two_shirts) shop)))
     = [].
Proof.
  apply (createSale_leaves_other_products shop two_shirts 3).
  simpl. intuition discriminate.
Defined.

(** X13 at work: the shop has no product 9 to restock. *)
Lemma restockProduct_failure_witness :
  fst (run (restockProduct 9 (Str "5") "") shop) = Failure "Product not found"
  /\ same_tables shop (snd (run (restockProduct 9 (Str "5") "") shop)).
Proof.
  split; [reflexivity |].
  apply (proj2 (restockProduct_failure shop 9 (Str "5") "")
           "Product not found").
  reflexivity.
Defined.

(** X14 at work: five shirts come in. *)
Lemma restockProduct_restocks_witness :
  parseInt (Str "5") = of_Z 5
  /\ stock_of 1 (products (snd (run (restockProduct 1 (Str "5") "") shop)))
     = Some (5 + 5)
  /\ inventory_transactions (snd (run (restockProduct 1 (Str "5") "") shop))
     = [InventoryTransaction.make 1 "restock" 5 "cashier-1"
          "Restocked 5 units"].
Proof.
  split; [reflexivity |].
  destruct (restockProduct_restocks shop shirt (Str "5") 5 "" "cashier-1")
    as (St & _ & Led & _).
  - reflexivity.
  - reflexivity.
  - exact unique_ids_shop.
  - simpl. auto.
  - reflexivity.
  - split; [exact St | exact Led].
Defined.

(** X15 at work: the three categories of the shop. *)
Lemma getCategories_distinct_witness :
  served shop
  /\ exists categories,
       run getCategories shop = (Success categories, after_request shop)
       /\ NoDup categories
       /\ forall c, In c categories
                    <-> exists p, In p (products shop)
                                  /\ Product.is_active p = true
                                  /\ Product.category p = c.
Proof.
  split; [reflexivity |].
  apply (getCategories_distinct shop). reflexivity.
Defined.

(** X17 at work: the products of the shop have a stock of zero or more,
    and the cart stays within it. *)
Lemma cart_stays_within_stock_witness :
  In (CartEntry.make 1 "Blue Shirt" (Num (1999 # 100)) 2 5)
    (PosApp.cart (acts shirts_and_belt (opened (products shop))))
  /\ exists product,
       In product (products shop)
       /\ Product.id product = 1%nat
       /\ 5 = Product.stock_quantity product
       /\ 1 <= 2 <= Product.stock_quantity product.
Proof.
  split; [simpl; auto |].
  apply (proj1 (cart_stays_within_stock (products shop) unique_ids_shop)
           (fun p Hp => proj2 (stocks_of_shop p Hp))
           shirts_and_belt
           (CartEntry.make 1 "Blue Shirt" (Num (1999 # 100)) 2 5)).
  simpl. auto.
Defined.



(** X20 at work: the search for "blue" among the shirts. *)
Lemma filterProducts_finds_what_getProducts_finds_witness :
  fst (run (getProducts (Filters.make (Some "Shirts") (Some "blue") (Some true)))
         shop) = Success [shirt]
  /\ incl [shirt]
       (filterProducts (PosApp.make [shirt; belt; jeans] [] "Shirts" "blue")).
Proof.
  split; [reflexivity |].
  apply (filterProducts_finds_what_getProducts_finds shop "Shirts" "blue" []
           [shirt; belt; jeans] [shirt]); reflexivity.
Defined.

(** X21 at work: the buttons of the shop. *)
Lemma category_buttons_list_products_witness :
  served shop
  /\ fst (run loadCategories shop)
     = Some ["All"; "Shirts"; "Jeans"; "Accessories"]
  /\ exists loaded,
       fst (run (getProducts (Filters.make None None (Some true))) shop)
       = Success loaded
       /\ forall p,
            In p (filterProducts (PosApp.make loaded [] "Jeans" ""))
            <-> In p (products shop)
                /\ Product.is_active p = true
                /\ ("Jeans" = "All" \/ Product.category p = "Jeans").
Proof.
  split; [reflexivity |].
  destruct (category_buttons_list_products shop [] eq_refl)
    as (categories & loaded & C & L & _ & _ & Shown).
  vm_compute in C. injection C as <-.
  split; [reflexivity |].
  exists loaded. split; [exact L |].
  apply (Shown "Jeans"). simpl. auto.
Defined.

(** X22 at work: one product of the shop in each class. *)
Lemma updateInventoryStats_classes_witness :
  updateInventoryStats (products shop)
  = Some (InventoryStats.make 25 1 1 1)
  /\ (1 + 1 + 1 = List.length (products shop))%nat.
Proof.
  split; [reflexivity |].
  apply (proj2 (updateInventoryStats_classes (products shop)
                  (InventoryStats.make 25 1 1 1) eq_refl)).
  intros p Hp. apply (stocks_of_shop p Hp).
Defined.

(** X23 at work: a shirt with one unit less than none. *)
Lemma badges_agree_unless_stock_is_negative_witness :
  badgeText (with_stock (-1) shirt) = "Low Stock"
  /\ AdminApp.badgeText (with_stock (-1) shirt) = "Out of Stock"
  /\ forall which rows,
       In (with_stock (-1) shirt) (renderInventoryItems which rows) ->
       which <> "low" /\ which <> "out" /\ which <> "in-stock".
Proof.
  apply (proj2 (badges_agree_unless_stock_is_negative (with_stock (-1) shirt))).
  simpl. lia.
Defined.

(** X24 at work: the summary says two products are low, the till one. *)
Lemma stock_counts_of_the_summary_and_of_the_till_witness :
  served shop
  /\ exists summary loaded,
       fst (run getInventorySummary shop) = Success summary
       /\ fst (run (getProducts (Filters.make None None (Some true))) shop)
          = Success loaded
       /\ forall stats, updateInventoryStats loaded = Some stats ->
            InventorySummary.totalInventory summary
            = InventoryStats.totalInventory stats
            /\ InventorySummary.outOfStockCount summary
               = InventoryStats.outOfStockCount stats
            /\ (InventorySummary.lowStockCount summary
                + List.length
                    (filter (fun p => (Product.stock_quantity p =? 10)%Z)
                       loaded)
                = InventoryStats.lowStockCount stats
                  + InventoryStats.outOfStockCount stats
                  + List.length
                      (filter (fun p => (Product.stock_quantity p <? 0)%Z)
                         loaded))%nat.
Proof.
  split; [reflexivity |].
  apply (stock_counts_of_the_summary_and_of_the_till shop). reflexivity.
Defined.

(** X25 at work: the shirt is the only product with its barcode, and is
    found by it after it was deleted. *)
Lemma getProductByBarcode_finds_witness :
  fst (run (getProductByBarcode "LIM013") (snd (run (deleteProduct 1) shop)))
  = Success (with_is_active false shirt).
Proof.
  apply (getProductByBarcode_finds (snd (run (deleteProduct 1) shop)) "LIM013"
           (with_is_active false shirt)).
  - reflexivity.
  - unfold unique_ids. simpl.
    repeat constructor; simpl; intuition discriminate.
  - split; [simpl; auto |]. split; [reflexivity |].
    intros q [<- | [<- | [<- | []]]]; simpl; intro H;
      [reflexivity | discriminate | discriminate].
Defined.

(** X26 at work: a sale of a product the shop does not have. *)
Lemma createSale_unknown_product_witness :
  fst (run (createSale ghost) shop) = Failure column_rejects
  /\ sales (snd (run (createSale ghost) shop)) = [first_sale 5]
  /\ sale_items (snd (run (createSale ghost) shop)) = []
  /\ products (snd (run (createSale ghost) shop)) = products shop
  /\ inventory_transactions (snd (run (createSale ghost) shop)) = [].
Proof.
  apply (createSale_unknown_product shop ghost
           (CartItem.make 9 "Ghost" (Num (5 # 1)) (of_Z 1)) "cashier-1" 5%Q).
  - reflexivity.
  - reflexivity.
  - reflexivity.
  - vm_compute. reflexivity.
  - simpl. auto.
  - simpl. intuition discriminate.
Defined.

(** X27 at work: the shirt is deleted while a till holds two in its cart;
    the two are sold. *)
Lemma deleted_product_can_still_be_sold_witness :
  (exists r,
     fst (run (processPayment_createSale "Cash" till_with_shirts)
            (snd (run (deleteProduct 1) shop))) = Success r)
  /\ stock_of 1
       (products
          (snd (run (processPayment_createSale "Cash" till_with_shirts)
                  (snd (run (deleteProduct 1) shop)))))
     = Some (5 - 2).
Proof.
  destruct (deleted_product_can_still_be_sold shop shirt
              (CartEntry.make 1 "Blue Shirt" (Num (1999 # 100)) 2 5)
              "cashier-1" "Cash" till_with_shirts)
    as (_ & R & St & _).
  - reflexivity.
  - reflexivity.
  - exact unique_ids_shop.
  - simpl. auto.
  - reflexivity.
  - reflexivity.
  - now exists (1999 # 100)%Q.
  - simpl. lia.
  - split; [exact R | exact St].
Defined.
